(** * Game Center administration scripts (tools/*.py): a shallow embedding

    The four App Store Connect scripts are sequences of HTTP calls, prints
    and file reads.  They are embedded as functions of a small state and
    exception monad over a [world]: the responses the network is going to
    serve, the log of the requests issued so far, the text printed so far,
    the local files, the clock and the JWT signer.  Python values that come
    out of [resp.json()] are values of [json], and every dictionary access
    keeps the exception Python would raise. *)

From Stdlib Require Import ZArith List String Ascii Bool Lia Permutation.
From Stdlib Require Import DecimalString.
From Stdlib.Strings Require Import Byte.
Import ListNotations.

Set Warnings "-register-all".

Local Open Scope string_scope.
Local Open Scope list_scope.
Local Open Scope Z_scope.

Notation "a +++ b" := (String.append a b) (at level 60, right associativity).

(** ** Python values *)

(** What [json.loads] builds (numbers are restricted to the integers, the
    only ones these scripts read). [JNull] is Python's [None]. *)
Inductive json : Type :=
| JNull
| JBool (b : bool)
| JInt (n : Z)
| JStr (s : string)
| JList (l : list json)
| JDict (kv : list (string * json)).

Inductive exn : Type :=
| ConnectionError
| InvalidURL
| JSONDecodeError
| KeyError (k : string)
| IndexError
| TypeError
| AttributeError
| FileNotFoundError (path : string)
| InvalidKeyError.

(** Python's truth value of an object, as tested by [if x] and [while x]. *)
Definition truthy (j : json) : bool :=
  match j with
  | JNull => false
  | JBool b => b
  | JInt n => negb (n =? 0)
  | JStr s => negb (s =? "")%string
  | JList l => match l with [] => false | _ => true end
  | JDict kv => match kv with [] => false | _ => true end
  end.

Fixpoint dict_get (kv : list (string * json)) (k : string) : option json :=
  match kv with
  | [] => None
  | (k', v) :: kv' => if (k' =? k)%string then Some v else dict_get kv' k
  end.

(** [d.get(k, default)]: only a dict has the method. *)
Definition py_get (d : json) (k : string) (default : json) : exn + json :=
  match d with
  | JDict kv => inr (match dict_get kv k with Some v => v | None => default end)
  | _ => inl AttributeError
  end.

(** [d[k]] with a string key. *)
Definition py_item (d : json) (k : string) : exn + json :=
  match d with
  | JDict kv => match dict_get kv k with Some v => inr v | None => inl (KeyError k) end
  | _ => inl TypeError
  end.

Definition chars (s : string) : list json :=
  map (fun c => JStr (String c "")) (list_ascii_of_string s).

(** [l[0]]. *)
Definition py_first (l : json) : exn + json :=
  match l with
  | JList (x :: _) => inr x
  | JList [] => inl IndexError
  | JStr (String c _) => inr (JStr (String c ""))
  | JStr "" => inl IndexError
  | JDict _ => inl (KeyError "0")
  | _ => inl TypeError
  end.

(** The elements [list.extend(x)] and [for e in x] go through. *)
Definition py_iter (x : json) : exn + list json :=
  match x with
  | JList l => inr l
  | JDict kv => inr (map (fun p => JStr (fst p)) kv)
  | JStr s => inr (chars s)
  | _ => inl TypeError
  end.

Definition str_of_Z (n : Z) : string := NilZero.string_of_int (Z.to_int n).

Definition join_with (sep : string) (l : list string) : string :=
  match l with
  | [] => ""
  | x :: xs => fold_left (fun acc s => acc +++ sep +++ s) xs x
  end.

(** [str(x)], as an f-string field formats it.  Inside a list or dict the
    elements are shown by [repr]; its escaping of quotes is left out. *)
Fixpoint py_repr (j : json) : string :=
  match j with
  | JNull => "None"
  | JBool true => "True"
  | JBool false => "False"
  | JInt n => str_of_Z n
  | JStr s => "'" +++ s +++ "'"
  | JList l => "[" +++ join_with ", " (map py_repr l) +++ "]"
  | JDict kv =>
      "{" +++ join_with ", " (map (fun p => "'" +++ fst p +++ "': " +++ py_repr (snd p)) kv) +++ "}"
  end.

Definition py_str (j : json) : string :=
  match j with
  | JStr s => s
  | _ => py_repr j
  end.

(** [s[:n]] *)
Fixpoint str_take (n : nat) (s : string) : string :=
  match n, s with
  | S n', String c s' => String c (str_take n' s')
  | _, _ => ""
  end.

(** ** HTTP messages *)

Inductive payload : Type :=
| NoBody
| JsonBody (j : json)
| RawBody (data : list byte).

Record request : Type := {
  method : string;
  url : string;
  headers : list (string * string);
  params : json;
  body : payload
}.

(** [json_body] is what [resp.json()] returns; [None] when the body does not
    parse and the call raises. *)
Record response : Type := {
  status_code : Z;
  text : string;
  json_body : option json
}.

(** The claims a token is issued for; times are microseconds since the
    epoch, the resolution of [datetime]. *)
Record jwt_claims : Type := {
  iss : string;
  iat : Z;
  exp : Z;
  aud : string
}.

(** ** The world and the monad of the scripts *)

Record world : Type := {
  net : list response;
  sent : list request;
  out : list string;
  files : string -> option (list byte);
  listing : string -> option (list string);
  script_dir : string;
  now : Z;
  slept : Z;
  signer : jwt_claims -> string -> list (string * string) -> option string
}.

Inductive outcome (A : Type) : Type :=
| Ret (a : A)
| Exit (code : Z)
| Raise (e : exn).
Arguments Ret {A} a.
Arguments Exit {A} code.
Arguments Raise {A} e.

Definition M (A : Type) : Type := world -> outcome A * world.

Definition ret {A} (a : A) : M A := fun w => (Ret a, w).

Definition bind {A B} (m : M A) (f : A -> M B) : M B :=
  fun w =>
    match m w with
    | (Ret a, w') => f a w'
    | (Exit c, w') => (Exit c, w')
    | (Raise e, w') => (Raise e, w')
    end.

Notation "x <- c1 ;; c2" := (bind c1 (fun x => c2))
  (at level 61, c1 at next level, right associativity).
Notation "c1 ;; c2" := (bind c1 (fun _ => c2))
  (at level 61, right associativity).

Definition raise {A} (e : exn) : M A := fun w => (Raise e, w).

(** [sys.exit(code)] *)
Definition sys_exit {A} (code : Z) : M A := fun w => (Exit code, w).

Definition lift {A} (r : exn + A) : M A :=
  match r with
  | inl e => raise e
  | inr a => ret a
  end.

Definition set_net (rs : list response) (w : world) : world :=
  {| net := rs; sent := sent w; out := out w; files := files w;
     listing := listing w; script_dir := script_dir w; now := now w;
     slept := slept w; signer := signer w |}.

Definition log_request (q : request) (w : world) : world :=
  {| net := net w; sent := sent w ++ [q]; out := out w; files := files w;
     listing := listing w; script_dir := script_dir w; now := now w;
     slept := slept w; signer := signer w |}.

Definition emit (s : string) (w : world) : world :=
  {| net := net w; sent := sent w; out := out w ++ [s]; files := files w;
     listing := listing w; script_dir := script_dir w; now := now w;
     slept := slept w; signer := signer w |}.

Definition add_slept (ms : Z) (w : world) : world :=
  {| net := net w; sent := sent w; out := out w; files := files w;
     listing := listing w; script_dir := script_dir w; now := now w;
     slept := slept w + ms; signer := signer w |}.

Definition nl : string := String (ascii_of_nat 10) "".

(** [print(s)] and [print(s, end=e)] *)
Definition print (s : string) : M unit := fun w => (Ret tt, emit (s +++ nl) w).
Definition print_end (s e : string) : M unit := fun w => (Ret tt, emit (s +++ e) w).

(** [time.sleep], in milliseconds. *)
Definition sleep (ms : Z) : M unit := fun w => (Ret tt, add_slept ms w).

(** [requests.request(method, url, ...)]: the request goes out, and the
    network answers with its next response; when it has none left the
    library raises [ConnectionError]. *)
Definition requests_request (q : request) : M response :=
  fun w =>
    match net w with
    | [] => (Raise ConnectionError, log_request q w)
    | r :: rs => (Ret r, set_net rs (log_request q w))
    end.

Definition requests_get (u : string) (h : list (string * string)) (p : json) : M response :=
  requests_request {| method := "GET"; url := u; headers := h; params := p; body := NoBody |}.

Definition requests_post (u : string) (h : list (string * string)) (j : json) : M response :=
  requests_request {| method := "POST"; url := u; headers := h; params := JNull; body := JsonBody j |}.

Definition requests_patch (u : string) (h : list (string * string)) (j : json) : M response :=
  requests_request {| method := "PATCH"; url := u; headers := h; params := JNull; body := JsonBody j |}.

Definition requests_delete (u : string) (h : list (string * string)) : M response :=
  requests_request {| method := "DELETE"; url := u; headers := h; params := JNull; body := NoBody |}.

(** [resp.json()] *)
Definition resp_json (r : response) : M json :=
  match json_body r with
  | Some j => ret j
  | None => raise JSONDecodeError
  end.

(** ** What the four scripts share (each has its own identical copy) *)

Definition minutes (n : Z) : Z := n * 60 * 1000000.

(** The [payload] dictionary of [generate_token]. *)
Definition token_payload (issuer_id : string) (t : Z) : jwt_claims :=
  {| iss := issuer_id; iat := t; exp := t + minutes 20; aud := "appstoreconnect-v1" |}.

Definition token_headers (key_id : string) : list (string * string) :=
  [("alg", "ES256"); ("kid", key_id); ("typ", "JWT")].

Definition read_text (path : string) : M string :=
  fun w =>
    match files w path with
    | Some data => (Ret (string_of_list_byte data), w)
    | None => (Raise (FileNotFoundError path), w)
    end.

Definition datetime_now : M Z := fun w => (Ret (now w), w).

Definition jwt_encode (c : jwt_claims) (key : string) (h : list (string * string)) : M string :=
  fun w =>
    match signer w c key h with
    | Some tok => (Ret tok, w)
    | None => (Raise InvalidKeyError, w)
    end.

Definition generate_token (key_id issuer_id key_file : string) : M string :=
  private_key <- read_text key_file ;;
  t <- datetime_now ;;
  jwt_encode (token_payload issuer_id t) private_key (token_headers key_id).

Definition api_headers (token : string) : list (string * string) :=
  [("Authorization", "Bearer " +++ token); ("Content-Type", "application/json")].

(** The [while url:] loop of [api_get_all_pages] / [get_all_pages].  The
    three copies differ in the indentation of the diagnostic and in how much
    of the response text it shows.  Every turn of the loop takes one response
    from the network, so [fuel] = one more than the responses left is never
    used up: at [0] the request finds no response and raises. *)
Fixpoint pages_loop (fuel : nat) (indent : string) (shown : nat) (token : string)
    (u : json) (p : json) (all_data : list json) : M (list json) :=
  if truthy u then
    match u with
    | JStr s =>
        resp <- requests_get s (api_headers token) p ;;
        match fuel with
        | O => raise ConnectionError
        | S fuel' =>
            if negb (status_code resp =? 200) then
              print (indent +++ "GET ERROR " +++ str_of_Z (status_code resp) +++ ": "
                     +++ str_take shown (text resp)) ;;
              ret all_data
            else
              result <- resp_json resp ;;
              data <- lift (py_get result "data" (JList [])) ;;
              items <- lift (py_iter data) ;;
              links <- lift (py_get result "links" (JDict [])) ;;
              next <- lift (py_get links "next" JNull) ;;
              pages_loop fuel' indent shown token next JNull (all_data ++ items)
        end
    | _ => raise InvalidURL
    end
  else ret all_data.

Definition all_pages (indent : string) (shown : nat) (token u : string) (p : json)
  : M (list json) :=
  fun w => pages_loop (S (List.length (net w))) indent shown token (JStr u) p [] w.

(** [result and result.get("data")], as a truth value. *)
Definition has_data (result : json) : M bool :=
  if truthy result then
    d <- lift (py_get result "data" JNull) ;;
    ret (truthy d)
  else ret false.

(** ** Strings, paths and slices *)

Definition want_str (j : json) : exn + string :=
  match j with
  | JStr s => inr s
  | _ => inl TypeError
  end.

(** An index: Python's [bool] is an [int]. *)
Definition want_int (j : json) : exn + Z :=
  match j with
  | JInt n => inr n
  | JBool b => inr (if b then 1 else 0)
  | _ => inl TypeError
  end.

(** [len(x)] *)
Definition py_len (x : json) : exn + Z :=
  match x with
  | JList l => inr (Z.of_nat (List.length l))
  | JDict kv => inr (Z.of_nat (List.length kv))
  | JStr s => inr (Z.of_nat (String.length s))
  | _ => inl TypeError
  end.

(** [s.rstrip("s")]: every trailing occurrence of the character goes. *)
Fixpoint rstrip (c : ascii) (s : string) : string :=
  match s with
  | "" => ""
  | String a s' =>
      match rstrip c s' with
      | "" => if Ascii.eqb a c then "" else String a ""
      | r => String a r
      end
  end.

Fixpoint ends_with (suffix s : string) : bool :=
  (s =? suffix)%string ||
  match s with
  | "" => false
  | String _ s' => ends_with suffix s'
  end.

(** [os.path.basename] *)
Fixpoint basename (s : string) : string :=
  match s with
  | "" => ""
  | String a s' =>
      if existsb (Ascii.eqb "/") (list_ascii_of_string s') then basename s'
      else if Ascii.eqb a "/" then s' else s
  end.

(** [os.path.join(a, b)] *)
Definition path_join (a b : string) : string :=
  if String.prefix "/" b then b
  else if ((a =? "")%string || ends_with "/" a) then a +++ b
  else a +++ "/" +++ b.

(** A slice bound, as Python clamps it for a sequence of length [n]. *)
Definition clamp (n i : Z) : Z :=
  if i <? 0 then Z.max (i + n) 0 else Z.min i n.

(** [l[i:j]] *)
Definition py_slice {A} (l : list A) (i j : Z) : list A :=
  let n := Z.of_nat (List.length l) in
  let a := clamp n i in
  let b := clamp n j in
  firstn (Z.to_nat (b - a)) (skipn (Z.to_nat a) l).

Definition spaces (n : nat) : string := string_of_list_ascii (repeat " "%char n).

(** The format fields [{s:Ns}] and [{s:>N}] *)
Definition ljust (width : nat) (s : string) : string :=
  s +++ spaces (width - String.length s).
Definition rjust (width : nat) (s : string) : string :=
  spaces (width - String.length s) +++ s.

(** Digits in groups of three, from the right: the [,] of [{n:,d}]. *)
Fixpoint group3 (rev_digits : list ascii) (k : nat) : list ascii :=
  match rev_digits with
  | [] => []
  | d :: ds =>
      match k, ds with
      | 2%nat, _ :: _ => d :: ","%char :: group3 ds 0
      | _, _ => d :: group3 ds (S k)
      end
  end.

Definition comma_d (n : Z) : string :=
  let digits := list_ascii_of_string (str_of_Z (Z.abs n)) in
  (if n <? 0 then "-" else "") +++ string_of_list_ascii (rev (group3 (rev digits) 0)).

Fixpoint insert_sorted (x : string) (l : list string) : list string :=
  match l with
  | [] => [x]
  | y :: l' => if String.leb x y then x :: l else y :: insert_sorted x l'
  end.

(** [sorted(names)] *)
Definition sorted (l : list string) : list string :=
  fold_right insert_sorted [] l.

(** ** The local file system *)

Definition read_bytes (path : string) : M (list byte) :=
  fun w =>
    match files w path with
    | Some data => (Ret data, w)
    | None => (Raise (FileNotFoundError path), w)
    end.

Definition getsize (path : string) : M Z :=
  data <- read_bytes path ;; ret (Z.of_nat (List.length data)).

Definition path_exists (path : string) : M bool :=
  fun w => (Ret (match files w path with Some _ => true | None => false end), w).

Definition listdir (path : string) : M (list string) :=
  fun w =>
    match listing w path with
    | Some names => (Ret names, w)
    | None => (Raise (FileNotFoundError path), w)
    end.

Definition get_script_dir : M string := fun w => (Ret (script_dir w), w).

(** ** tools/upload_gc_images.py *)

Module UploadGcImages.

Definition BASE_URL : string := "https://api.appstoreconnect.apple.com/v1".

Definition ACH_DIR : M string :=
  d <- get_script_dir ;; ret (path_join (path_join d "gc_images") "achievements").
Definition LB_DIR : M string :=
  d <- get_script_dir ;; ret (path_join (path_join d "gc_images") "leaderboards").

Definition diagnostic (verb : string) (resp : response) (shown : nat) : string :=
  "    " +++ verb +++ " ERROR " +++ str_of_Z (status_code resp) +++ ": "
  +++ str_take shown (text resp).

Definition api_get (token path : string) (p : json) : M json :=
  resp <- requests_get (BASE_URL +++ path) (api_headers token) p ;;
  if status_code resp =? 200 then resp_json resp
  else print (diagnostic "GET" resp 500) ;; ret JNull.

Definition api_post (token path : string) (data : json) : M json :=
  resp <- requests_post (BASE_URL +++ path) (api_headers token) data ;;
  if (status_code resp =? 200) || (status_code resp =? 201) then resp_json resp
  else print (diagnostic "POST" resp 500) ;; ret JNull.

Definition api_patch (token path : string) (data : json) : M json :=
  resp <- requests_patch (BASE_URL +++ path) (api_headers token) data ;;
  if status_code resp =? 200 then resp_json resp
  else print (diagnostic "PATCH" resp 500) ;; ret JNull.

Definition api_delete (token path : string) : M bool :=
  resp <- requests_delete (BASE_URL +++ path) (api_headers token) ;;
  if (status_code resp =? 200) || (status_code resp =? 204) then ret true
  else print (diagnostic "DELETE" resp 500) ;; ret false.

Definition api_get_all_pages (token path : string) (p : json) : M (list json) :=
  all_pages "    " 500 token (BASE_URL +++ path) p.

(** [{h["name"]: h["value"] for h in hs}]: a later entry replaces the value
    of an earlier one with the same name. *)
Fixpoint dict_set (k v : string) (d : list (string * string)) : list (string * string) :=
  match d with
  | [] => [(k, v)]
  | (k', v') :: d' => if (k' =? k)%string then (k, v) :: d' else (k', v') :: dict_set k v d'
  end.

Fixpoint header_dict (hs : list json) (acc : list (string * string))
  : exn + list (string * string) :=
  match hs with
  | [] => inr acc
  | h :: hs' =>
      match py_item h "name", py_item h "value" with
      | inl e, _ => inl e
      | _, inl e => inl e
      | inr n, inr v =>
          match want_str n, want_str v with
          | inr n', inr v' => header_dict hs' (dict_set n' v' acc)
          | inl e, _ => inl e
          | _, inl e => inl e
          end
      end
  end.

(** [offset + length] and the slice [file_data[offset:offset + length]] *)
Definition chunk_of (file_data : list byte) (offset length : json) : exn + list byte :=
  match want_int offset, want_int length with
  | inr o, inr l => inr (py_slice file_data o (o + l))
  | inl e, _ => inl e
  | _, inl e => inl e
  end.

Definition upload_ok (status : Z) : bool :=
  (status =? 200) || (status =? 201) || (status =? 204).

Fixpoint upload_loop (ops : list json) (file_data : list byte) : M bool :=
  match ops with
  | [] => ret true
  | op :: rest =>
      m <- lift (py_item op "method") ;;
      u <- lift (py_item op "url") ;;
      hs <- lift (py_item op "requestHeaders") ;;
      hl <- lift (py_iter hs) ;;
      req_headers <- lift (header_dict hl []) ;;
      offset <- lift (py_get op "offset" (JInt 0)) ;;
      length <- lift (py_item op "length") ;;
      chunk <- lift (chunk_of file_data offset length) ;;
      m' <- lift (want_str m) ;;
      u' <- lift (want_str u) ;;
      resp <- requests_request {| method := m'; url := u'; headers := req_headers;
                                  params := JNull; body := RawBody chunk |} ;;
      if negb (upload_ok (status_code resp)) then
        print ("    UPLOAD ERROR " +++ str_of_Z (status_code resp) +++ ": "
               +++ str_take 300 (text resp)) ;;
        ret false
      else upload_loop rest file_data
  end.

Definition upload_image_data (upload_operations : json) (file_path : string) : M bool :=
  file_data <- read_bytes file_path ;;
  ops <- lift (py_iter upload_operations) ;;
  upload_loop ops file_data.

Definition delete_existing_image (token resource_type localization_type : string)
    (localization_id : json) : M bool :=
  let image_rel := rstrip "s" resource_type in
  result <- api_get token ("/" +++ localization_type +++ "s/" +++ py_str localization_id
                           +++ "/" +++ image_rel) JNull ;;
  found <- has_data result ;;
  if found then
    d <- lift (py_item result "data") ;;
    image_id <- lift (py_item d "id") ;;
    print_end ("    Deleting existing image " +++ py_str image_id +++ "...") " " ;;
    deleted <- api_delete token ("/" +++ resource_type +++ "/" +++ py_str image_id) ;;
    if deleted then print "OK" ;; ret true
    else print "FAILED" ;; ret false
  else ret true.

Definition reservation (resource_type localization_type : string) (localization_id : json)
    (file_size : Z) (file_name : string) : json :=
  JDict [("data", JDict [
    ("type", JStr resource_type);
    ("attributes", JDict [("fileSize", JInt file_size); ("fileName", JStr file_name)]);
    ("relationships", JDict [
      (localization_type, JDict [("data", JDict [
        ("type", JStr (localization_type +++ "s")); ("id", localization_id)])])])])].

Definition commit_data (resource_type : string) (image_id : json) : json :=
  JDict [("data", JDict [
    ("type", JStr resource_type);
    ("id", image_id);
    ("attributes", JDict [("uploaded", JBool true)])])].

(** [attrs.get("assetDeliveryState", {}).get("state", default)] *)
Definition delivery_state (attrs : json) (default : string) : M json :=
  ds <- lift (py_get attrs "assetDeliveryState" (JDict [])) ;;
  lift (py_get ds "state" (JStr default)).

(** Steps 1 to 3 of [create_and_upload_image], after the old image is dealt with. *)
Definition reserve_upload_commit (token resource_type localization_type : string)
    (localization_id : json) (image_path : string) : M bool :=
  file_size <- getsize image_path ;;
  let file_name := basename image_path in
  result <- api_post token ("/" +++ resource_type)
              (reservation resource_type localization_type localization_id file_size file_name) ;;
  if negb (truthy result) then ret false
  else
    d <- lift (py_item result "data") ;;
    image_id <- lift (py_item d "id") ;;
    attrs <- lift (py_item d "attributes") ;;
    upload_ops <- lift (py_get attrs "uploadOperations" (JList [])) ;;
    asset_state <- delivery_state attrs "" ;;
    if negb (truthy upload_ops) then
      print ("    No upload operations returned (state: " +++ py_str asset_state +++ ")") ;;
      ret false
    else
      n <- lift (py_len upload_ops) ;;
      print_end ("    Uploading " +++ file_name +++ " (" +++ str_of_Z file_size +++ " bytes, "
                 +++ str_of_Z n +++ " ops)...") " " ;;
      success <- upload_image_data upload_ops image_path ;;
      if negb success then print "FAILED" ;; ret false
      else
        commit_result <- api_patch token ("/" +++ resource_type +++ "/" +++ py_str image_id)
                           (commit_data resource_type image_id) ;;
        if truthy commit_result then
          cd <- lift (py_item commit_result "data") ;;
          cattrs <- lift (py_item cd "attributes") ;;
          state <- delivery_state cattrs "UNKNOWN" ;;
          print ("OK (state: " +++ py_str state +++ ")") ;;
          ret true
        else print "COMMIT FAILED" ;; ret false.

Definition create_and_upload_image (token resource_type localization_type : string)
    (localization_id : json) (image_path : string) : M bool :=
  delete_existing_image token resource_type localization_type localization_id ;;
  sleep 300 ;;
  reserve_upload_commit token resource_type localization_type localization_id image_path.

Definition gc_detail_id_of (gc_result : json) : M json :=
  d <- lift (py_item gc_result "data") ;; lift (py_item d "id").

(** The body of the [for ach in achievements] / [for lb in leaderboards]
    loop; the counters are [(uploaded, skipped, failed)]. *)
Fixpoint upload_each (token dir collection resource_type localization_type : string)
    (items : list json) (counts : Z * Z * Z) : M (Z * Z * Z) :=
  match items with
  | [] => ret counts
  | item :: rest =>
      let '(uploaded, skipped, failed) := counts in
      attrs <- lift (py_item item "attributes") ;;
      vendor_id <- lift (py_item attrs "vendorIdentifier") ;;
      item_id <- lift (py_item item "id") ;;
      attrs' <- lift (py_item item "attributes") ;;
      ref_name <- lift (py_item attrs' "referenceName") ;;
      let image_path := path_join dir (py_str vendor_id +++ ".png") in
      present <- path_exists image_path ;;
      if negb present then
        print ("  [" +++ py_str vendor_id +++ "] No image file found at " +++ image_path
               +++ ", skipping") ;;
        upload_each token dir collection resource_type localization_type rest
          (uploaded, skipped + 1, failed)
      else
        locs <- api_get_all_pages token
                  ("/" +++ collection +++ "/" +++ py_str item_id +++ "/localizations") JNull ;;
        match locs with
        | [] =>
            print ("  [" +++ py_str vendor_id +++ "] No localizations found, skipping") ;;
            upload_each token dir collection resource_type localization_type rest
              (uploaded, skipped + 1, failed)
        | loc :: _ =>
            loc_id <- lift (py_item loc "id") ;;
            loc_attrs <- lift (py_item loc "attributes") ;;
            loc_locale <- lift (py_item loc_attrs "locale") ;;
            print ("  [" +++ py_str vendor_id +++ "] " +++ py_str ref_name +++ " (loc: "
                   +++ py_str loc_locale +++ ", id: " +++ py_str loc_id +++ ")") ;;
            success <- create_and_upload_image token resource_type localization_type
                         loc_id image_path ;;
            sleep 500 ;;
            upload_each token dir collection resource_type localization_type rest
              (if success then (uploaded + 1, skipped, failed)
               else (uploaded, skipped, failed + 1))
        end
  end.

Definition upload_images (heading : string) (dir : M string)
    (collection noun label resource_type localization_type : string)
    (token app_id : string) : M unit :=
  print (nl +++ heading) ;;
  gc_result <- api_get token ("/apps/" +++ app_id +++ "/gameCenterDetail") JNull ;;
  found <- has_data gc_result ;;
  if negb found then print "  ERROR: Could not find Game Center Detail"
  else
    gc_detail_id <- gc_detail_id_of gc_result ;;
    print ("  Game Center Detail: " +++ py_str gc_detail_id) ;;
    items <- api_get_all_pages token
               ("/gameCenterDetails/" +++ py_str gc_detail_id +++ "/" +++ collection)
               (JDict [("limit", JInt 200)]) ;;
    print ("  Found " +++ str_of_Z (Z.of_nat (List.length items)) +++ " " +++ noun) ;;
    d <- dir ;;
    counts <- upload_each token d collection resource_type localization_type items (0, 0, 0) ;;
    let '(uploaded, skipped, failed) := counts in
    print (nl +++ "  " +++ label +++ " images: " +++ str_of_Z uploaded +++ " uploaded, "
           +++ str_of_Z skipped +++ " skipped, " +++ str_of_Z failed +++ " failed").

Definition upload_achievement_images : string -> string -> M unit :=
  upload_images "[1/2] Uploading achievement images..." ACH_DIR
    "gameCenterAchievements" "achievements" "Achievement"
    "gameCenterAchievementImages" "gameCenterAchievementLocalization".

Definition upload_leaderboard_images : string -> string -> M unit :=
  upload_images "[2/2] Uploading leaderboard images..." LB_DIR
    "gameCenterLeaderboards" "leaderboards" "Leaderboard"
    "gameCenterLeaderboardImages" "gameCenterLeaderboardLocalization".

Record args : Type := {
  key_id : string;
  issuer_id : string;
  key_file : string;
  app_id : string;
  achievements_only : bool;
  leaderboards_only : bool;
  dry_run : bool
}.

(** One line of the dry run's listing, [f"  {f:40s}  {size:>8,d} bytes"]. *)
Definition listing_line (f : string) (size : Z) : string :=
  "  " +++ ljust 40 f +++ "  " +++ rjust 8 (comma_d size) +++ " bytes".

Fixpoint list_pngs (dir : string) (names : list string) : M unit :=
  match names with
  | [] => ret tt
  | f :: rest =>
      (if ends_with ".png" f then
         size <- getsize (path_join dir f) ;;
         print (listing_line f size)
       else ret tt) ;;
      list_pngs dir rest
  end.

Definition dry_run_listing : M unit :=
  print ("DRY RUN - listing image files" +++ nl) ;;
  print "Achievement images:" ;;
  ach_dir <- ACH_DIR ;;
  ach_names <- listdir ach_dir ;;
  list_pngs ach_dir (sorted ach_names) ;;
  print (nl +++ "Leaderboard images:") ;;
  lb_dir <- LB_DIR ;;
  lb_names <- listdir lb_dir ;;
  list_pngs lb_dir (sorted lb_names).

Definition main (a : args) : M unit :=
  if dry_run a then dry_run_listing
  else
    print "Generating JWT token..." ;;
    token <- generate_token (key_id a) (issuer_id a) (key_file a) ;;
    print ("  Token generated." +++ nl) ;;
    let do_both := negb (achievements_only a) && negb (leaderboards_only a) in
    (if do_both || achievements_only a then upload_achievement_images token (app_id a)
     else ret tt) ;;
    (if do_both || leaderboards_only a then upload_leaderboard_images token (app_id a)
     else ret tt) ;;
    print (nl +++ "Done!").

End UploadGcImages.

(** ** tools/setup_game_center.py *)

Module SetupGameCenter.

Definition BASE_URL : string := "https://api.appstoreconnect.apple.com/v1".

Definition NUM_LEVELS : nat := 60.

Record leaderboard_config : Type := {
  lb_referenceName : string;
  lb_vendorIdentifier : string;
  submissionType : string;
  scoreSortType : string;
  scoreRangeStart : string;
  scoreRangeEnd : string;
  defaultFormatter : string
}.

Record achievement_config : Type := {
  referenceName : string;
  vendorIdentifier : string;
  points : Z;
  repeatable : bool;
  showBeforeEarned : bool
}.

Record localization_config : Type := {
  loc_name : string;
  beforeEarnedDescription : string;
  afterEarnedDescription : string
}.

(** [range(1, NUM_LEVELS + 1)] *)
Definition levels : list Z := map Z.of_nat (seq 1 NUM_LEVELS).

Definition SCORE_LEADERBOARDS : list leaderboard_config :=
  map (fun i =>
         {| lb_referenceName := "Level " +++ str_of_Z i +++ " - Best Score";
            lb_vendorIdentifier := "level_" +++ str_of_Z i +++ "_score";
            submissionType := "BEST_SCORE";
            scoreSortType := "DESC";
            scoreRangeStart := "0";
            scoreRangeEnd := "9999";
            defaultFormatter := "INTEGER" |}) levels.

Definition ACHIEVEMENTS : list achievement_config :=
  map (fun i =>
         {| referenceName := "Level " +++ str_of_Z i +++ " Complete";
            vendorIdentifier := "level_" +++ str_of_Z i +++ "_complete";
            points := 1;
            repeatable := false;
            showBeforeEarned := true |}) levels
  ++ [ {| referenceName := "All Levels Complete";
          vendorIdentifier := "all_levels_complete";
          points := 40;
          repeatable := false;
          showBeforeEarned := true |} ].

Definition ACHIEVEMENT_LOCALIZATIONS : list (string * localization_config) :=
  map (fun i =>
         ("level_" +++ str_of_Z i +++ "_complete",
          {| loc_name := "Level " +++ str_of_Z i +++ " Clear";
             beforeEarnedDescription := "Complete Level " +++ str_of_Z i;
             afterEarnedDescription := "Cleared Level " +++ str_of_Z i +++ "!" |})) levels
  ++ [ ("all_levels_complete",
        {| loc_name := "Number Master";
           beforeEarnedDescription := "Complete all 60 levels";
           afterEarnedDescription := "Cleared all 60 levels! You are the Number Master!" |}) ].

Fixpoint lookup {A} (d : list (string * A)) (k : string) : option A :=
  match d with
  | [] => None
  | (k', v) :: d' => if (k' =? k)%string then Some v else lookup d' k
  end.

Definition api_post (token path : string) (data : json) : M json :=
  resp <- requests_post (BASE_URL +++ path) (api_headers token) data ;;
  if (status_code resp =? 200) || (status_code resp =? 201) then resp_json resp
  else
    print ("  ERROR " +++ str_of_Z (status_code resp) +++ ": " +++ str_take 500 (text resp)) ;;
    ret JNull.

Definition api_get (token path : string) : M json :=
  resp <- requests_get (BASE_URL +++ path) (api_headers token) JNull ;;
  if status_code resp =? 200 then resp_json resp
  else
    print ("  ERROR " +++ str_of_Z (status_code resp) +++ ": " +++ str_take 500 (text resp)) ;;
    ret JNull.

Definition related (name type : string) (id : json) : string * json :=
  (name, JDict [("data", JDict [("type", JStr type); ("id", id)])]).

Definition id_of (result : json) : M json :=
  d <- lift (py_item result "data") ;; lift (py_item d "id").

Definition get_or_create_gc_detail (token app_id : string) : M json :=
  print (nl +++ "[1/4] Getting Game Center Detail...") ;;
  result <- api_get token ("/apps/" +++ app_id +++ "/gameCenterDetail") ;;
  found <- has_data result ;;
  if found then
    gc_detail_id <- id_of result ;;
    print ("  Found existing Game Center Detail: " +++ py_str gc_detail_id) ;;
    ret gc_detail_id
  else
    print "  Creating new Game Center Detail..." ;;
    result' <- api_post token "/gameCenterDetails"
                 (JDict [("data", JDict [
                    ("type", JStr "gameCenterDetails");
                    ("relationships", JDict [related "app" "apps" (JStr app_id)])])]) ;;
    if truthy result' then
      gc_detail_id <- id_of result' ;;
      print ("  Created Game Center Detail: " +++ py_str gc_detail_id) ;;
      ret gc_detail_id
    else
      print "  FAILED to get or create Game Center Detail!" ;;
      sys_exit 1.

Definition leaderboard_data (gc_detail_id : json) (lb : leaderboard_config) : json :=
  JDict [("data", JDict [
    ("type", JStr "gameCenterLeaderboards");
    ("attributes", JDict [
       ("referenceName", JStr (lb_referenceName lb));
       ("vendorIdentifier", JStr (lb_vendorIdentifier lb));
       ("submissionType", JStr (submissionType lb));
       ("scoreSortType", JStr (scoreSortType lb));
       ("scoreRangeStart", JStr (scoreRangeStart lb));
       ("scoreRangeEnd", JStr (scoreRangeEnd lb));
       ("defaultFormatter", JStr (defaultFormatter lb))]);
    ("relationships", JDict [related "gameCenterDetail" "gameCenterDetails" gc_detail_id])])].

Definition create_leaderboard (token : string) (gc_detail_id : json) (lb : leaderboard_config)
  : M json :=
  api_post token "/gameCenterLeaderboards" (leaderboard_data gc_detail_id lb).

Definition create_leaderboard_localization (token : string) (leaderboard_id : json)
    (name formatter_suffix : string) : M json :=
  let attrs := [("locale", JStr "en-US"); ("name", JStr name)]
               ++ (if negb (formatter_suffix =? "")%string
                   then [("formatterSuffix", JStr formatter_suffix)] else []) in
  api_post token "/gameCenterLeaderboardLocalizations"
    (JDict [("data", JDict [
       ("type", JStr "gameCenterLeaderboardLocalizations");
       ("attributes", JDict attrs);
       ("relationships",
        JDict [related "gameCenterLeaderboard" "gameCenterLeaderboards" leaderboard_id])])]).

Fixpoint leaderboards_loop (token : string) (gc_detail_id : json)
    (lbs : list leaderboard_config) : M unit :=
  match lbs with
  | [] => ret tt
  | lb :: rest =>
      print_end ("  Creating: " +++ lb_referenceName lb +++ "...") " " ;;
      result <- create_leaderboard token gc_detail_id lb ;;
      (if truthy result then
         lb_id <- id_of result ;;
         print ("OK (id: " +++ py_str lb_id +++ ")") ;;
         create_leaderboard_localization token lb_id (lb_referenceName lb) " pts" ;;
         ret tt
       else print "FAILED") ;;
      sleep 300 ;;
      leaderboards_loop token gc_detail_id rest
  end.

Definition create_all_leaderboards (token : string) (gc_detail_id : json) : M unit :=
  print (nl +++ "[2/4] Creating " +++ str_of_Z (Z.of_nat (List.length SCORE_LEADERBOARDS))
         +++ " leaderboards...") ;;
  leaderboards_loop token gc_detail_id SCORE_LEADERBOARDS.

Definition achievement_data (gc_detail_id : json) (ach : achievement_config) : json :=
  JDict [("data", JDict [
    ("type", JStr "gameCenterAchievements");
    ("attributes", JDict [
       ("referenceName", JStr (referenceName ach));
       ("vendorIdentifier", JStr (vendorIdentifier ach));
       ("points", JInt (points ach));
       ("repeatable", JBool (repeatable ach));
       ("showBeforeEarned", JBool (showBeforeEarned ach))]);
    ("relationships", JDict [related "gameCenterDetail" "gameCenterDetails" gc_detail_id])])].

Definition create_achievement (token : string) (gc_detail_id : json) (ach : achievement_config)
  : M json :=
  api_post token "/gameCenterAchievements" (achievement_data gc_detail_id ach).

Definition create_achievement_localization (token : string) (achievement_id : json)
    (loc : localization_config) : M json :=
  api_post token "/gameCenterAchievementLocalizations"
    (JDict [("data", JDict [
       ("type", JStr "gameCenterAchievementLocalizations");
       ("attributes", JDict [
          ("locale", JStr "en-US");
          ("name", JStr (loc_name loc));
          ("beforeEarnedDescription", JStr (beforeEarnedDescription loc));
          ("afterEarnedDescription", JStr (afterEarnedDescription loc))]);
       ("relationships",
        JDict [related "gameCenterAchievement" "gameCenterAchievements" achievement_id])])]).

Fixpoint achievements_loop (token : string) (gc_detail_id : json)
    (achs : list achievement_config) : M unit :=
  match achs with
  | [] => ret tt
  | ach :: rest =>
      let vid := vendorIdentifier ach in
      print_end ("  Creating: " +++ referenceName ach +++ "...") " " ;;
      result <- create_achievement token gc_detail_id ach ;;
      (if truthy result then
         ach_id <- id_of result ;;
         print ("OK (id: " +++ py_str ach_id +++ ")") ;;
         loc <- match lookup ACHIEVEMENT_LOCALIZATIONS vid with
                | Some loc => ret loc
                | None => raise (KeyError vid)
                end ;;
         create_achievement_localization token ach_id loc ;;
         ret tt
       else print "FAILED") ;;
      sleep 300 ;;
      achievements_loop token gc_detail_id rest
  end.

Definition create_all_achievements (token : string) (gc_detail_id : json) : M unit :=
  print (nl +++ "[3/4] Creating " +++ str_of_Z (Z.of_nat (List.length ACHIEVEMENTS))
         +++ " achievements...") ;;
  achievements_loop token gc_detail_id ACHIEVEMENTS.

Definition rule : string := string_of_list_ascii (repeat "="%char 60).

Definition count {A} (l : list A) : Z := Z.of_nat (List.length l).

Definition print_summary : M unit :=
  print (nl +++ "[4/4] Summary") ;;
  print rule ;;
  print ("  Score leaderboards: " +++ str_of_Z (count SCORE_LEADERBOARDS)) ;;
  print ("  Achievements:       " +++ str_of_Z (count ACHIEVEMENTS)) ;;
  print ("  Total:              " +++ str_of_Z (count SCORE_LEADERBOARDS + count ACHIEVEMENTS)) ;;
  print rule ;;
  print "" ;;
  print "Next steps:" ;;
  print "  1. Verify in App Store Connect > Game Center" ;;
  print "  2. Achievement images are optional but recommended" ;;
  print "  3. Create a Game Center release when submitting your app" ;;
  print "  4. Test with TestFlight sandbox before going live".

Record args : Type := {
  key_id : string;
  issuer_id : string;
  key_file : string;
  app_id : string;
  dry_run : bool;
  leaderboards_only : bool;
  achievements_only : bool
}.

Definition leaderboard_line (lb : leaderboard_config) : string :=
  "  " +++ ljust 30 (lb_vendorIdentifier lb) +++ "  " +++ lb_referenceName lb.

Definition achievement_line (ach : achievement_config) : string :=
  "  " +++ ljust 30 (vendorIdentifier ach) +++ "  " +++ referenceName ach
  +++ "  (" +++ str_of_Z (points ach) +++ " pts)".

Fixpoint print_all (lines : list string) : M unit :=
  match lines with
  | [] => ret tt
  | l :: rest => print l ;; print_all rest
  end.

Definition dry_run_listing : M unit :=
  print ("DRY RUN - No API calls will be made" +++ nl) ;;
  print "Leaderboards to create:" ;;
  print_all (map leaderboard_line SCORE_LEADERBOARDS) ;;
  print (nl +++ "Achievements to create:") ;;
  print_all (map achievement_line ACHIEVEMENTS) ;;
  print_summary.

Definition main (a : args) : M unit :=
  if dry_run a then dry_run_listing
  else
    print "Generating JWT token..." ;;
    token <- generate_token (key_id a) (issuer_id a) (key_file a) ;;
    print "  Token generated." ;;
    gc_detail_id <- get_or_create_gc_detail token (app_id a) ;;
    (if negb (achievements_only a) then create_all_leaderboards token gc_detail_id
     else ret tt) ;;
    (if negb (leaderboards_only a) then create_all_achievements token gc_detail_id
     else ret tt) ;;
    print_summary ;;
    print (nl +++ "Done!").

End SetupGameCenter.

(** ** tools/submit_gc_for_review.py *)

Module SubmitGcForReview.

Definition BASE_URL : string := "https://api.appstoreconnect.apple.com/v1".

Definition api_get (token path : string) (p : json) : M json :=
  resp <- requests_get (BASE_URL +++ path) (api_headers token) p ;;
  if status_code resp =? 200 then resp_json resp
  else
    print ("  GET ERROR " +++ str_of_Z (status_code resp) +++ ": " +++ str_take 500 (text resp)) ;;
    ret JNull.

Definition api_post (token path : string) (data : json) : M json :=
  resp <- requests_post (BASE_URL +++ path) (api_headers token) data ;;
  if (status_code resp =? 200) || (status_code resp =? 201) then resp_json resp
  else
    print ("  POST ERROR " +++ str_of_Z (status_code resp) +++ ": " +++ str_take 500 (text resp)) ;;
    ret JNull.

Definition api_get_all_pages (token path : string) (p : json) : M (list json) :=
  all_pages "  " 500 token (BASE_URL +++ path) p.

Definition id_of (result : json) : M json :=
  d <- lift (py_item result "data") ;; lift (py_item d "id").

Definition ref (type : string) (id : json) : json :=
  JDict [("type", JStr type); ("id", id)].

(** [[{"type": t, "id": a["id"]} for a in items]] *)
Fixpoint refs (type : string) (items : list json) : M (list json) :=
  match items with
  | [] => ret []
  | a :: rest =>
      id <- lift (py_item a "id") ;;
      tl <- refs type rest ;;
      ret (ref type id :: tl)
  end.

(** The fallback loops of step 5, one release per item. *)
Fixpoint release_each (token : string) (gc_detail_id : json)
    (type relation target label : string) (items : list json) : M unit :=
  match items with
  | [] => ret tt
  | item :: rest =>
      attrs <- lift (py_item item "attributes") ;;
      vid <- lift (py_item attrs "vendorIdentifier") ;;
      id <- lift (py_item item "id") ;;
      result <- api_post token ("/" +++ type)
                  (JDict [("data", JDict [
                     ("type", JStr type);
                     ("relationships", JDict [
                        ("gameCenterDetail", JDict [("data", ref "gameCenterDetails" gc_detail_id)]);
                        (relation, JDict [("data", ref target id)])])])]) ;;
      let status := if truthy result then "OK" else "FAILED" in
      print ("  " +++ label +++ " [" +++ py_str vid +++ "]: " +++ status) ;;
      sleep 300 ;;
      release_each token gc_detail_id type relation target label rest
  end.

Record args : Type := {
  key_id : string;
  issuer_id : string;
  key_file : string;
  app_id : string;
  version : string
}.

Definition main (a : args) : M unit :=
  print "Generating JWT token..." ;;
  token <- generate_token (key_id a) (issuer_id a) (key_file a) ;;
  print ("  OK" +++ nl) ;;
  print "[1/5] Getting Game Center Detail..." ;;
  gc_result <- api_get token ("/apps/" +++ app_id a +++ "/gameCenterDetail") JNull ;;
  found <- has_data gc_result ;;
  if negb found then
    print "  ERROR: No Game Center Detail found" ;;
    sys_exit 1
  else
  gc_detail_id <- id_of gc_result ;;
  print ("  ID: " +++ py_str gc_detail_id +++ nl) ;;
  print "[2/5] Fetching achievements and leaderboards..." ;;
  achievements <- api_get_all_pages token
      ("/gameCenterDetails/" +++ py_str gc_detail_id +++ "/gameCenterAchievements")
      (JDict [("limit", JInt 200)]) ;;
  leaderboards <- api_get_all_pages token
      ("/gameCenterDetails/" +++ py_str gc_detail_id +++ "/gameCenterLeaderboards")
      (JDict [("limit", JInt 200)]) ;;
  let n_ach := Z.of_nat (List.length achievements) in
  let n_lb := Z.of_nat (List.length leaderboards) in
  print ("  Achievements: " +++ str_of_Z n_ach) ;;
  print ("  Leaderboards: " +++ str_of_Z n_lb) ;;
  print ("  Total: " +++ str_of_Z (n_ach + n_lb) +++ nl) ;;
  print ("[3/5] Finding app store version " +++ version a +++ "...") ;;
  versions <- api_get token ("/apps/" +++ app_id a +++ "/appStoreVersions")
      (JDict [("filter[versionString]", JStr (version a)); ("filter[platform]", JStr "IOS")]) ;;
  vfound <- has_data versions ;;
  if negb vfound then
    print ("  ERROR: Version " +++ version a +++ " not found") ;;
    sys_exit 1
  else
  vdata <- lift (py_item versions "data") ;;
  app_store_version <- lift (py_first vdata) ;;
  app_store_version_id <- lift (py_item app_store_version "id") ;;
  vattrs <- lift (py_item app_store_version "attributes") ;;
  version_state <- lift (py_item vattrs "appStoreState") ;;
  print ("  ID: " +++ py_str app_store_version_id) ;;
  print ("  State: " +++ py_str version_state +++ nl) ;;
  print "[4/5] Enabling Game Center for this app version..." ;;
  gc_app_version <- api_post token "/gameCenterAppVersions"
      (JDict [("data", JDict [
         ("type", JStr "gameCenterAppVersions");
         ("relationships", JDict [
            ("appStoreVersion",
             JDict [("data", ref "appStoreVersions" app_store_version_id)])])])]) ;;
  (if truthy gc_app_version then
     id <- id_of gc_app_version ;;
     print ("  Created gameCenterAppVersion: " +++ py_str id +++ nl)
   else
     existing <- api_get token ("/appStoreVersions/" +++ py_str app_store_version_id
                                +++ "/gameCenterAppVersion") JNull ;;
     efound <- has_data existing ;;
     if efound then
       id <- id_of existing ;;
       print ("  Already exists: " +++ py_str id +++ nl)
     else print ("  WARNING: Could not create or find gameCenterAppVersion" +++ nl)) ;;
  print "[5/5] Creating Game Center Release..." ;;
  refs "gameCenterAchievements" achievements ;;
  refs "gameCenterLeaderboards" leaderboards ;;
  release <- api_post token "/gameCenterDetailReleaseRequests"
      (JDict [("data", JDict [
         ("type", JStr "gameCenterDetailReleaseRequests");
         ("relationships", JDict [
            ("gameCenterDetail", JDict [("data", ref "gameCenterDetails" gc_detail_id)])])])]) ;;
  (if truthy release then
     id <- id_of release ;;
     print ("  Created release request: " +++ py_str id)
   else
     print "  Trying alternative approach..." ;;
     release_each token gc_detail_id "gameCenterAchievementReleases" "gameCenterAchievement"
       "gameCenterAchievements" "Achievement" achievements ;;
     release_each token gc_detail_id "gameCenterLeaderboardReleases" "gameCenterLeaderboard"
       "gameCenterLeaderboards" "Leaderboard" leaderboards) ;;
  print (nl +++ "Done! Game Center items are now attached to version " +++ version a) ;;
  print "Submit the version for review in App Store Connect to include them.".

End SubmitGcForReview.

(** ** tools/add_gc_to_review.py *)

Module AddGcToReview.

Definition BASE_V1 : string := "https://api.appstoreconnect.apple.com/v1".
Definition BASE_V2 : string := "https://api.appstoreconnect.apple.com/v2".

(** What this script's [api_post] hands back: the parsed payload, or the
    response object itself. *)
Inductive posted : Type :=
| Parsed (j : json)
| Unparsed (r : response).

(** [isinstance(x, dict)] *)
Definition is_dict (x : posted) : bool :=
  match x with
  | Parsed (JDict _) => true
  | _ => false
  end.

Definition api_get (token u : string) (p : json) : M json :=
  resp <- requests_get u (api_headers token) p ;;
  if status_code resp =? 200 then resp_json resp
  else
    print ("  GET ERROR " +++ str_of_Z (status_code resp) +++ ": " +++ str_take 500 (text resp)) ;;
    ret JNull.

Definition api_post (token u : string) (data : json) : M posted :=
  resp <- requests_post u (api_headers token) data ;;
  if (status_code resp =? 200) || (status_code resp =? 201) then
    j <- resp_json resp ;; ret (Parsed j)
  else ret (Unparsed resp).

Definition api_delete (token u : string) : M response :=
  requests_delete u (api_headers token).

Definition get_all_pages (token u : string) (p : json) : M (list json) :=
  all_pages "  " 300 token u p.

Definition id_of (result : json) : M json :=
  d <- lift (py_item result "data") ;; lift (py_item d "id").

Definition ref (type : string) (id : json) : json :=
  JDict [("type", JStr type); ("id", id)].

(** Attributes of a response object; a parsed payload has none of them. *)
Definition resp_of (x : posted) : M response :=
  match x with
  | Unparsed r => ret r
  | Parsed _ => raise AttributeError
  end.

(** Step 2: the first submission that has items. *)
Fixpoint pick_submission (token : string) (subs : list json) : M json :=
  match subs with
  | [] => ret JNull
  | sub :: rest =>
      sid <- lift (py_item sub "id") ;;
      items <- api_get token (BASE_V1 +++ "/reviewSubmissions/" +++ py_str sid +++ "/items") JNull ;;
      found <- has_data items ;;
      if found then
        sid' <- lift (py_item sub "id") ;; ret sid'
      else pick_submission token rest
  end.

(** Steps 4 and 5, inner loop: delete every release that is not live. *)
Fixpoint delete_releases (token releases vid : string) (rels : list json) (deleted : Z) : M Z :=
  match rels with
  | [] => ret deleted
  | rel :: rest =>
      attrs <- lift (py_item rel "attributes") ;;
      live <- lift (py_get attrs "live" (JBool false)) ;;
      if negb (truthy live) then
        rid <- lift (py_item rel "id") ;;
        r <- api_delete token (BASE_V1 +++ "/" +++ releases +++ "/" +++ py_str rid) ;;
        let deleted' := deleted + 1 in
        (if (deleted' <=? 3) || (deleted' mod 20 =? 0) then
           let status := if status_code r =? 204 then "OK"
                         else "ERR " +++ str_of_Z (status_code r) in
           print ("  [" +++ vid +++ "]: " +++ status)
         else ret tt) ;;
        delete_releases token releases vid rest deleted'
      else delete_releases token releases vid rest deleted
  end.

Fixpoint delete_old_releases (token collection releases : string) (items : list json)
    (deleted : Z) : M Z :=
  match items with
  | [] => ret deleted
  | item :: rest =>
      item_id <- lift (py_item item "id") ;;
      attrs <- lift (py_item item "attributes") ;;
      vid <- lift (py_item attrs "vendorIdentifier") ;;
      releases_resp <- api_get token (BASE_V1 +++ "/" +++ collection +++ "/" +++ py_str item_id
                                      +++ "/releases") JNull ;;
      deleted' <- (if truthy releases_resp then
                     data <- lift (py_get releases_resp "data" (JList [])) ;;
                     rels <- lift (py_iter data) ;;
                     delete_releases token releases (py_str vid) rels deleted
                   else ret deleted) ;;
      sleep 100 ;;
      delete_old_releases token collection releases rest deleted'
  end.

Definition item_data (review_sub_id : json) (relation versions : string) (ver_id : json) : json :=
  JDict [("data", JDict [
    ("type", JStr "reviewSubmissionItems");
    ("relationships", JDict [
       ("reviewSubmission", JDict [("data", ref "reviewSubmissions" review_sub_id)]);
       (relation, JDict [("data", ref versions ver_id)])])])].

(** [r.json().get("errors", [{}])[0].get("detail", r.text[:200])] *)
Definition error_detail (r : posted) : M json :=
  resp <- resp_of r ;;
  j <- resp_json resp ;;
  errors <- lift (py_get j "errors" (JList [JDict []])) ;;
  first <- lift (py_first errors) ;;
  lift (py_get first "detail" (JStr (str_take 200 (text resp)))).

(** Steps 6 and 7; the counters are [(added, errors)]. *)
Fixpoint add_versions (token : string) (review_sub_id : json)
    (collection versions owner relation : string) (items : list json) (counts : Z * Z)
  : M (Z * Z) :=
  match items with
  | [] => ret counts
  | item :: rest =>
      let '(added, errors) := counts in
      item_id <- lift (py_item item "id") ;;
      attrs <- lift (py_item item "attributes") ;;
      vid <- lift (py_item attrs "vendorIdentifier") ;;
      ver_resp <- api_get token (BASE_V2 +++ "/" +++ collection +++ "/" +++ py_str item_id
                                 +++ "/versions") JNull ;;
      found <- has_data ver_resp ;;
      ver <- (if negb found then
                cr <- api_post token (BASE_V2 +++ "/" +++ versions)
                        (JDict [("data", JDict [
                           ("type", JStr versions);
                           ("relationships", JDict [
                              (owner, JDict [("data", ref collection item_id)])])])]) ;;
                match cr with
                | Parsed (JDict kv) => ver_id <- id_of (JDict kv) ;; ret (Some ver_id)
                | _ =>
                    (if errors + 1 <=? 3 then
                       resp <- resp_of cr ;;
                       print ("  [" +++ py_str vid +++ "]: ERR creating version - "
                              +++ str_take 200 (text resp))
                     else ret tt) ;;
                    ret None
                end
              else
                data <- lift (py_item ver_resp "data") ;;
                first <- lift (py_first data) ;;
                ver_id <- lift (py_item first "id") ;;
                ret (Some ver_id)) ;;
      match ver with
      | None =>
          add_versions token review_sub_id collection versions owner relation rest
            (added, errors + 1)
      | Some ver_id =>
          r <- api_post token (BASE_V1 +++ "/reviewSubmissionItems")
                 (item_data review_sub_id relation versions ver_id) ;;
          counts' <- (if is_dict r then
                        let added' := added + 1 in
                        (if (added' <=? 3) || (added' mod 10 =? 0) then
                           print ("  [" +++ py_str vid +++ "]: OK")
                         else ret tt) ;;
                        ret (added', errors)
                      else
                        let errors' := errors + 1 in
                        err <- error_detail r ;;
                        (if errors' <=? 3 then
                           resp <- resp_of r ;;
                           print ("  [" +++ py_str vid +++ "]: ERR "
                                  +++ str_of_Z (status_code resp) +++ " - " +++ py_str err)
                         else ret tt) ;;
                        ret (added, errors')) ;;
          sleep 150 ;;
          add_versions token review_sub_id collection versions owner relation rest counts'
      end
  end.

Record args : Type := {
  key_id : string;
  issuer_id : string;
  key_file : string;
  app_id : string
}.

Definition main (a : args) : M unit :=
  print "Generating JWT token..." ;;
  token <- generate_token (key_id a) (issuer_id a) (key_file a) ;;
  print ("  OK" +++ nl) ;;
  print "[1/7] Getting Game Center Detail..." ;;
  gc_result <- api_get token (BASE_V1 +++ "/apps/" +++ app_id a +++ "/gameCenterDetail") JNull ;;
  found <- has_data gc_result ;;
  if negb found then
    print "  ERROR: No Game Center Detail found" ;;
    sys_exit 1
  else
  gc_detail_id <- id_of gc_result ;;
  print ("  ID: " +++ py_str gc_detail_id +++ nl) ;;
  print "[2/7] Finding review submission draft..." ;;
  subs <- api_get token (BASE_V1 +++ "/reviewSubmissions")
      (JDict [("filter[app]", JStr (app_id a));
              ("filter[state]", JStr "READY_FOR_REVIEW,WAITING_FOR_REVIEW")]) ;;
  sfound <- has_data subs ;;
  if negb sfound then
    print "  ERROR: No active review submission found" ;;
    sys_exit 1
  else
  sdata <- lift (py_item subs "data") ;;
  slist <- lift (py_iter sdata) ;;
  picked <- pick_submission token slist ;;
  review_sub_id <- (if negb (truthy picked) then
                      sdata' <- lift (py_item subs "data") ;;
                      first <- lift (py_first sdata') ;;
                      lift (py_item first "id")
                    else ret picked) ;;
  print ("  ID: " +++ py_str review_sub_id +++ nl) ;;
  print "[3/7] Fetching achievements and leaderboards..." ;;
  achievements <- get_all_pages token
      (BASE_V1 +++ "/gameCenterDetails/" +++ py_str gc_detail_id +++ "/gameCenterAchievements")
      (JDict [("limit", JInt 200)]) ;;
  leaderboards <- get_all_pages token
      (BASE_V1 +++ "/gameCenterDetails/" +++ py_str gc_detail_id +++ "/gameCenterLeaderboards")
      (JDict [("limit", JInt 200)]) ;;
  print ("  Achievements: " +++ str_of_Z (Z.of_nat (List.length achievements))) ;;
  print ("  Leaderboards: " +++ str_of_Z (Z.of_nat (List.length leaderboards)) +++ nl) ;;
  print "[4/7] Deleting old-style achievement releases..." ;;
  deleted_ach <- delete_old_releases token "gameCenterAchievements"
                   "gameCenterAchievementReleases" achievements 0 ;;
  print ("  Deleted " +++ str_of_Z deleted_ach +++ " achievement releases" +++ nl) ;;
  print "[5/7] Deleting old-style leaderboard releases..." ;;
  deleted_lb <- delete_old_releases token "gameCenterLeaderboards"
                  "gameCenterLeaderboardReleases" leaderboards 0 ;;
  print ("  Deleted " +++ str_of_Z deleted_lb +++ " leaderboard releases" +++ nl) ;;
  print "[6/7] Adding achievement versions to review draft..." ;;
  ach_counts <- add_versions token review_sub_id "gameCenterAchievements"
                  "gameCenterAchievementVersions" "achievement" "gameCenterAchievementVersion"
                  achievements (0, 0) ;;
  print ("  Added: " +++ str_of_Z (fst ach_counts) +++ ", Errors: "
         +++ str_of_Z (snd ach_counts) +++ nl) ;;
  print "[7/7] Adding leaderboard versions to review draft..." ;;
  lb_counts <- add_versions token review_sub_id "gameCenterLeaderboards"
                 "gameCenterLeaderboardVersions" "leaderboard" "gameCenterLeaderboardVersion"
                 leaderboards (0, 0) ;;
  print ("  Added: " +++ str_of_Z (fst lb_counts) +++ ", Errors: "
         +++ str_of_Z (snd lb_counts) +++ nl) ;;
  print "=== Summary ===" ;;
  print ("Achievement releases deleted: " +++ str_of_Z deleted_ach) ;;
  print ("Leaderboard releases deleted: " +++ str_of_Z deleted_lb) ;;
  print ("Achievement versions added to draft: " +++ str_of_Z (fst ach_counts)) ;;
  print ("Leaderboard versions added to draft: " +++ str_of_Z (fst lb_counts)) ;;
  print (nl +++ "Done! Check App Store Connect to verify Game Center items "
         +++ "appear in the review submission.").

End AddGcToReview.

(** ** The command line

    Every [main()] starts with [parser.parse_args()], which is argparse's:
    it returns the parsed arguments, or ends the run itself, with status 2
    after a usage message on standard error when a required flag is missing
    or the command line holds something it does not know, and with status 0
    after printing the help, for [-h].  How it reads [sys.argv] is left to
    argparse; a [command_line] is what it makes of it.  The [main] of each
    module above is the rest of [main()], from the parsed arguments on. *)
Inductive command_line (A : Type) : Type :=
| Parsed_args (a : A)
| Usage_error
| Help (text : string).
Arguments Parsed_args {A} a.
Arguments Usage_error {A}.
Arguments Help {A} text.

Definition parse_args {A} (c : command_line A) : M A :=
  match c with
  | Parsed_args a => ret a
  | Usage_error => sys_exit 2
  | Help text => print_end text "" ;; sys_exit 0
  end.

(** [main()], from the command line on. *)
Definition script {A} (main : A -> M unit) (c : command_line A) : M unit :=
  a <- parse_args c ;; main a.

(** * Properties *)

(** ** Reading a run *)

(** [m] run in [w] returns [a], having been served the responses [served],
    issued the requests [qs] and printed [printed]. *)
Definition runs {A} (m : M A) (w : world) (a : A)
    (served : list response) (qs : list request) (printed : list string) : Prop :=
  exists w', m w = (Ret a, w') /\ net w = served ++ net w' /\
             sent w' = sent w ++ qs /\ out w' = out w ++ printed.

Definition get_request (token u : string) (p : json) : request :=
  {| method := "GET"; url := u; headers := api_headers token; params := p; body := NoBody |}.

(** ** Pages *)

(** A 200 response whose payload carries the items [items] and the next
    link [next]; a page has none when [links] or its [next] is absent, or
    [next] is null. *)
Inductive is_page (r : response) (items : list json) : option string -> Prop :=
| page_next kv lk u :
    status_code r = 200 -> json_body r = Some (JDict kv) ->
    dict_get kv "data" = Some (JList items) ->
    dict_get kv "links" = Some (JDict lk) ->
    dict_get lk "next" = Some (JStr u) -> u <> "" ->
    is_page r items (Some u)
| page_no_links kv :
    status_code r = 200 -> json_body r = Some (JDict kv) ->
    dict_get kv "data" = Some (JList items) ->
    dict_get kv "links" = None ->
    is_page r items None
| page_no_next kv lk :
    status_code r = 200 -> json_body r = Some (JDict kv) ->
    dict_get kv "data" = Some (JList items) ->
    dict_get kv "links" = Some (JDict lk) ->
    dict_get lk "next" = None \/ dict_get lk "next" = Some JNull ->
    is_page r items None.

(** Pages [rs] with the item lists [pages], every one but the last carrying
    a next link; [nexts] are those links. *)
Inductive paginated : list response -> list (list json) -> list string -> Prop :=
| paginated_last r items :
    is_page r items None -> paginated [r] [items] []
| paginated_more r items u rs pages nexts :
    is_page r items (Some u) -> paginated rs pages nexts ->
    paginated (r :: rs) (items :: pages) (u :: nexts).

(** Pages of which the last still carries a next link: a fetch in progress. *)
Inductive linked : list response -> list (list json) -> list string -> Prop :=
| linked_nil : linked [] [] []
| linked_cons r items u rs pages nexts :
    is_page r items (Some u) -> linked rs pages nexts ->
    linked (r :: rs) (items :: pages) (u :: nexts).

Lemma truthy_url (u : string) : u <> "" -> truthy (JStr u) = true.
Proof.
  intros Hu. simpl. destruct (String.eqb_spec u ""); [contradiction | reflexivity].
Qed.

Lemma bind_Ret {A B} (m : M A) (f : A -> M B) (w w' : world) (a : A) :
  m w = (Ret a, w') -> bind m f w = f a w'.
Proof. intros H. unfold bind. now rewrite H. Qed.

Lemma requests_get_served (u : string) (h : list (string * string)) (p : json)
    (w : world) (r : response) (rs : list response) :
  net w = r :: rs ->
  requests_get u h p w =
    (Ret r, set_net rs (log_request
       {| method := "GET"; url := u; headers := h; params := p; body := NoBody |} w)).
Proof. intros H. unfold requests_get, requests_request. now rewrite H. Qed.

(** One turn of the loop on a page. *)
Lemma pages_loop_page (fuel : nat) (indent : string) (shown : nat) (token u : string)
    (p : json) (acc : list json) (w : world) (r : response) (rs : list response)
    (items : list json) (next : option string) :
  is_page r items next -> net w = r :: rs -> u <> "" ->
  pages_loop (S fuel) indent shown token (JStr u) p acc w =
  pages_loop fuel indent shown token
    (match next with Some v => JStr v | None => JNull end) JNull (acc ++ items)
    (set_net rs (log_request (get_request token u p) w)).
Proof.
  intros Hp Hn Hu.
  cbn [pages_loop]. rewrite (truthy_url u Hu).
  erewrite bind_Ret by (apply requests_get_served; exact Hn).
  fold (get_request token u p).
  inversion Hp as [kv lk v Hs Hb Hd Hl Hx Hv | kv Hs Hb Hd Hl | kv lk Hs Hb Hd Hl Hx];
    rewrite Hs; cbn [Z.eqb Pos.eqb negb]; unfold resp_json; rewrite Hb;
    unfold bind at 1, ret at 1; unfold py_get; rewrite Hd; unfold bind at 1, lift at 1, ret at 1;
    cbn [py_iter]; unfold bind at 1, lift at 1, ret at 1; rewrite Hl;
    unfold bind at 1, lift at 1, ret at 1.
  - rewrite Hx. unfold bind at 1, lift at 1, ret at 1. reflexivity.
  - cbn [dict_get]. unfold bind at 1, lift at 1, ret at 1. reflexivity.
  - destruct Hx as [Hx | Hx]; rewrite Hx; unfold bind at 1, lift at 1, ret at 1; reflexivity.
Qed.

Definition page_requests (token u : string) (p : json) (nexts : list string) : list request :=
  get_request token u p :: map (fun v => get_request token v JNull) nexts.

Definition get_error (indent : string) (shown : nat) (r : response) : string :=
  (indent +++ "GET ERROR " +++ str_of_Z (status_code r) +++ ": " +++ str_take shown (text r))
  +++ nl.

Lemma pages_loop_done (fuel : nat) (indent : string) (shown : nat) (token : string)
    (p : json) (acc : list json) (w : world) :
  pages_loop fuel indent shown token JNull p acc w = (Ret acc, w).
Proof. destruct fuel; reflexivity. Qed.

(** The loop over a complete pagination. *)
Lemma pages_loop_paginated (indent : string) (shown : nat) (token : string)
    (rs : list response) (pages : list (list json)) (nexts : list string) :
  paginated rs pages nexts ->
  forall (fuel : nat) (u : string) (p : json) (acc : list json) (w : world)
         (rest : list response),
    (List.length rs <= fuel)%nat -> net w = rs ++ rest -> u <> "" ->
    exists w', pages_loop fuel indent shown token (JStr u) p acc w
               = (Ret (acc ++ List.concat pages), w') /\
               net w' = rest /\
               sent w' = sent w ++ page_requests token u p nexts /\
               out w' = out w.
Proof.
  induction 1 as [r items Hp | r items v rs pages nexts Hp Hrest IH];
    intros fuel u p acc w rest Hfuel Hnet Hu;
    (destruct fuel as [| fuel]; [simpl in Hfuel; lia |]).
  - rewrite (pages_loop_page fuel indent shown token u p acc w r rest items None Hp Hnet Hu).
    rewrite pages_loop_done. eexists; split; [| split; [| split]].
    + simpl. now rewrite app_nil_r.
    + reflexivity.
    + reflexivity.
    + reflexivity.
  - rewrite (pages_loop_page fuel indent shown token u p acc w r (rs ++ rest) items (Some v)
               Hp Hnet Hu).
    assert (Hv : v <> "") by (inversion Hp; assumption).
    destruct (IH fuel v JNull (acc ++ items)
                (set_net (rs ++ rest) (log_request (get_request token u p) w)) rest)
      as (w' & Hrun & Hn' & Hs' & Ho'); [simpl in Hfuel; lia | reflexivity | exact Hv |].
    exists w'. rewrite Hrun. split; [| split; [| split]].
    + simpl. now rewrite app_assoc.
    + exact Hn'.
    + rewrite Hs'. simpl. now rewrite <- app_assoc.
    + rewrite Ho'. reflexivity.
Qed.

(** The loop over pages followed by a response that is not a 200. *)
Lemma pages_loop_failed (indent : string) (shown : nat) (token : string)
    (rs : list response) (pages : list (list json)) (nexts : list string) :
  linked rs pages nexts ->
  forall (fuel : nat) (u : string) (p : json) (acc : list json) (w : world)
         (bad : response) (rest : list response),
    (List.length rs < fuel)%nat -> net w = rs ++ bad :: rest -> u <> "" ->
    status_code bad <> 200 ->
    exists w', pages_loop fuel indent shown token (JStr u) p acc w
               = (Ret (acc ++ List.concat pages), w') /\
               net w' = rest /\
               sent w' = sent w ++ page_requests token u p nexts /\
               out w' = out w ++ [get_error indent shown bad].
Proof.
  induction 1 as [| r items v rs pages nexts Hp Hrest IH];
    intros fuel u p acc w bad rest Hfuel Hnet Hu Hbad;
    (destruct fuel as [| fuel]; [simpl in Hfuel; lia |]).
  - cbn [pages_loop]. rewrite (truthy_url u Hu).
    erewrite bind_Ret by (apply requests_get_served; exact Hnet).
    destruct (Z.eqb_spec (status_code bad) 200) as [E | _]; [contradiction |].
    cbn [negb]. eexists; split; [| split; [| split]].
    + unfold bind, print, ret. simpl. now rewrite app_nil_r.
    + reflexivity.
    + reflexivity.
    + reflexivity.
  - rewrite (pages_loop_page fuel indent shown token u p acc w r (rs ++ bad :: rest) items
               (Some v) Hp Hnet Hu).
    assert (Hv : v <> "") by (inversion Hp; assumption).
    destruct (IH fuel v JNull (acc ++ items)
                (set_net (rs ++ bad :: rest) (log_request (get_request token u p) w))
                bad rest)
      as (w' & Hrun & Hn' & Hs' & Ho'); [simpl in Hfuel; lia | reflexivity | exact Hv | exact Hbad |].
    exists w'. rewrite Hrun. split; [| split; [| split]].
    + simpl. now rewrite app_assoc.
    + exact Hn'.
    + rewrite Hs'. simpl. now rewrite <- app_assoc.
    + rewrite Ho'. reflexivity.
Qed.

Lemma bind_ext {A B} (m : M A) (f g : A -> M B) (w : world) :
  (forall a w', m w = (Ret a, w') -> f a w' = g a w') -> bind m f w = bind m g w.
Proof.
  intros H. unfold bind. destruct (m w) as [[a | c | e] w'] eqn:E; auto.
Qed.

Lemma lift_world {A} (r : exn + A) (w w' : world) (a : A) :
  lift r w = (Ret a, w') -> w' = w.
Proof. destruct r; unfold lift, raise, ret; intros H; inversion H; reflexivity. Qed.

Lemma resp_json_world (r : response) (w w' : world) (j : json) :
  resp_json r w = (Ret j, w') -> w' = w.
Proof.
  unfold resp_json. destruct (json_body r); unfold raise, ret; intros H; inversion H; reflexivity.
Qed.

(** The fuel of [all_pages] is never the reason the loop stops: any two
    amounts above the number of responses left give the same run. *)
Lemma pages_loop_fuel (indent : string) (shown : nat) (token : string) :
  forall (fuel1 fuel2 : nat) (u p : json) (acc : list json) (w : world),
    (List.length (net w) < fuel1)%nat -> (List.length (net w) < fuel2)%nat ->
    pages_loop fuel1 indent shown token u p acc w
    = pages_loop fuel2 indent shown token u p acc w.
Proof.
  induction fuel1 as [| f1 IH]; intros fuel2 u p acc w H1 H2; [lia |].
  destruct fuel2 as [| f2]; [lia |].
  cbn [pages_loop]. destruct (truthy u); [| reflexivity].
  destruct u; try reflexivity.
  apply bind_ext. intros r w1 Hreq.
  unfold requests_get, requests_request in Hreq.
  destruct (net w) as [| r' rs] eqn:E; inversion Hreq; subst r' w1; clear Hreq.
  destruct (negb (status_code r =? 200)); [reflexivity |].
  apply bind_ext. intros j w2 Hj. apply resp_json_world in Hj. subst w2.
  apply bind_ext. intros d w2 Hd. apply lift_world in Hd. subst w2.
  apply bind_ext. intros items w2 Hi. apply lift_world in Hi. subst w2.
  apply bind_ext. intros links w2 Hl. apply lift_world in Hl. subst w2.
  apply bind_ext. intros next w2 Hx. apply lift_world in Hx. subst w2.
  apply IH; simpl in *; lia.
Qed.

(** C1. Pagination: when the responses are pages, each carrying a list of
    items and every one but the last a next link, the fetcher of each script
    ([api_get_all_pages] in upload_gc_images and submit_gc_for_review,
    [get_all_pages] in add_gc_to_review) returns the pages' items
    concatenated in page order, after one GET per page (the first with the
    query parameters, the others at the next links without), printing
    nothing; and N pages of K items each give N * K items. *)
Theorem pagination_concatenates_pages (token : string) (p : json) (w : world)
    (rs rest : list response) (pages : list (list json)) (nexts : list string)
    (Hpages : paginated rs pages nexts) (Hnet : net w = rs ++ rest) :
  (forall path : string,
     runs (UploadGcImages.api_get_all_pages token path p) w (List.concat pages) rs
       (page_requests token (UploadGcImages.BASE_URL +++ path) p nexts) []) /\
  (forall path : string,
     runs (SubmitGcForReview.api_get_all_pages token path p) w (List.concat pages) rs
       (page_requests token (SubmitGcForReview.BASE_URL +++ path) p nexts) []) /\
  (forall u : string, u <> "" ->
     runs (AddGcToReview.get_all_pages token u p) w (List.concat pages) rs
       (page_requests token u p nexts) []) /\
  (forall K : nat, Forall (fun items => List.length items = K) pages ->
     List.length (List.concat pages) = (List.length rs * K)%nat).
Proof.
  assert (Hall : forall indent shown u, u <> "" ->
            runs (all_pages indent shown token u p) w (List.concat pages) rs
              (page_requests token u p nexts) []).
  { intros indent shown u Hu. unfold runs, all_pages.
    destruct (pages_loop_paginated indent shown token rs pages nexts Hpages
                (S (List.length (net w))) u p [] w rest)
      as (w' & Hrun & Hn & Hs & Ho).
    - rewrite Hnet, length_app. lia.
    - exact Hnet.
    - exact Hu.
    - exists w'. rewrite Hrun, Hn, Hs, Ho, app_nil_r. auto. }
  repeat split.
  - intros path. apply Hall. discriminate.
  - intros path. apply Hall. discriminate.
  - intros u Hu. apply Hall. exact Hu.
  - intros K HK. clear Hall Hnet. induction Hpages as [r items Hp | r items v rs pages nexts Hp Hr IH].
    + inversion HK; subst. simpl. rewrite app_nil_r. lia.
    + inversion HK; subst. simpl. rewrite length_app, IH by assumption. lia.
Qed.

(** C4. A response that is not a 200 ends the fetch: after any number of
    pages (none included) that each carried a next link, the fetcher prints
    its diagnostic, asks for no further page and returns, as an ordinary
    list, the items of the pages it had fetched; whatever the caller does
    next, it does with that partial list. *)
Theorem pagination_stops_at_failure (token : string) (p : json) (w : world)
    (rs rest : list response) (bad : response) (pages : list (list json))
    (nexts : list string)
    (Hpages : linked rs pages nexts) (Hbad : status_code bad <> 200)
    (Hnet : net w = rs ++ bad :: rest) :
  (forall path : string,
     runs (UploadGcImages.api_get_all_pages token path p) w (List.concat pages) (rs ++ [bad])
       (page_requests token (UploadGcImages.BASE_URL +++ path) p nexts)
       [get_error "    " 500 bad]) /\
  (forall path : string,
     runs (SubmitGcForReview.api_get_all_pages token path p) w (List.concat pages) (rs ++ [bad])
       (page_requests token (SubmitGcForReview.BASE_URL +++ path) p nexts)
       [get_error "  " 500 bad]) /\
  (forall u : string, u <> "" ->
     runs (AddGcToReview.get_all_pages token u p) w (List.concat pages) (rs ++ [bad])
       (page_requests token u p nexts)
       [get_error "  " 300 bad]) /\
  (forall (B : Type) (k : list json -> M B) (path : string),
     exists w', net w' = rest /\
       (items <- UploadGcImages.api_get_all_pages token path p ;; k items) w
       = k (List.concat pages) w').
Proof.
  assert (Hall : forall indent shown u, u <> "" ->
            exists w', all_pages indent shown token u p w = (Ret (List.concat pages), w') /\
                       net w' = rest /\
                       sent w' = sent w ++ page_requests token u p nexts /\
                       out w' = out w ++ [get_error indent shown bad]).
  { intros indent shown u Hu. unfold all_pages.
    apply (pages_loop_failed indent shown token rs pages nexts Hpages
             (S (List.length (net w))) u p [] w bad rest); auto.
    rewrite Hnet, length_app. simpl. lia. }
  assert (Hruns : forall indent shown u, u <> "" ->
            runs (all_pages indent shown token u p) w (List.concat pages) (rs ++ [bad])
              (page_requests token u p nexts) [get_error indent shown bad]).
  { intros indent shown u Hu. destruct (Hall indent shown u Hu) as (w' & Hrun & Hn & Hs & Ho).
    exists w'. rewrite Hrun, Hn, Hs, Ho, Hnet, <- app_assoc. auto. }
  repeat split.
  - intros path. apply Hruns. discriminate.
  - intros path. apply Hruns. discriminate.
  - intros u Hu. apply Hruns. exact Hu.
  - intros B k path.
    destruct (Hall "    " 500%nat (UploadGcImages.BASE_URL +++ path)) as (w' & Hrun & Hn & _);
      [discriminate |].
    exists w'. split; [exact Hn |].
    unfold UploadGcImages.api_get_all_pages. now rewrite (bind_Ret _ _ _ _ _ Hrun).
Qed.

(** ** Sample responses *)

Definition page_response (items : list json) (next : option string) : response :=
  {| status_code := 200; text := "";
     json_body := Some (JDict [
       ("data", JList items);
       ("links", JDict (("self", JStr "https://api.example/items")
                        :: match next with
                           | Some u => [("next", JStr u)]
                           | None => []
                           end))]) |}.

Definition error_response (status : Z) (message : string) : response :=
  {| status_code := status; text := message; json_body := None |}.

Definition json_response (status : Z) (j : json) : response :=
  {| status_code := status; text := ""; json_body := Some j |}.

Definition sample_world (rs : list response) : world :=
  {| net := rs; sent := []; out := [];
     files := fun path =>
       if (path =? "/keys/AuthKey.p8")%string then Some (list_byte_of_string "PRIVATE KEY")
       else if (path =? "/repo/tools/gc_images/achievements/level_1_complete.png")%string
       then Some (list_byte_of_string "abcd")
       else None;
     listing := fun _ => None;
     script_dir := "/repo/tools";
     now := 1700000000123456;
     slept := 0;
     signer := fun c key h => Some ("jwt:" +++ iss c) |}.

Definition two_pages : list response :=
  [page_response [JInt 1; JInt 2] (Some "https://api.example/items?cursor=2");
   page_response [JInt 3; JInt 4] None].

Lemma two_pages_paginated :
  paginated two_pages [[JInt 1; JInt 2]; [JInt 3; JInt 4]]
    ["https://api.example/items?cursor=2"].
Proof.
  apply paginated_more.
  - eapply page_next; try reflexivity. discriminate.
  - apply paginated_last. eapply page_no_next; try reflexivity. now left.
Defined.

Lemma pagination_concatenates_pages_witness :
  runs (UploadGcImages.api_get_all_pages "tok" "/items" (JDict [("limit", JInt 200)]))
    (sample_world two_pages) [JInt 1; JInt 2; JInt 3; JInt 4] two_pages
    (page_requests "tok" (UploadGcImages.BASE_URL +++ "/items") (JDict [("limit", JInt 200)])
       ["https://api.example/items?cursor=2"]) [].
Proof.
  exact (proj1 (pagination_concatenates_pages "tok" (JDict [("limit", JInt 200)])
                  (sample_world two_pages) two_pages []
                  [[JInt 1; JInt 2]; [JInt 3; JInt 4]]
                  ["https://api.example/items?cursor=2"]
                  two_pages_paginated eq_refl) "/items").
Defined.

Lemma one_page_linked :
  linked [page_response [JInt 1; JInt 2] (Some "https://api.example/items?cursor=2")]
    [[JInt 1; JInt 2]] ["https://api.example/items?cursor=2"].
Proof.
  apply linked_cons; [| apply linked_nil].
  eapply page_next; try reflexivity. discriminate.
Defined.

Lemma pagination_stops_at_failure_witness :
  runs (UploadGcImages.api_get_all_pages "tok" "/items" JNull)
    (sample_world [page_response [JInt 1; JInt 2] (Some "https://api.example/items?cursor=2");
                   error_response 503 "busy"; page_response [JInt 3] None])
    [JInt 1; JInt 2]
    [page_response [JInt 1; JInt 2] (Some "https://api.example/items?cursor=2");
     error_response 503 "busy"]
    (page_requests "tok" (UploadGcImages.BASE_URL +++ "/items") JNull
       ["https://api.example/items?cursor=2"])
    [get_error "    " 500 (error_response 503 "busy")].
Proof.
  assert (Hbad : status_code (error_response 503 "busy") <> 200) by discriminate.
  exact (proj1 (pagination_stops_at_failure "tok" JNull
                  (sample_world [page_response [JInt 1; JInt 2]
                                   (Some "https://api.example/items?cursor=2");
                                 error_response 503 "busy"; page_response [JInt 3] None])
                  [page_response [JInt 1; JInt 2] (Some "https://api.example/items?cursor=2")]
                  [page_response [JInt 3] None]
                  (error_response 503 "busy") [[JInt 1; JInt 2]]
                  ["https://api.example/items?cursor=2"]
                  one_page_linked Hbad eq_refl) "/items").
Defined.

(** ** Mutating calls *)

Definition post_request (token u : string) (data : json) : request :=
  {| method := "POST"; url := u; headers := api_headers token; params := JNull;
     body := JsonBody data |}.

Definition patch_request (token u : string) (data : json) : request :=
  {| method := "PATCH"; url := u; headers := api_headers token; params := JNull;
     body := JsonBody data |}.

Definition delete_request (token u : string) : request :=
  {| method := "DELETE"; url := u; headers := api_headers token; params := JNull;
     body := NoBody |}.

(** The outcome of [resp.json()]. *)
Definition parsed (r : response) : outcome json :=
  match json_body r with
  | Some j => Ret j
  | None => Raise JSONDecodeError
  end.

Definition is_2xx (status : Z) : bool := (200 <=? status) && (status <? 300).

Definition accepted_payload : json := JDict [("data", JDict [("id", JStr "42")])].

(** C3, as stated, fails: 202 and 204 are 2xx statuses that [api_post]
    reports as errors and answers with [None]; 201 is one that [api_patch]
    rejects, 202 one that [api_delete] rejects; and in add_gc_to_review
    [api_post] prints nothing on a 500 and hands back the response object. *)
Lemma mutating_2xx_counterexample :
  is_2xx 204 = true /\ is_2xx 201 = true /\ is_2xx 202 = true /\
  UploadGcImages.api_post "tok" "/gameCenterAchievementImages" JNull
    (sample_world [json_response 204 accepted_payload])
  = (Ret JNull,
     emit (UploadGcImages.diagnostic "POST" (json_response 204 accepted_payload) 500 +++ nl)
       (set_net [] (log_request
          (post_request "tok" (UploadGcImages.BASE_URL +++ "/gameCenterAchievementImages") JNull)
          (sample_world [])))) /\
  fst (SetupGameCenter.api_post "tok" "/gameCenterLeaderboards" JNull
         (sample_world [json_response 202 accepted_payload])) = Ret JNull /\
  fst (UploadGcImages.api_patch "tok" "/gameCenterAchievementImages/42" JNull
         (sample_world [json_response 201 accepted_payload])) = Ret JNull /\
  fst (UploadGcImages.api_delete "tok" "/gameCenterAchievementImages/42"
         (sample_world [json_response 202 accepted_payload])) = Ret false /\
  AddGcToReview.api_post "tok" "https://api.example/items" JNull
    (sample_world [error_response 500 "boom"])
  = (Ret (AddGcToReview.Unparsed (error_response 500 "boom")),
     set_net [] (log_request (post_request "tok" "https://api.example/items" JNull)
                   (sample_world []))).
Proof. repeat split; reflexivity. Qed.

(** C3, amended. Each wrapper sends one request and decides on the status
    of the response alone, against its own list: [api_post] succeeds on 200
    and 201, [api_patch] on 200, [api_delete] on 200 and 204.  On success
    the result is [resp.json()] ([True] for delete) and nothing is printed;
    on any other status, 2xx or not, the wrappers of setup_game_center,
    upload_gc_images and submit_gc_for_review print one diagnostic line and
    return [None] ([False] for delete), which is falsy.  In add_gc_to_review
    [api_post] prints nothing and returns the response object, which
    [isinstance(_, dict)] tells from a payload, and [api_delete] returns the
    response whatever its status. *)
Theorem mutating_wrappers_by_status (token path : string) (data : json)
    (r : response) (rest : list response) (w : world) :
  let s := status_code r in
  let served := set_net (r :: rest) w in
  let after := fun q => set_net rest (log_request q w) in
  SetupGameCenter.api_post token path data served
  = (let w1 := after (post_request token (SetupGameCenter.BASE_URL +++ path) data) in
     if (s =? 200) || (s =? 201) then (parsed r, w1)
     else (Ret JNull,
           emit (("  ERROR " +++ str_of_Z s +++ ": " +++ str_take 500 (text r)) +++ nl) w1)) /\
  UploadGcImages.api_post token path data served
  = (let w1 := after (post_request token (UploadGcImages.BASE_URL +++ path) data) in
     if (s =? 200) || (s =? 201) then (parsed r, w1)
     else (Ret JNull, emit (UploadGcImages.diagnostic "POST" r 500 +++ nl) w1)) /\
  SubmitGcForReview.api_post token path data served
  = (let w1 := after (post_request token (SubmitGcForReview.BASE_URL +++ path) data) in
     if (s =? 200) || (s =? 201) then (parsed r, w1)
     else (Ret JNull,
           emit (("  POST ERROR " +++ str_of_Z s +++ ": " +++ str_take 500 (text r)) +++ nl) w1)) /\
  UploadGcImages.api_patch token path data served
  = (let w1 := after (patch_request token (UploadGcImages.BASE_URL +++ path) data) in
     if s =? 200 then (parsed r, w1)
     else (Ret JNull, emit (UploadGcImages.diagnostic "PATCH" r 500 +++ nl) w1)) /\
  UploadGcImages.api_delete token path served
  = (let w1 := after (delete_request token (UploadGcImages.BASE_URL +++ path)) in
     if (s =? 200) || (s =? 204) then (Ret true, w1)
     else (Ret false, emit (UploadGcImages.diagnostic "DELETE" r 500 +++ nl) w1)) /\
  AddGcToReview.api_post token path data served
  = (let w1 := after (post_request token path data) in
     if (s =? 200) || (s =? 201) then
       (match json_body r with
        | Some j => Ret (AddGcToReview.Parsed j)
        | None => Raise JSONDecodeError
        end, w1)
     else (Ret (AddGcToReview.Unparsed r), w1)) /\
  AddGcToReview.api_delete token path served
  = (Ret r, after (delete_request token path)) /\
  truthy JNull = false /\ AddGcToReview.is_dict (AddGcToReview.Unparsed r) = false.
Proof.
  cbv zeta.
  unfold SetupGameCenter.api_post, UploadGcImages.api_post, SubmitGcForReview.api_post,
    UploadGcImages.api_patch, UploadGcImages.api_delete, AddGcToReview.api_post,
    AddGcToReview.api_delete, requests_post, requests_patch, requests_delete,
    requests_request, bind, parsed, resp_json, print, ret, raise.
  cbn [net set_net].
  destruct (status_code r =? 200), (status_code r =? 201), (status_code r =? 204);
    cbn [orb]; destruct (json_body r); repeat split; reflexivity.
Qed.

(** ** The token *)

(** The NumericDate PyJWT writes for a [datetime] claim: whole seconds. *)
Definition numeric_date (t : Z) : Z := t / 1000000.

(** C5. A token comes out of [generate_token] exactly when the key file can
    be read and the signer accepts the key; it is the signer's encoding of a
    payload whose [exp] is its [iat], the time of generation, plus 20
    minutes (1200 seconds, also after both are written as whole seconds),
    whatever that time is.  The four scripts share this function. *)
Theorem token_expiry_window (key_id issuer_id key_file tok : string) (w w' : world)
    (Hrun : generate_token key_id issuer_id key_file w = (Ret tok, w')) :
  let claims := token_payload issuer_id (now w) in
  w' = w /\
  (exists data, files w key_file = Some data /\
     signer w claims (string_of_list_byte data) (token_headers key_id) = Some tok) /\
  iat claims = now w /\
  exp claims - iat claims = minutes 20 /\
  minutes 20 = 1200 * 1000000 /\
  numeric_date (exp claims) - numeric_date (iat claims) = 1200.
Proof.
  cbv zeta. unfold generate_token, bind, read_text, datetime_now, jwt_encode in Hrun.
  destruct (files w key_file) as [data |] eqn:Hf; [| discriminate].
  destruct (signer w (token_payload issuer_id (now w)) (string_of_list_byte data)
              (token_headers key_id)) as [t |] eqn:Hs; [| discriminate].
  inversion Hrun; subst. repeat split.
  - exists data. auto.
  - simpl. unfold minutes. lia.
  - simpl. unfold numeric_date, minutes.
    replace (now w' + 20 * 60 * 1000000) with (now w' + 1200 * 1000000) by lia.
    rewrite Z.div_add by lia. lia.
Qed.

(** With a readable key and a signer that accepts it, the token is issued. *)
Lemma generate_token_issues (key_id issuer_id key_file tok : string) (w : world)
    (data : list byte) :
  files w key_file = Some data ->
  signer w (token_payload issuer_id (now w)) (string_of_list_byte data) (token_headers key_id)
  = Some tok ->
  generate_token key_id issuer_id key_file w = (Ret tok, w).
Proof.
  intros Hf Hs. unfold generate_token, bind, read_text, datetime_now, jwt_encode.
  now rewrite Hf, Hs.
Qed.

Lemma token_expiry_window_witness :
  exp (token_payload "issuer" 1700000000123456)
  - iat (token_payload "issuer" 1700000000123456) = minutes 20 /\
  numeric_date (exp (token_payload "issuer" 1700000000123456))
  - numeric_date (iat (token_payload "issuer" 1700000000123456)) = 1200.
Proof.
  pose proof (token_expiry_window "KEYID" "issuer" "/keys/AuthKey.p8" "jwt:issuer"
                (sample_world []) (sample_world []) eq_refl) as H.
  cbv zeta in H. split; [apply H | apply H].
Defined.

(** ** Deleting an image that is not there *)

(** The answer to the GET shows no image: it is not a 200, or it is a 200
    whose payload is falsy, or a dict whose [data] is absent or falsy. *)
Inductive no_image (r : response) : list string -> Prop :=
| no_image_failed :
    status_code r <> 200 ->
    no_image r [UploadGcImages.diagnostic "GET" r 500 +++ nl]
| no_image_empty j :
    status_code r = 200 -> json_body r = Some j -> truthy j = false ->
    no_image r []
| no_image_no_data kv :
    status_code r = 200 -> json_body r = Some (JDict kv) ->
    truthy (match dict_get kv "data" with Some d => d | None => JNull end) = false ->
    no_image r [].

(** C7. When the GET for the localization's image comes back without one
    (a failure, which [api_get] turns into [None], or a 200 with no data),
    [delete_existing_image] returns [True] having sent that GET and nothing
    else: no DELETE goes out. *)
Theorem delete_missing_image_is_success (token resource_type localization_type : string)
    (localization_id : json) (w : world) (r : response) (rest : list response)
    (printed : list string)
    (Hnet : net w = r :: rest) (Hnone : no_image r printed) :
  runs (UploadGcImages.delete_existing_image token resource_type localization_type
          localization_id) w true [r]
    [get_request token
       (UploadGcImages.BASE_URL +++ "/" +++ localization_type +++ "s/"
        +++ py_str localization_id +++ "/" +++ rstrip "s" resource_type) JNull]
    printed.
Proof.
  unfold runs, UploadGcImages.delete_existing_image, UploadGcImages.api_get.
  unfold bind at 1. unfold bind at 1.
  rewrite (requests_get_served _ _ _ w r rest Hnet).
  fold (get_request token
          (UploadGcImages.BASE_URL +++ "/" +++ localization_type +++ "s/"
           +++ py_str localization_id +++ "/" +++ rstrip "s" resource_type) JNull).
  destruct Hnone as [Hs | j Hs Hb Hj | kv Hs Hb Hd].
  - destruct (Z.eqb_spec (status_code r) 200) as [E | _]; [contradiction |].
    eexists. split; [reflexivity |]. cbn. rewrite Hnet. auto.
  - rewrite Hs. cbn [Z.eqb Pos.eqb]. unfold resp_json. rewrite Hb.
    unfold ret at 1. unfold bind at 1, has_data. rewrite Hj.
    eexists. split; [reflexivity |]. cbn. rewrite Hnet, app_nil_r. auto.
  - rewrite Hs. cbn [Z.eqb Pos.eqb]. unfold resp_json. rewrite Hb.
    unfold ret at 1. unfold bind at 1, has_data.
    destruct (truthy (JDict kv)).
    + unfold bind at 1. cbn [py_get lift]. unfold ret at 1, ret at 1. rewrite Hd.
      eexists. split; [reflexivity |]. cbn. rewrite Hnet, app_nil_r. auto.
    + eexists. split; [reflexivity |]. cbn. rewrite Hnet, app_nil_r. auto.
Qed.

Lemma delete_missing_image_is_success_witness :
  runs (UploadGcImages.delete_existing_image "tok" "gameCenterAchievementImages"
          "gameCenterAchievementLocalization" (JStr "loc1"))
    (sample_world [json_response 200 (JDict [("data", JNull)]); error_response 500 "unused"])
    true [json_response 200 (JDict [("data", JNull)])]
    [get_request "tok"
       (UploadGcImages.BASE_URL +++ "/" +++ "gameCenterAchievementLocalization" +++ "s/"
        +++ py_str (JStr "loc1") +++ "/" +++ rstrip "s" "gameCenterAchievementImages") JNull]
    [].
Proof.
  apply (delete_missing_image_is_success "tok" "gameCenterAchievementImages"
           "gameCenterAchievementLocalization" (JStr "loc1")
           (sample_world [json_response 200 (JDict [("data", JNull)]);
                          error_response 500 "unused"])
           (json_response 200 (JDict [("data", JNull)])) [error_response 500 "unused"] []
           eq_refl).
  apply (no_image_no_data _ [("data", JNull)]); reflexivity.
Defined.

(** ** Batches of creates *)

Module Batch.
Import SetupGameCenter.

(** A payload the loops can read: falsy, or carrying [data.id]. *)
Definition payload_ok (j : json) : bool :=
  negb (truthy j) ||
  match py_item j "data" with
  | inr d => match py_item d "id" with inr _ => true | inl _ => false end
  | inl _ => false
  end.

(** A response that makes no loop raise: any failure, or a 200/201 whose
    body parses to a readable payload. *)
Definition benign (r : response) : bool :=
  if (status_code r =? 200) || (status_code r =? 201) then
    match json_body r with
    | Some j => payload_ok j
    | None => false
    end
  else true.

Definition failed (r : response) : bool :=
  negb ((status_code r =? 200) || (status_code r =? 201)).

Definition error_line (r : response) : string :=
  ("  ERROR " +++ str_of_Z (status_code r) +++ ": " +++ str_take 500 (text r)) +++ nl.

Definition create_leaderboard_request (token : string) (gc_detail_id : json)
    (lb : leaderboard_config) : request :=
  post_request token (BASE_URL +++ "/gameCenterLeaderboards") (leaderboard_data gc_detail_id lb).

Definition create_achievement_request (token : string) (gc_detail_id : json)
    (ach : achievement_config) : request :=
  post_request token (BASE_URL +++ "/gameCenterAchievements") (achievement_data gc_detail_id ach).

Definition is_create (collection : string) (q : request) : bool :=
  (url q =? BASE_URL +++ collection)%string.

(** What [api_post] does with a benign response. *)
Lemma api_post_benign (token path : string) (data : json) (w : world) (r : response)
    (rest : list response) :
  net w = r :: rest -> benign r = true ->
  exists j w', api_post token path data w = (Ret j, w') /\ net w' = rest /\
               sent w' = sent w ++ [post_request token (BASE_URL +++ path) data] /\
               payload_ok j = true.
Proof.
  intros Hnet Hb. unfold api_post, requests_post, requests_request, bind. rewrite Hnet.
  unfold benign in Hb.
  destruct ((status_code r =? 200) || (status_code r =? 201)).
  - unfold resp_json. destruct (json_body r) as [j |]; [| discriminate].
    exists j. eexists. repeat split; auto.
  - exists JNull. eexists. repeat split; reflexivity.
Qed.

Lemma id_of_ok (j : json) (w : world) :
  payload_ok j = true -> truthy j = true -> exists id, id_of j w = (Ret id, w).
Proof.
  unfold payload_ok, id_of. intros Hp Ht. rewrite Ht in Hp. cbn [negb orb] in Hp.
  unfold bind, lift. destruct (py_item j "data") as [e | d]; [discriminate |].
  unfold ret at 1. destruct (py_item d "id") as [e | id]; [discriminate |].
  exists id. reflexivity.
Qed.

Lemma filter_create_app (collection : string) (qs qs' : list request) :
  filter (is_create collection) (qs ++ qs')
  = filter (is_create collection) qs ++ filter (is_create collection) qs'.
Proof. apply filter_app. Qed.

Lemma is_create_post (collection token : string) (data : json) :
  is_create collection (post_request token (BASE_URL +++ collection) data) = true.
Proof. unfold is_create. cbn [url post_request]. apply String.eqb_refl. Qed.

Lemma create_leaderboard_localization_benign (token : string) (leaderboard_id : json)
    (name suffix : string) (w : world) (r : response) (rest : list response) :
  net w = r :: rest -> benign r = true ->
  exists j w' q,
    create_leaderboard_localization token leaderboard_id name suffix w = (Ret j, w') /\
    net w' = rest /\ sent w' = sent w ++ [q] /\
    is_create "/gameCenterLeaderboards" q = false.
Proof.
  intros Hnet Hb. unfold create_leaderboard_localization.
  match goal with
  | |- context [api_post token ?p ?d] =>
      destruct (api_post_benign token p d w r rest Hnet Hb) as (j & w' & Hrun & Hn & Hs & _)
  end.
  exists j, w'. eexists. repeat split; eauto.
Qed.

Lemma create_achievement_localization_benign (token : string) (achievement_id : json)
    (loc : localization_config) (w : world) (r : response) (rest : list response) :
  net w = r :: rest -> benign r = true ->
  exists j w' q,
    create_achievement_localization token achievement_id loc w = (Ret j, w') /\
    net w' = rest /\ sent w' = sent w ++ [q] /\
    is_create "/gameCenterAchievements" q = false.
Proof.
  intros Hnet Hb. unfold create_achievement_localization.
  match goal with
  | |- context [api_post token ?p ?d] =>
      destruct (api_post_benign token p d w r rest Hnet Hb) as (j & w' & Hrun & Hn & Hs & _)
  end.
  exists j, w'. eexists. repeat split; eauto.
Qed.

Lemma leaderboards_loop_attempts_all (token : string) (gc_detail_id : json) :
  forall (lbs : list leaderboard_config) (w : world),
    forallb benign (net w) = true ->
    (2 * List.length lbs <= List.length (net w))%nat ->
    exists w' qs,
      leaderboards_loop token gc_detail_id lbs w = (Ret tt, w') /\
      sent w' = sent w ++ qs /\
      filter (is_create "/gameCenterLeaderboards") qs
      = map (create_leaderboard_request token gc_detail_id) lbs.
Proof.
  induction lbs as [| lb rest IH]; intros w Hb Hlen.
  - exists w, []. repeat split. cbn. now rewrite app_nil_r.
  - destruct (net w) as [| r1 n1] eqn:Hnet; [simpl in Hlen; lia |].
    cbn [forallb] in Hb. apply andb_true_iff in Hb. destruct Hb as [Hb1 Hbn1].
    cbn [leaderboards_loop].
    erewrite bind_Ret by reflexivity.
    destruct (api_post_benign token "/gameCenterLeaderboards"
                (leaderboard_data gc_detail_id lb)
                (emit (("  Creating: " +++ lb_referenceName lb +++ "...") +++ " ") w)
                r1 n1 Hnet Hb1) as (j & wb & Hpost & Hnb & Hsb & Hok).
    unfold create_leaderboard. erewrite bind_Ret by exact Hpost.
    destruct (truthy j) eqn:Ht.
    + destruct (id_of_ok j wb Hok Ht) as (id & Hid).
      destruct n1 as [| r2 n2]; [simpl in Hlen; lia |].
      cbn [forallb] in Hbn1. apply andb_true_iff in Hbn1. destruct Hbn1 as [Hb2 Hbn2].
      destruct (create_leaderboard_localization_benign token id (lb_referenceName lb) " pts"
                  (emit (("OK (id: " +++ py_str id +++ ")") +++ nl) wb) r2 n2 Hnb Hb2)
        as (j2 & wc & q2 & Hpost2 & Hnc & Hsc & Hq2).
      destruct (IH (add_slept 300 wc)) as (w' & qs & Hrun & Hs & Hf).
      * cbn. now rewrite Hnc.
      * cbn. rewrite Hnc. simpl in Hlen. lia.
      * exists w', (create_leaderboard_request token gc_detail_id lb :: q2 :: qs).
        split; [| split].
        -- unfold bind at 1. unfold bind at 1. rewrite Hid.
           unfold bind at 1. unfold print at 1. unfold bind at 1.
           rewrite Hpost2.
           unfold ret at 1. unfold bind at 1. unfold sleep at 1. exact Hrun.
        -- rewrite Hs. cbn. rewrite Hsc. cbn. rewrite Hsb. cbn.
           rewrite <- !app_assoc. reflexivity.
        -- cbn [filter]. unfold create_leaderboard_request at 1.
           rewrite is_create_post, Hq2, Hf. reflexivity.
    + destruct (IH (add_slept 300 (emit ("FAILED" +++ nl) wb))) as (w' & qs & Hrun & Hs & Hf).
      * cbn. now rewrite Hnb.
      * cbn. rewrite Hnb. simpl in Hlen. lia.
      * exists w', (create_leaderboard_request token gc_detail_id lb :: qs).
        split; [| split].
        -- unfold bind at 1. unfold print at 1. unfold bind at 1. unfold sleep at 1.
           exact Hrun.
        -- rewrite Hs. cbn. rewrite Hsb. cbn. rewrite <- !app_assoc. reflexivity.
        -- cbn [filter]. unfold create_leaderboard_request at 1.
           rewrite is_create_post, Hf. reflexivity.
Qed.

Definition localized (ach : achievement_config) : bool :=
  match lookup ACHIEVEMENT_LOCALIZATIONS (vendorIdentifier ach) with
  | Some _ => true
  | None => false
  end.

Lemma achievements_localized : forallb localized ACHIEVEMENTS = true.
Proof. vm_compute. reflexivity. Qed.

Lemma achievements_loop_attempts_all (token : string) (gc_detail_id : json) :
  forall (achs : list achievement_config) (w : world),
    forallb localized achs = true ->
    forallb benign (net w) = true ->
    (2 * List.length achs <= List.length (net w))%nat ->
    exists w' qs,
      achievements_loop token gc_detail_id achs w = (Ret tt, w') /\
      sent w' = sent w ++ qs /\
      filter (is_create "/gameCenterAchievements") qs
      = map (create_achievement_request token gc_detail_id) achs.
Proof.
  induction achs as [| ach rest IH]; intros w Hloc Hb Hlen.
  - exists w, []. repeat split. cbn. now rewrite app_nil_r.
  - destruct (net w) as [| r1 n1] eqn:Hnet; [simpl in Hlen; lia |].
    cbn [forallb] in Hb, Hloc.
    apply andb_true_iff in Hb. destruct Hb as [Hb1 Hbn1].
    apply andb_true_iff in Hloc. destruct Hloc as [Hl1 Hlrest].
    cbn [achievements_loop].
    erewrite bind_Ret by reflexivity.
    destruct (api_post_benign token "/gameCenterAchievements"
                (achievement_data gc_detail_id ach)
                (emit (("  Creating: " +++ referenceName ach +++ "...") +++ " ") w)
                r1 n1 Hnet Hb1) as (j & wb & Hpost & Hnb & Hsb & Hok).
    unfold create_achievement. erewrite bind_Ret by exact Hpost.
    destruct (truthy j) eqn:Ht.
    + destruct (id_of_ok j wb Hok Ht) as (id & Hid).
      destruct n1 as [| r2 n2]; [simpl in Hlen; lia |].
      cbn [forallb] in Hbn1. apply andb_true_iff in Hbn1. destruct Hbn1 as [Hb2 Hbn2].
      unfold localized in Hl1.
      destruct (lookup ACHIEVEMENT_LOCALIZATIONS (vendorIdentifier ach)) as [loc |] eqn:Hlk;
        [| discriminate].
      destruct (create_achievement_localization_benign token id loc
                  (emit (("OK (id: " +++ py_str id +++ ")") +++ nl) wb) r2 n2 Hnb Hb2)
        as (j2 & wc & q2 & Hpost2 & Hnc & Hsc & Hq2).
      destruct (IH (add_slept 300 wc) Hlrest) as (w' & qs & Hrun & Hs & Hf).
      * cbn. now rewrite Hnc.
      * cbn. rewrite Hnc. simpl in Hlen. lia.
      * exists w', (create_achievement_request token gc_detail_id ach :: q2 :: qs).
        split; [| split].
        -- unfold bind at 1. unfold bind at 1. rewrite Hid.
           unfold bind at 1. unfold print at 1. unfold bind at 1. unfold ret at 1.
           unfold bind at 1. rewrite Hpost2.
           unfold ret at 1. unfold bind at 1. unfold sleep at 1. exact Hrun.
        -- rewrite Hs. cbn. rewrite Hsc. cbn. rewrite Hsb. cbn.
           rewrite <- !app_assoc. reflexivity.
        -- cbn [filter]. unfold create_achievement_request at 1.
           rewrite is_create_post, Hq2, Hf. reflexivity.
    + destruct (IH (add_slept 300 (emit ("FAILED" +++ nl) wb)) Hlrest)
        as (w' & qs & Hrun & Hs & Hf).
      * cbn. now rewrite Hnb.
      * cbn. rewrite Hnb. simpl in Hlen. lia.
      * exists w', (create_achievement_request token gc_detail_id ach :: qs).
        split; [| split].
        -- unfold bind at 1. unfold print at 1. unfold bind at 1. unfold sleep at 1.
           exact Hrun.
        -- rewrite Hs. cbn. rewrite Hsb. cbn. rewrite <- !app_assoc. reflexivity.
        -- cbn [filter]. unfold create_achievement_request at 1.
           rewrite is_create_post, Hf. reflexivity.
Qed.

(** What a create that is refused leaves behind: the request, the error
    line of [api_post], [FAILED], and the pause. *)
Definition after_failed_create (label : string) (q : request) (r : response)
    (rest : list response) (w : world) : world :=
  add_slept 300
    (emit ("FAILED" +++ nl)
       (emit (error_line r)
          (set_net rest (log_request q (emit (("  Creating: " +++ label +++ "...") +++ " ") w))))).

Lemma api_post_failed (token path : string) (data : json) (w : world) (r : response)
    (rest : list response) :
  net w = r :: rest -> failed r = true ->
  api_post token path data w
  = (Ret JNull,
     emit (error_line r) (set_net rest (log_request (post_request token (BASE_URL +++ path) data) w))).
Proof.
  intros Hnet Hf. unfold api_post, requests_post, requests_request, bind. rewrite Hnet.
  unfold failed in Hf. apply negb_true_iff in Hf. rewrite Hf. reflexivity.
Qed.

End Batch.

(** C6. In both batch loops a create that is refused (any status but 200
    and 201, which [api_post] turns into [None]) costs the item its
    localization and nothing else: the loop prints FAILED, pauses, and goes
    on with the remaining items exactly as it would have.  Hence, over any
    responses that are failures or readable payloads, in any mix, and enough
    of them, [create_all_leaderboards] and [create_all_achievements] return
    having sent the create request of every configured item, in order. *)
Theorem failed_create_does_not_abort (token : string) (gc_detail_id : json) :
  (forall (lb : SetupGameCenter.leaderboard_config)
          (rest : list SetupGameCenter.leaderboard_config)
          (w : world) (r : response) (n : list response),
     net w = r :: n -> Batch.failed r = true ->
     SetupGameCenter.leaderboards_loop token gc_detail_id (lb :: rest) w
     = SetupGameCenter.leaderboards_loop token gc_detail_id rest
         (Batch.after_failed_create (SetupGameCenter.lb_referenceName lb)
            (Batch.create_leaderboard_request token gc_detail_id lb) r n w)) /\
  (forall (ach : SetupGameCenter.achievement_config)
          (rest : list SetupGameCenter.achievement_config)
          (w : world) (r : response) (n : list response),
     net w = r :: n -> Batch.failed r = true ->
     SetupGameCenter.achievements_loop token gc_detail_id (ach :: rest) w
     = SetupGameCenter.achievements_loop token gc_detail_id rest
         (Batch.after_failed_create (SetupGameCenter.referenceName ach)
            (Batch.create_achievement_request token gc_detail_id ach) r n w)) /\
  (forall w : world,
     forallb Batch.benign (net w) = true ->
     (2 * List.length SetupGameCenter.SCORE_LEADERBOARDS <= List.length (net w))%nat ->
     exists w' qs,
       SetupGameCenter.create_all_leaderboards token gc_detail_id w = (Ret tt, w') /\
       sent w' = sent w ++ qs /\
       filter (Batch.is_create "/gameCenterLeaderboards") qs
       = map (Batch.create_leaderboard_request token gc_detail_id)
           SetupGameCenter.SCORE_LEADERBOARDS) /\
  (forall w : world,
     forallb Batch.benign (net w) = true ->
     (2 * List.length SetupGameCenter.ACHIEVEMENTS <= List.length (net w))%nat ->
     exists w' qs,
       SetupGameCenter.create_all_achievements token gc_detail_id w = (Ret tt, w') /\
       sent w' = sent w ++ qs /\
       filter (Batch.is_create "/gameCenterAchievements") qs
       = map (Batch.create_achievement_request token gc_detail_id)
           SetupGameCenter.ACHIEVEMENTS).
Proof.
  split; [| split; [| split]].
  - intros lb rest w r n Hnet Hf. cbn [SetupGameCenter.leaderboards_loop].
    erewrite bind_Ret by reflexivity.
    unfold SetupGameCenter.create_leaderboard.
    erewrite bind_Ret by (apply Batch.api_post_failed; [exact Hnet | exact Hf]).
    reflexivity.
  - intros ach rest w r n Hnet Hf. cbn [SetupGameCenter.achievements_loop].
    erewrite bind_Ret by reflexivity.
    unfold SetupGameCenter.create_achievement.
    erewrite bind_Ret by (apply Batch.api_post_failed; [exact Hnet | exact Hf]).
    reflexivity.
  - intros w Hb Hlen. unfold SetupGameCenter.create_all_leaderboards.
    erewrite bind_Ret by reflexivity.
    apply (Batch.leaderboards_loop_attempts_all token gc_detail_id
             SetupGameCenter.SCORE_LEADERBOARDS (emit _ w)); assumption.
  - intros w Hb Hlen. unfold SetupGameCenter.create_all_achievements.
    erewrite bind_Ret by reflexivity.
    apply (Batch.achievements_loop_attempts_all token gc_detail_id
             SetupGameCenter.ACHIEVEMENTS (emit _ w));
      [apply Batch.achievements_localized | assumption | assumption].
Qed.

(** The first create refused, every other call accepted. *)
Definition first_refused : list response :=
  error_response 409 "duplicate" :: repeat (json_response 201 accepted_payload) 122.

Lemma failed_create_does_not_abort_witness :
  exists w' qs,
    SetupGameCenter.create_all_leaderboards "tok" (JStr "gc1") (sample_world first_refused)
    = (Ret tt, w') /\
    sent w' = sent (sample_world first_refused) ++ qs /\
    filter (Batch.is_create "/gameCenterLeaderboards") qs
    = map (Batch.create_leaderboard_request "tok" (JStr "gc1"))
        SetupGameCenter.SCORE_LEADERBOARDS.
Proof.
  apply (proj1 (proj2 (proj2 (failed_create_does_not_abort "tok" (JStr "gc1"))))
           (sample_world first_refused)).
  - vm_compute. reflexivity.
  - vm_compute. lia.
Defined.

(** ** Byte ranges *)

From Stdlib Require Import Sorted.

Section Slices.
Context {A : Type}.

Lemma firstn_plus (x y : nat) (l : list A) :
  firstn (x + y) l = firstn x l ++ firstn y (skipn x l).
Proof.
  revert l. induction x as [| x IH]; intros l; [reflexivity |].
  destruct l as [| a l]; simpl.
  - now rewrite firstn_nil.
  - now rewrite IH.
Qed.

Lemma clamp_inside (n i : Z) : 0 <= i <= n -> clamp n i = i.
Proof. intros H. unfold clamp. destruct (Z.ltb_spec i 0); lia. Qed.

Lemma py_slice_empty (l : list A) (a : Z) : py_slice l a a = [].
Proof. unfold py_slice. now rewrite Z.sub_diag. Qed.

Lemma py_slice_inside (l : list A) (a b : Z) :
  0 <= a <= b -> b <= Z.of_nat (List.length l) ->
  py_slice l a b = firstn (Z.to_nat (b - a)) (skipn (Z.to_nat a) l).
Proof. intros H1 H2. unfold py_slice. rewrite !clamp_inside by lia. reflexivity. Qed.

Lemma py_slice_app (l : list A) (a b c : Z) :
  0 <= a <= b -> b <= c -> c <= Z.of_nat (List.length l) ->
  py_slice l a b ++ py_slice l b c = py_slice l a c.
Proof.
  intros H1 H2 H3. rewrite !py_slice_inside by lia.
  replace (Z.to_nat (c - a)) with (Z.to_nat (b - a) + Z.to_nat (c - b))%nat by lia.
  rewrite firstn_plus, skipn_skipn.
  replace (Z.to_nat (b - a) + Z.to_nat a)%nat with (Z.to_nat b) by lia.
  reflexivity.
Qed.

Lemma py_slice_full (l : list A) : py_slice l 0 (Z.of_nat (List.length l)) = l.
Proof.
  rewrite py_slice_inside by lia. rewrite Z.sub_0_r, Nat2Z.id. simpl. apply firstn_all.
Qed.

End Slices.

(** One upload operation of a reservation, as [upload_image_data] reads it. *)
Record upload_op : Type := {
  op_method : string;
  op_url : string;
  op_headers : list (string * string);
  op_offset : Z;
  op_length : Z
}.

(** The JSON object [j] declares the operation [o]; [offset] may be left
    out, and then is 0. *)
Inductive describes (j : json) (o : upload_op) : Prop :=
| describes_intro kv hj hl :
    j = JDict kv ->
    dict_get kv "method" = Some (JStr (op_method o)) ->
    dict_get kv "url" = Some (JStr (op_url o)) ->
    dict_get kv "requestHeaders" = Some hj ->
    py_iter hj = inr hl ->
    UploadGcImages.header_dict hl [] = inr (op_headers o) ->
    dict_get kv "offset" = Some (JInt (op_offset o))
    \/ (dict_get kv "offset" = None /\ op_offset o = 0) ->
    dict_get kv "length" = Some (JInt (op_length o)) ->
    describes j o.

(** The bytes of the file the operation declares. *)
Definition declared (file_data : list byte) (o : upload_op) : list byte :=
  py_slice file_data (op_offset o) (op_offset o + op_length o).

Definition upload_request (file_data : list byte) (o : upload_op) : request :=
  {| method := op_method o; url := op_url o; headers := op_headers o; params := JNull;
     body := RawBody (declared file_data o) |}.

(** The ranges [from, from + length) laid end to end reach [to]. *)
Fixpoint tiles (from : Z) (ops : list upload_op) (to : Z) : Prop :=
  match ops with
  | [] => from = to
  | o :: rest => op_offset o = from /\ 0 <= op_length o /\ tiles (from + op_length o) rest to
  end.

(** The declared ranges partition [0, size): in some order they tile it. *)
Definition partitions (ops : list upload_op) (size : Z) : Prop :=
  exists chain, Permutation ops chain /\ tiles 0 chain size.

Definition by_offset (o1 o2 : upload_op) : Prop := op_offset o1 <= op_offset o2.

Lemma tiles_le (ops : list upload_op) : forall a b, tiles a ops b -> a <= b.
Proof.
  induction ops as [| o rest IH]; intros a b H; simpl in H.
  - lia.
  - destruct H as (_ & Hl & Ht). apply IH in Ht. lia.
Qed.

Lemma tiles_app (l1 l2 : list upload_op) :
  forall a b, tiles a (l1 ++ l2) b -> exists m, tiles a l1 m /\ tiles m l2 b.
Proof.
  induction l1 as [| o l1 IH]; intros a b H; simpl in *.
  - exists a. auto.
  - destruct H as (Ho & Hl & Ht). destruct (IH _ _ Ht) as (m & H1 & H2).
    exists m. auto.
Qed.

Lemma tiles_nothing (ops : list upload_op) :
  forall a, tiles a ops a -> Forall (fun o => op_length o = 0) ops.
Proof.
  induction ops as [| o rest IH]; intros a H; simpl in H; constructor.
  - destruct H as (_ & Hl & Ht). apply tiles_le in Ht. lia.
  - destruct H as (_ & Hl & Ht). pose proof (tiles_le _ _ _ Ht) as Hle.
    assert (E : op_length o = 0) by lia. rewrite E, Z.add_0_r in Ht. eauto.
Qed.

Lemma declared_nothing (file_data : list byte) (o : upload_op) :
  op_length o = 0 -> declared file_data o = [].
Proof. intros E. unfold declared. rewrite E, Z.add_0_r. apply py_slice_empty. Qed.

(** Ranges that tile [a, b), with empty ranges thrown in, give the bytes of
    [a, b) when their chunks are laid out by offset. *)
Lemma ordered_tiling (file_data : list byte) :
  forall (arr : list upload_op) (a b : Z) (junk chain : list upload_op),
    0 <= a -> b <= Z.of_nat (List.length file_data) ->
    StronglySorted by_offset arr ->
    Permutation arr (junk ++ chain) ->
    Forall (fun o => op_length o = 0) junk ->
    tiles a chain b ->
    List.concat (map (declared file_data) arr) = py_slice file_data a b.
Proof.
  induction arr as [| x arr IH]; intros a b junk chain Ha Hb Hsorted Hperm Hjunk Htiles.
  - apply Permutation_nil in Hperm. apply app_eq_nil in Hperm. destruct Hperm as [_ ->].
    simpl in Htiles. subst b. now rewrite py_slice_empty.
  - apply StronglySorted_inv in Hsorted. destruct Hsorted as [Hsorted Hmin].
    assert (Hin : In x (junk ++ chain)) by (eapply Permutation_in; [exact Hperm | now left]).
    apply in_app_or in Hin. destruct Hin as [Hin | Hin].
    + apply in_split in Hin. destruct Hin as (j1 & j2 & ->).
      rewrite <- app_assoc in Hperm. simpl in Hperm.
      apply Permutation_cons_app_inv in Hperm.
      simpl. rewrite declared_nothing.
      * simpl. apply (IH a b (j1 ++ j2) chain); auto.
        -- now rewrite <- app_assoc.
        -- apply Forall_app in Hjunk. destruct Hjunk as [H1 H2]. inversion H2; subst.
           apply Forall_app. auto.
      * apply Forall_app in Hjunk. destruct Hjunk as [_ H2]. now inversion H2.
    + apply in_split in Hin. destruct Hin as (c1 & c2 & ->).
      rewrite app_assoc in Hperm. apply Permutation_cons_app_inv in Hperm.
      destruct (tiles_app _ _ _ _ Htiles) as (m & Hc1 & Hxc2).
      simpl in Hxc2. destruct Hxc2 as (Hoff & Hlen & Hc2).
      assert (Hm : m = a).
      { pose proof (tiles_le _ _ _ Hc1) as Hle.
        destruct c1 as [| y c1']; [simpl in Hc1; lia |].
        simpl in Hc1. destruct Hc1 as (Hy & _).
        assert (Hyin : In y arr).
        { eapply Permutation_in; [symmetry; exact Hperm |].
          apply in_or_app. left. apply in_or_app. right. now left. }
        rewrite Forall_forall in Hmin. specialize (Hmin y Hyin). unfold by_offset in Hmin. lia. }
      rewrite Hm in Hc1, Hoff, Hc2. clear Hm m.
      pose proof (tiles_nothing _ _ Hc1) as Hc1z.
      pose proof (tiles_le _ _ _ Hc2) as Hle2.
      simpl. rewrite (IH (a + op_length x) b (junk ++ c1) c2); auto; try lia.
      * unfold declared. rewrite Hoff. apply py_slice_app; lia.
      * apply Forall_app. auto.
Qed.

Definition upload_error (r : response) : string :=
  ("    UPLOAD ERROR " +++ str_of_Z (status_code r) +++ ": " +++ str_take 300 (text r)) +++ nl.

Lemma bind_lift {A B} (a : A) (f : A -> M B) (w : world) : bind (lift (inr a)) f w = f a w.
Proof. reflexivity. Qed.

(** One turn of the upload loop, on an operation that is well formed. *)
Lemma upload_loop_step (file_data : list byte) (j : json) (o : upload_op) (rest : list json)
    (w : world) :
  describes j o ->
  UploadGcImages.upload_loop (j :: rest) file_data w
  = match net w with
    | [] => (Raise ConnectionError, log_request (upload_request file_data o) w)
    | r :: rs =>
        let w1 := set_net rs (log_request (upload_request file_data o) w) in
        if UploadGcImages.upload_ok (status_code r)
        then UploadGcImages.upload_loop rest file_data w1
        else (Ret false, emit (upload_error r) w1)
    end.
Proof.
  intros [kv hj hl -> Hm Hu Hh Hi Hd Ho Hl].
  cbn [UploadGcImages.upload_loop py_item py_get].
  rewrite Hm, Hu, Hh, Hl, !bind_lift, Hi, bind_lift, Hd, bind_lift.
  assert (Hoff : match dict_get kv "offset" with Some v => v | None => JInt 0 end
                 = JInt (op_offset o)).
  { destruct Ho as [-> | [-> ->]]; reflexivity. }
  rewrite Hoff, !bind_lift. cbn [UploadGcImages.chunk_of want_int want_str].
  rewrite !bind_lift.
  unfold bind at 1, requests_request.
  fold (declared file_data o). fold (upload_request file_data o).
  destruct (net w) as [| r rs]; [reflexivity |].
  cbv zeta. destruct (UploadGcImages.upload_ok (status_code r)); reflexivity.
Qed.

(** Whatever the network answers, the requests that go out are those of
    the first operations, each with exactly its declared bytes. *)
Lemma upload_loop_sends_prefix (file_data : list byte) (ops : list json)
    (descr : list upload_op) :
  Forall2 describes ops descr ->
  forall w : world,
    exists k : nat,
      sent (snd (UploadGcImages.upload_loop ops file_data w))
      = sent w ++ map (upload_request file_data) (firstn k descr).
Proof.
  induction 1 as [| j o ops descr Hjo Hrest IH]; intros w.
  - exists 0%nat. simpl. now rewrite app_nil_r.
  - rewrite (upload_loop_step file_data j o ops w Hjo).
    destruct (net w) as [| r rs].
    + exists 1%nat. reflexivity.
    + cbv zeta. destruct (UploadGcImages.upload_ok (status_code r)).
      * destruct (IH (set_net rs (log_request (upload_request file_data o) w))) as (k & Hk).
        exists (S k). rewrite Hk. simpl. now rewrite <- app_assoc.
      * exists 1%nat. reflexivity.
Qed.

(** With every answer but perhaps the last an acceptance, every operation
    is sent. *)
Lemma upload_loop_sends_all (file_data : list byte) (ops : list json)
    (descr : list upload_op) :
  Forall2 describes ops descr ->
  forall (w : world) (rs rest : list response),
    net w = rs ++ rest -> List.length rs = List.length ops ->
    forallb (fun r => UploadGcImages.upload_ok (status_code r)) (removelast rs) = true ->
    exists w',
      UploadGcImages.upload_loop ops file_data w
      = (Ret (forallb (fun r => UploadGcImages.upload_ok (status_code r)) rs), w') /\
      net w' = rest /\
      sent w' = sent w ++ map (upload_request file_data) descr.
Proof.
  induction 1 as [| j o ops descr Hjo Hrest IH]; intros w rs rest Hnet Hlen Hok.
  - destruct rs; [| discriminate]. exists w. simpl. now rewrite app_nil_r.
  - destruct rs as [| r rs]; [discriminate |].
    rewrite (upload_loop_step file_data j o ops w Hjo), Hnet. cbv zeta.
    cbn [app forallb]. simpl in Hlen.
    destruct ops as [| j2 ops].
    + destruct rs; [| discriminate]. inversion Hrest; subst.
      destruct (UploadGcImages.upload_ok (status_code r)); eexists; repeat split; reflexivity.
    + destruct rs as [| r2 rs]; [discriminate |].
      change (removelast (r :: r2 :: rs)) with (r :: removelast (r2 :: rs)) in Hok.
      cbn [forallb] in Hok. apply andb_true_iff in Hok. destruct Hok as [Hr Hok].
      rewrite Hr. cbn [andb].
      destruct (IH (set_net ((r2 :: rs) ++ rest) (log_request (upload_request file_data o) w))
                  (r2 :: rs) rest) as (w' & Hrun & Hn & Hs); [reflexivity | lia | exact Hok |].
      exists w'. rewrite Hrun, Hn, Hs. repeat split. simpl. now rewrite <- app_assoc.
Qed.

(** At the first answer that is not an acceptance the loop stops: the
    operations up to that one were sent, and no later one is. *)
Lemma upload_loop_stops (file_data : list byte) (ops : list json)
    (descr : list upload_op) :
  Forall2 describes ops descr ->
  forall (w : world) (oks : list response) (bad : response) (rest : list response),
    net w = oks ++ bad :: rest -> (List.length oks < List.length ops)%nat ->
    forallb (fun r => UploadGcImages.upload_ok (status_code r)) oks = true ->
    UploadGcImages.upload_ok (status_code bad) = false ->
    exists w',
      UploadGcImages.upload_loop ops file_data w = (Ret false, w') /\
      net w' = rest /\
      sent w' = sent w ++ map (upload_request file_data) (firstn (S (List.length oks)) descr) /\
      out w' = out w ++ [upload_error bad].
Proof.
  induction 1 as [| j o ops descr Hjo Hrest IH]; intros w oks bad rest Hnet Hlen Hok Hbad.
  - simpl in Hlen. lia.
  - rewrite (upload_loop_step file_data j o ops w Hjo), Hnet. cbv zeta.
    destruct oks as [| r oks]; cbn [app].
    + rewrite Hbad. eexists. split; [reflexivity |]. cbn. auto.
    + cbn [forallb] in Hok. apply andb_true_iff in Hok. destruct Hok as [Hr Hok].
      rewrite Hr.
      destruct (IH (set_net (oks ++ bad :: rest) (log_request (upload_request file_data o) w))
                  oks bad rest) as (w' & Hrun & Hn & Hs & Ho);
        [reflexivity | simpl in Hlen; lia | exact Hok | exact Hbad |].
      exists w'. rewrite Hrun, Hn, Hs, Ho. repeat split.
      cbn [sent set_net log_request List.length firstn map]. now rewrite <- app_assoc.
Qed.

(** ** The upload *)

Definition sample_image : string := "/repo/tools/gc_images/achievements/level_1_complete.png".

Definition sample_op (offset length : Z) : upload_op :=
  {| op_method := "PUT"; op_url := "https://upload.example/part";
     op_headers := [("Content-Type", "image/png")];
     op_offset := offset; op_length := length |}.

Definition sample_op_json (offset length : Z) : json :=
  JDict [("method", JStr "PUT"); ("url", JStr "https://upload.example/part");
         ("length", JInt length); ("offset", JInt offset);
         ("requestHeaders",
          JList [JDict [("name", JStr "Content-Type"); ("value", JStr "image/png")]])].

Lemma sample_op_described (offset length : Z) :
  describes (sample_op_json offset length) (sample_op offset length).
Proof.
  eapply describes_intro; try reflexivity. left. reflexivity.
Defined.

(** The second half is declared first. *)
Definition two_halves : list upload_op := [sample_op 2 2; sample_op 0 2].
Definition two_halves_json : list json := [sample_op_json 2 2; sample_op_json 0 2].

Lemma two_halves_described : Forall2 describes two_halves_json two_halves.
Proof. repeat constructor; apply sample_op_described. Defined.

Lemma two_halves_partition : partitions two_halves 4.
Proof.
  exists [sample_op 0 2; sample_op 2 2]. split.
  - apply perm_swap.
  - simpl. repeat split; lia.
Defined.

(** C2, as stated, fails: the two operations declare a partition of the
    four bytes of the file, but the first upload is answered 500, so
    [upload_image_data] returns [False] with the second operation never
    sent; what was sent is half of the file. *)
Lemma upload_reassembly_counterexample :
  partitions two_halves 4 /\
  Forall2 describes two_halves_json two_halves /\
  files (sample_world []) sample_image = Some (list_byte_of_string "abcd") /\
  fst (UploadGcImages.upload_image_data (JList two_halves_json) sample_image
         (sample_world [error_response 500 "boom"])) = Ret false /\
  map body (sent (snd (UploadGcImages.upload_image_data (JList two_halves_json) sample_image
                         (sample_world [error_response 500 "boom"]))))
  = [RawBody (list_byte_of_string "cd")] /\
  list_byte_of_string "cd" <> list_byte_of_string "abcd".
Proof.
  split; [exact two_halves_partition |].
  split; [exact two_halves_described |].
  repeat split; try reflexivity. vm_compute. discriminate.
Qed.

(** C2, amended. With the file readable and the operations well formed:
    whatever the answers, the requests [upload_image_data] sends are those
    of the first operations in the reservation's order, each one carrying
    exactly [file_data[offset : offset + length]]; at the first answer that
    is not 200, 201 or 204 it stops: it prints the error and returns
    [False], the operations up to that one sent and none after it, no
    further response taken; and when every answer but perhaps the last is
    one of those, every operation is sent, so that, the ranges partitioning
    [0, S), the chunks laid out in any order of increasing offset are the
    file, byte for byte. *)
Theorem upload_sends_declared_ranges (file_path : string) (file_data : list byte)
    (ops : list json) (descr : list upload_op) (w : world)
    (Hfile : files w file_path = Some file_data)
    (Hops : Forall2 describes ops descr) :
  (exists k : nat,
     sent (snd (UploadGcImages.upload_image_data (JList ops) file_path w))
     = sent w ++ map (upload_request file_data) (firstn k descr)) /\
  (forall o : upload_op,
     body (upload_request file_data o)
     = RawBody (py_slice file_data (op_offset o) (op_offset o + op_length o))) /\
  (forall (oks : list response) (bad : response) (rest : list response),
     net w = oks ++ bad :: rest -> (List.length oks < List.length ops)%nat ->
     forallb (fun r => UploadGcImages.upload_ok (status_code r)) oks = true ->
     UploadGcImages.upload_ok (status_code bad) = false ->
     exists w',
       UploadGcImages.upload_image_data (JList ops) file_path w = (Ret false, w') /\
       net w' = rest /\
       sent w' = sent w ++ map (upload_request file_data)
                             (firstn (S (List.length oks)) descr) /\
       out w' = out w ++ [upload_error bad]) /\
  (forall rs rest : list response,
     net w = rs ++ rest -> List.length rs = List.length ops ->
     forallb (fun r => UploadGcImages.upload_ok (status_code r)) (removelast rs) = true ->
     partitions descr (Z.of_nat (List.length file_data)) ->
     exists w',
       UploadGcImages.upload_image_data (JList ops) file_path w
       = (Ret (forallb (fun r => UploadGcImages.upload_ok (status_code r)) rs), w') /\
       net w' = rest /\
       sent w' = sent w ++ map (upload_request file_data) descr /\
       forall arr : list upload_op,
         Permutation arr descr -> StronglySorted by_offset arr ->
         List.concat (map (declared file_data) arr) = file_data).
Proof.
  assert (Hrun : forall w0, files w0 file_path = Some file_data ->
            UploadGcImages.upload_image_data (JList ops) file_path w0
            = UploadGcImages.upload_loop ops file_data w0).
  { intros w0 H0. unfold UploadGcImages.upload_image_data, bind at 1, read_bytes.
    rewrite H0. reflexivity. }
  rewrite (Hrun w Hfile). split; [| split; [| split]].
  - apply (upload_loop_sends_prefix file_data ops descr Hops).
  - reflexivity.
  - intros oks bad rest Hnet Hlen Hok Hbad.
    apply (upload_loop_stops file_data ops descr Hops w oks bad rest Hnet Hlen Hok Hbad).
  - intros rs rest Hnet Hlen Hok [chain [Hperm Htiles]].
    destruct (upload_loop_sends_all file_data ops descr Hops w rs rest Hnet Hlen Hok)
      as (w' & Hr & Hn & Hs).
    exists w'. repeat split; auto.
    intros arr Harr Hsorted.
    rewrite (ordered_tiling file_data arr 0 (Z.of_nat (List.length file_data)) [] chain);
      auto; try lia.
    + apply py_slice_full.
    + simpl. now rewrite Harr.
Qed.

Lemma upload_sends_declared_ranges_witness :
  (exists w',
     UploadGcImages.upload_image_data (JList two_halves_json) sample_image
       (sample_world [json_response 200 JNull; json_response 204 JNull])
     = (Ret true, w') /\
     net w' = [] /\
     sent w' = [] ++ map (upload_request (list_byte_of_string "abcd")) two_halves /\
     forall arr : list upload_op,
       Permutation arr two_halves -> StronglySorted by_offset arr ->
       List.concat (map (declared (list_byte_of_string "abcd")) arr)
       = list_byte_of_string "abcd") /\
  (exists w',
     UploadGcImages.upload_image_data (JList two_halves_json) sample_image
       (sample_world [error_response 500 "boom"; json_response 200 JNull])
     = (Ret false, w') /\
     net w' = [json_response 200 JNull] /\
     sent w' = [] ++ map (upload_request (list_byte_of_string "abcd"))
                       (firstn 1 two_halves) /\
     out w' = [] ++ [upload_error (error_response 500 "boom")]).
Proof.
  split.
  - apply (proj2 (proj2 (proj2 (upload_sends_declared_ranges sample_image
                                  (list_byte_of_string "abcd") two_halves_json two_halves
                                  (sample_world [json_response 200 JNull;
                                                 json_response 204 JNull])
                                  eq_refl two_halves_described)))
             [json_response 200 JNull; json_response 204 JNull] []).
    + reflexivity.
    + reflexivity.
    + reflexivity.
    + exact two_halves_partition.
  - apply (proj1 (proj2 (proj2 (upload_sends_declared_ranges sample_image
                                  (list_byte_of_string "abcd") two_halves_json two_halves
                                  (sample_world [error_response 500 "boom";
                                                 json_response 200 JNull])
                                  eq_refl two_halves_described)))
             [] (error_response 500 "boom") [json_response 200 JNull]).
    + reflexivity.
    + simpl. lia.
    + reflexivity.
    + reflexivity.
Defined.

(** ** What a run leaves alone *)

(** The request log only grows. *)
Definition extends (w w' : world) : Prop := exists qs, sent w' = sent w ++ qs.

(** Nothing was sent and no response was taken. *)
Definition offline (w w' : world) : Prop := sent w' = sent w /\ net w' = net w.

Section Preservation.
Variable R : world -> world -> Prop.
Hypothesis R_refl : forall w, R w w.
Hypothesis R_trans : forall a b c, R a b -> R b c -> R a c.

(** Every run of [m] ends in a world related to the one it started in. *)
Definition preserves {A} (m : M A) : Prop := forall w, R w (snd (m w)).

Lemma preserves_ret {A} (a : A) : preserves (ret a).
Proof. intros w. apply R_refl. Qed.

Lemma preserves_raise {A} (e : exn) : preserves (@raise A e).
Proof. intros w. apply R_refl. Qed.

Lemma preserves_exit {A} (c : Z) : preserves (@sys_exit A c).
Proof. intros w. apply R_refl. Qed.

Lemma preserves_lift {A} (r : exn + A) : preserves (lift r).
Proof. destruct r; [apply preserves_raise | apply preserves_ret]. Qed.

Lemma preserves_bind {A B} (m : M A) (f : A -> M B) :
  preserves m -> (forall a, preserves (f a)) -> preserves (bind m f).
Proof.
  intros Hm Hf w. unfold bind. specialize (Hm w).
  destruct (m w) as [[a | c | e] w1]; simpl in Hm; simpl; auto.
  apply (R_trans _ _ _ Hm). apply Hf.
Qed.

Lemma preserves_resp_json (r : response) : preserves (resp_json r).
Proof. unfold resp_json. destruct (json_body r); [apply preserves_ret | apply preserves_raise]. Qed.

Lemma preserves_has_data (j : json) : preserves (has_data j).
Proof.
  unfold has_data. destruct (truthy j); [| apply preserves_ret].
  apply preserves_bind; [apply preserves_lift | intros; apply preserves_ret].
Qed.

Lemma preserves_read_text (path : string) : preserves (read_text path).
Proof. intros w. unfold read_text. destruct (files w path); apply R_refl. Qed.

Lemma preserves_read_bytes (path : string) : preserves (read_bytes path).
Proof. intros w. unfold read_bytes. destruct (files w path); apply R_refl. Qed.

Lemma preserves_getsize (path : string) : preserves (getsize path).
Proof.
  unfold getsize. apply preserves_bind; [apply preserves_read_bytes | intros; apply preserves_ret].
Qed.

Lemma preserves_path_exists (path : string) : preserves (path_exists path).
Proof. intros w. apply R_refl. Qed.

Lemma preserves_listdir (path : string) : preserves (listdir path).
Proof. intros w. unfold listdir. destruct (listing w path); apply R_refl. Qed.

Lemma preserves_get_script_dir : preserves get_script_dir.
Proof. intros w. apply R_refl. Qed.

Lemma preserves_generate_token (key_id issuer_id key_file : string) :
  preserves (generate_token key_id issuer_id key_file).
Proof.
  intros w. unfold generate_token, bind, read_text, datetime_now, jwt_encode.
  destruct (files w key_file); [| apply R_refl].
  destruct (signer w _ _ _); apply R_refl.
Qed.

Hypothesis R_emit : forall s w, R w (emit s w).
Hypothesis R_slept : forall ms w, R w (add_slept ms w).

Lemma preserves_print (s : string) : preserves (print s).
Proof. intros w. apply R_emit. Qed.

Lemma preserves_print_end (s e : string) : preserves (print_end s e).
Proof. intros w. apply R_emit. Qed.

Lemma preserves_sleep (ms : Z) : preserves (sleep ms).
Proof. intros w. apply R_slept. Qed.

End Preservation.

Lemma extends_refl (w : world) : extends w w.
Proof. exists []. now rewrite app_nil_r. Qed.

Lemma extends_trans (a b c : world) : extends a b -> extends b c -> extends a c.
Proof. intros [q1 H1] [q2 H2]. exists (q1 ++ q2). now rewrite H2, H1, app_assoc. Qed.

Lemma extends_emit (s : string) (w : world) : extends w (emit s w).
Proof. exists []. cbn. now rewrite app_nil_r. Qed.

Lemma extends_slept (ms : Z) (w : world) : extends w (add_slept ms w).
Proof. exists []. cbn. now rewrite app_nil_r. Qed.

Lemma offline_refl (w : world) : offline w w.
Proof. split; reflexivity. Qed.

Lemma offline_trans (a b c : world) : offline a b -> offline b c -> offline a c.
Proof. intros [H1 H2] [H3 H4]. split; congruence. Qed.

Lemma offline_emit (s : string) (w : world) : offline w (emit s w).
Proof. split; reflexivity. Qed.

Lemma offline_slept (ms : Z) (w : world) : offline w (add_slept ms w).
Proof. split; reflexivity. Qed.

Lemma extends_request (q : request) : preserves extends (requests_request q).
Proof.
  intros w. unfold requests_request. destruct (net w); exists [q]; reflexivity.
Qed.

(** No run calls [sys.exit]. *)
Definition never_exits {A} (m : M A) : Prop := forall w c, fst (m w) <> Exit c.

Lemma never_exits_bind {A B} (m : M A) (f : A -> M B) :
  never_exits m -> (forall a, never_exits (f a)) -> never_exits (bind m f).
Proof.
  intros Hm Hf w c. unfold bind. specialize (Hm w).
  destruct (m w) as [[a | c' | e] w1]; simpl in *.
  - apply Hf.
  - intros _. now apply (Hm c').
  - discriminate.
Qed.

Lemma never_exits_pure {A} (m : M A) :
  (forall w, exists o w', m w = (o, w') /\ forall c, o <> Exit c) -> never_exits m.
Proof.
  intros H w c. destruct (H w) as (o & w' & E & Ho). rewrite E. apply Ho.
Qed.

(** A call to [sys.exit] comes from one of the two halves of a sequence. *)
Lemma bind_exit_inv {A B} (m : M A) (f : A -> M B) (w w' : world) (c : Z) :
  bind m f w = (Exit c, w') ->
  m w = (Exit c, w') \/ exists a w1, m w = (Ret a, w1) /\ f a w1 = (Exit c, w').
Proof.
  unfold bind. destruct (m w) as [[a | c' | e] w1]; intros H.
  - right. eauto.
  - left. inversion H. reflexivity.
  - discriminate.
Qed.

Create HintDb noexit discriminated.
#[global] Hint Constants Opaque : noexit.

Ltac no_exit_leaf :=
  let w := fresh "w" in
  let c := fresh "c" in
  intros w c; cbv beta delta
    [ret raise lift print print_end sleep requests_request requests_get requests_post
     requests_patch requests_delete resp_json read_text read_bytes path_exists listdir
     get_script_dir datetime_now jwt_encode];
  repeat match goal with
         | |- context [match ?x with _ => _ end] => destruct x
         end;
  discriminate.

Ltac no_exit :=
  repeat first
    [ solve [auto with noexit]
    | match goal with
      | |- never_exits (bind _ _) => apply never_exits_bind; [| intros ?]
      end
    | match goal with
      | |- never_exits (if ?b then _ else _) => destruct b
      | |- never_exits (match ?x with _ => _ end) => destruct x
      end
    | solve [no_exit_leaf] ].

Lemma never_exits_has_data (j : json) : never_exits (has_data j).
Proof. unfold has_data. no_exit. Qed.

Lemma never_exits_getsize (path : string) : never_exits (getsize path).
Proof. unfold getsize. no_exit. Qed.

Lemma never_exits_generate_token (key_id issuer_id key_file : string) :
  never_exits (generate_token key_id issuer_id key_file).
Proof. unfold generate_token. no_exit. Qed.

Lemma never_exits_pages_loop (indent : string) (shown : nat) (token : string) :
  forall (fuel : nat) (u p : json) (acc : list json),
    never_exits (pages_loop fuel indent shown token u p acc).
Proof.
  induction fuel as [| fuel IH]; intros u p acc; cbn [pages_loop]; no_exit; apply IH.
Qed.

Lemma never_exits_all_pages (indent : string) (shown : nat) (token u : string) (p : json) :
  never_exits (all_pages indent shown token u p).
Proof. intros w c. unfold all_pages. apply never_exits_pages_loop. Qed.

#[global] Hint Resolve never_exits_has_data never_exits_getsize never_exits_generate_token
  never_exits_all_pages : noexit.

Module UploadNoExit.
Import UploadGcImages.

Lemma upload_api_get_no_exit (token path : string) (p : json) : never_exits (api_get token path p).
Proof. unfold api_get. no_exit. Qed.

Lemma upload_api_post_no_exit (token path : string) (d : json) : never_exits (api_post token path d).
Proof. unfold api_post. no_exit. Qed.

Lemma upload_api_patch_no_exit (token path : string) (d : json) : never_exits (api_patch token path d).
Proof. unfold api_patch. no_exit. Qed.

Lemma upload_api_delete_no_exit (token path : string) : never_exits (api_delete token path).
Proof. unfold api_delete. no_exit. Qed.

Lemma upload_api_get_all_pages_no_exit (token path : string) (p : json) :
  never_exits (api_get_all_pages token path p).
Proof. unfold api_get_all_pages. no_exit. Qed.

#[global] Hint Resolve upload_api_get_no_exit upload_api_post_no_exit upload_api_patch_no_exit upload_api_delete_no_exit
  upload_api_get_all_pages_no_exit : noexit.

Lemma upload_loop_no_exit (file_data : list byte) :
  forall ops : list json, never_exits (upload_loop ops file_data).
Proof. induction ops as [| op rest IH]; cbn [upload_loop]; no_exit. Qed.

#[global] Hint Resolve upload_loop_no_exit : noexit.

Lemma upload_image_data_no_exit (ops : json) (path : string) :
  never_exits (upload_image_data ops path).
Proof. unfold upload_image_data. no_exit. Qed.

Lemma delete_existing_image_no_exit (token rt lt : string) (id : json) :
  never_exits (delete_existing_image token rt lt id).
Proof. unfold delete_existing_image. no_exit. Qed.

Lemma delivery_state_no_exit (attrs : json) (d : string) : never_exits (delivery_state attrs d).
Proof. unfold delivery_state. no_exit. Qed.

#[global] Hint Resolve upload_image_data_no_exit delete_existing_image_no_exit
  delivery_state_no_exit : noexit.

Lemma reserve_upload_commit_no_exit (token rt lt : string) (id : json) (path : string) :
  never_exits (reserve_upload_commit token rt lt id path).
Proof. unfold reserve_upload_commit. no_exit. Qed.

#[global] Hint Resolve reserve_upload_commit_no_exit : noexit.

Lemma create_and_upload_image_no_exit (token rt lt : string) (id : json) (path : string) :
  never_exits (create_and_upload_image token rt lt id path).
Proof. unfold create_and_upload_image. no_exit. Qed.

#[global] Hint Resolve create_and_upload_image_no_exit : noexit.

Lemma upload_each_no_exit (token dir collection rt lt : string) :
  forall (items : list json) (counts : Z * Z * Z),
    never_exits (upload_each token dir collection rt lt items counts).
Proof.
  induction items as [| item rest IH]; intros [[u s] f]; cbn [upload_each]; no_exit.
Qed.

#[global] Hint Resolve upload_each_no_exit : noexit.

Lemma upload_images_no_exit (heading : string) (dir : M string)
    (collection noun label rt lt token app : string) :
  never_exits dir ->
  never_exits (upload_images heading dir collection noun label rt lt token app).
Proof. intros Hdir. unfold upload_images, gc_detail_id_of. no_exit. Qed.

Lemma list_pngs_no_exit (dir : string) : forall names, never_exits (list_pngs dir names).
Proof. induction names as [| f rest IH]; cbn [list_pngs]; no_exit. Qed.

#[global] Hint Resolve list_pngs_no_exit : noexit.

(** upload_gc_images.py never calls [sys.exit]. *)
Lemma upload_main_no_exit (a : args) : never_exits (main a).
Proof.
  unfold main, dry_run_listing, upload_achievement_images, upload_leaderboard_images.
  assert (never_exits ACH_DIR) by (unfold ACH_DIR; no_exit).
  assert (never_exits LB_DIR) by (unfold LB_DIR; no_exit).
  no_exit; apply upload_images_no_exit; assumption.
Qed.

End UploadNoExit.

Module SetupNoExit.
Import SetupGameCenter.

Lemma setup_api_get_no_exit (token path : string) : never_exits (api_get token path).
Proof. unfold api_get. no_exit. Qed.

Lemma setup_api_post_no_exit (token path : string) (d : json) : never_exits (api_post token path d).
Proof. unfold api_post. no_exit. Qed.

Lemma setup_id_of_no_exit (j : json) : never_exits (id_of j).
Proof. unfold id_of. no_exit. Qed.

#[global] Hint Resolve setup_api_get_no_exit setup_api_post_no_exit setup_id_of_no_exit : noexit.

Lemma leaderboards_loop_no_exit (token : string) (id : json) :
  forall lbs, never_exits (leaderboards_loop token id lbs).
Proof.
  induction lbs as [| lb rest IH]; cbn [leaderboards_loop];
    unfold create_leaderboard, create_leaderboard_localization; no_exit.
Qed.

Lemma achievements_loop_no_exit (token : string) (id : json) :
  forall achs, never_exits (achievements_loop token id achs).
Proof.
  induction achs as [| ach rest IH]; cbn [achievements_loop];
    unfold create_achievement, create_achievement_localization; no_exit.
Qed.

Lemma print_all_no_exit : forall lines, never_exits (print_all lines).
Proof. induction lines as [| l rest IH]; cbn [print_all]; no_exit. Qed.

Lemma print_summary_no_exit : never_exits print_summary.
Proof. unfold print_summary. no_exit. Qed.

#[global] Hint Resolve leaderboards_loop_no_exit achievements_loop_no_exit print_all_no_exit
  print_summary_no_exit : noexit.

Lemma create_all_leaderboards_no_exit (token : string) (id : json) :
  never_exits (create_all_leaderboards token id).
Proof. unfold create_all_leaderboards. no_exit. Qed.

Lemma create_all_achievements_no_exit (token : string) (id : json) :
  never_exits (create_all_achievements token id).
Proof. unfold create_all_achievements. no_exit. Qed.

Lemma setup_dry_run_listing_no_exit : never_exits dry_run_listing.
Proof. unfold dry_run_listing. no_exit. Qed.

#[global] Hint Resolve create_all_leaderboards_no_exit create_all_achievements_no_exit
  setup_dry_run_listing_no_exit : noexit.

End SetupNoExit.

Module SubmitNoExit.
Import SubmitGcForReview.

Lemma submit_api_get_no_exit (token path : string) (p : json) : never_exits (api_get token path p).
Proof. unfold api_get. no_exit. Qed.

Lemma submit_api_post_no_exit (token path : string) (d : json) : never_exits (api_post token path d).
Proof. unfold api_post. no_exit. Qed.

Lemma submit_api_get_all_pages_no_exit (token path : string) (p : json) :
  never_exits (api_get_all_pages token path p).
Proof. unfold api_get_all_pages. no_exit. Qed.

Lemma submit_id_of_no_exit (j : json) : never_exits (id_of j).
Proof. unfold id_of. no_exit. Qed.

#[global] Hint Resolve submit_api_get_no_exit submit_api_post_no_exit submit_api_get_all_pages_no_exit
  submit_id_of_no_exit : noexit.

Lemma refs_no_exit (type : string) : forall items, never_exits (refs type items).
Proof. induction items as [| a rest IH]; cbn [refs]; no_exit. Qed.

Lemma release_each_no_exit (token : string) (id : json) (type relation target label : string) :
  forall items, never_exits (release_each token id type relation target label items).
Proof. induction items as [| a rest IH]; cbn [release_each]; no_exit. Qed.

#[global] Hint Resolve refs_no_exit release_each_no_exit : noexit.

End SubmitNoExit.

Module AddNoExit.
Import AddGcToReview.

Lemma add_api_get_no_exit (token u : string) (p : json) : never_exits (api_get token u p).
Proof. unfold api_get. no_exit. Qed.

Lemma add_api_post_no_exit (token u : string) (d : json) : never_exits (api_post token u d).
Proof. unfold api_post. no_exit. Qed.

Lemma add_api_delete_no_exit (token u : string) : never_exits (api_delete token u).
Proof. unfold api_delete. no_exit. Qed.

Lemma get_all_pages_no_exit (token u : string) (p : json) :
  never_exits (get_all_pages token u p).
Proof. unfold get_all_pages. no_exit. Qed.

Lemma add_id_of_no_exit (j : json) : never_exits (id_of j).
Proof. unfold id_of. no_exit. Qed.

Lemma resp_of_no_exit (x : posted) : never_exits (resp_of x).
Proof. unfold resp_of. no_exit. Qed.

#[global] Hint Resolve add_api_get_no_exit add_api_post_no_exit add_api_delete_no_exit
  get_all_pages_no_exit add_id_of_no_exit resp_of_no_exit : noexit.

Lemma error_detail_no_exit (r : posted) : never_exits (error_detail r).
Proof. unfold error_detail. no_exit. Qed.

Lemma pick_submission_no_exit (token : string) :
  forall subs, never_exits (pick_submission token subs).
Proof. induction subs as [| s rest IH]; cbn [pick_submission]; no_exit. Qed.

Lemma delete_releases_no_exit (token releases vid : string) :
  forall rels deleted, never_exits (delete_releases token releases vid rels deleted).
Proof. induction rels as [| r rest IH]; intros deleted; cbn [delete_releases]; no_exit. Qed.

#[global] Hint Resolve error_detail_no_exit pick_submission_no_exit
  delete_releases_no_exit : noexit.

Lemma delete_old_releases_no_exit (token collection releases : string) :
  forall items deleted, never_exits (delete_old_releases token collection releases items deleted).
Proof.
  induction items as [| i rest IH]; intros deleted; cbn [delete_old_releases]; no_exit.
Qed.

Lemma add_versions_no_exit (token : string) (sub : json)
    (collection versions owner relation : string) :
  forall items counts,
    never_exits (add_versions token sub collection versions owner relation items counts).
Proof.
  induction items as [| i rest IH]; intros [added errors]; cbn [add_versions]; no_exit.
Qed.

#[global] Hint Resolve delete_old_releases_no_exit add_versions_no_exit : noexit.

End AddNoExit.

(** ** Exit status *)

(** The status the interpreter ends with: 0 when [main] returns, the
    argument of [sys.exit], and 1 after an exception nobody catches. *)
Definition exit_status {A} (o : outcome A) : Z :=
  match o with
  | Ret _ => 0
  | Exit c => c
  | Raise _ => 1
  end.

Definition last_printed (w : world) : string := last (out w) "".

Ltac exit_contra H :=
  match type of H with
  | ?m ?w = (Exit ?c, _) =>
      exfalso;
      let Hne := fresh "Hne" in
      assert (Hne : never_exits m) by no_exit;
      apply (Hne w c); rewrite H; reflexivity
  end.

Ltac exit_step H :=
  match type of H with
  | bind (print _) (fun _ => sys_exit _) _ = _ => fail 1
  | bind ?m ?f ?w = (Exit ?c, ?w') =>
      apply bind_exit_inv in H;
      destruct H as [H | (? & ? & _ & H)]; [try exit_contra H | cbv beta in H]
  | (if ?b then _ else _) ?w = _ => destruct b
  | _ => exit_contra H
  end.

Lemma exit_after_print {A} (line : string) (w w' : world) (c : Z) :
  bind (print line) (fun _ => @sys_exit A 1) w = (Exit c, w') ->
  c = 1 /\ last_printed w' = line +++ nl.
Proof.
  unfold bind, print, sys_exit. intros H. inversion H; subst. split; [reflexivity |].
  unfold last_printed. cbn [out emit]. apply last_last.
Qed.

Definition no_detail_created : string := "  FAILED to get or create Game Center Detail!" +++ nl.
Definition no_detail : string := "  ERROR: No Game Center Detail found" +++ nl.
Definition no_submission : string := "  ERROR: No active review submission found" +++ nl.
Definition no_version (v : string) : string := ("  ERROR: Version " +++ v +++ " not found") +++ nl.

Definition setup_args (key : string) (dry : bool) : SetupGameCenter.args :=
  {| SetupGameCenter.key_id := "KEYID"; SetupGameCenter.issuer_id := "issuer";
     SetupGameCenter.key_file := key; SetupGameCenter.app_id := "1234";
     SetupGameCenter.dry_run := dry; SetupGameCenter.leaderboards_only := false;
     SetupGameCenter.achievements_only := false |}.

Definition detail_found : response :=
  json_response 200 (JDict [("data", JDict [("id", JStr "gc1")])]).

(** The detail record is found, and then every create is refused. *)
Definition all_refused : list response :=
  detail_found :: repeat (error_response 409 "duplicate") 121.

(** C8, as stated, fails: the scripts catch no exception, so a run ends
    with status 1 when the key file cannot be read, before any lookup, and
    when the connection is lost in the middle of a batch, after the Game
    Center detail was found; and a run whose command line argparse turns
    down ends with status 2 before anything is done.  None of these is one
    of the three setup failures. *)
Lemma nonzero_exit_counterexample :
  (fst (SetupGameCenter.main (setup_args "/keys/missing.p8" false) (sample_world [detail_found]))
   = Raise (FileNotFoundError "/keys/missing.p8") /\
   exit_status (fst (SetupGameCenter.main (setup_args "/keys/missing.p8" false)
                       (sample_world [detail_found]))) = 1 /\
   sent (snd (SetupGameCenter.main (setup_args "/keys/missing.p8" false)
                (sample_world [detail_found]))) = []) /\
  (fst (SetupGameCenter.main (setup_args "/keys/AuthKey.p8" false) (sample_world [detail_found]))
   = Raise ConnectionError /\
   exit_status (fst (SetupGameCenter.main (setup_args "/keys/AuthKey.p8" false)
                       (sample_world [detail_found]))) = 1 /\
   In ("  Found existing Game Center Detail: gc1" +++ nl)
      (out (snd (SetupGameCenter.main (setup_args "/keys/AuthKey.p8" false)
                   (sample_world [detail_found]))))) /\
  (script SetupGameCenter.main Usage_error (sample_world [detail_found])
   = (Exit 2, sample_world [detail_found]) /\
   exit_status (fst (script SetupGameCenter.main Usage_error (sample_world [detail_found])))
   = 2).
Proof.
  split; [| split]; [| | split; reflexivity];
    (split; [vm_compute; reflexivity | split; [vm_compute; reflexivity |]]).
  - vm_compute. reflexivity.
  - vm_compute. tauto.
Qed.

(** ** Dry runs *)

(** The world after the lines [lines] are printed, and nothing else done. *)
Definition emit_all (lines : list string) (w : world) : world :=
  fold_left (fun w' s => emit s w') lines w.

Definition with_nl (lines : list string) : list string := map (fun l => l +++ nl) lines.

Lemma emit_all_app (l1 l2 : list string) (w : world) :
  emit_all (l1 ++ l2) w = emit_all l2 (emit_all l1 w).
Proof. unfold emit_all. apply fold_left_app. Qed.

Lemma emit_all_offline (lines : list string) :
  forall w, offline w (emit_all lines w) /\ out (emit_all lines w) = out w ++ lines.
Proof.
  induction lines as [| l rest IH]; intros w; simpl.
  - split; [apply offline_refl | now rewrite app_nil_r].
  - destruct (IH (emit l w)) as [[Hs Hn] Ho]. repeat split; auto.
    rewrite Ho. simpl. now rewrite <- app_assoc.
Qed.

Lemma emit_all_files (lines : list string) :
  forall w, files (emit_all lines w) = files w /\ listing (emit_all lines w) = listing w
            /\ script_dir (emit_all lines w) = script_dir w.
Proof.
  induction lines as [| l rest IH]; intros w; simpl; [auto |].
  destruct (IH (emit l w)) as (H1 & H2 & H3). auto.
Qed.

Lemma print_all_emits (lines : list string) :
  forall w, SetupGameCenter.print_all lines w = (Ret tt, emit_all (with_nl lines) w).
Proof.
  induction lines as [| l rest IH]; intros w; [reflexivity |].
  cbn [SetupGameCenter.print_all]. unfold bind at 1, print at 1. rewrite IH. reflexivity.
Qed.

Definition summary_lines : list string :=
  [nl +++ "[4/4] Summary"; SetupGameCenter.rule;
   "  Score leaderboards: 60"; "  Achievements:       61";
   "  Total:              121"; SetupGameCenter.rule; ""; "Next steps:";
   "  1. Verify in App Store Connect > Game Center";
   "  2. Achievement images are optional but recommended";
   "  3. Create a Game Center release when submitting your app";
   "  4. Test with TestFlight sandbox before going live"].

(** What setup_game_center prints in a dry run. *)
Definition setup_plan : list string :=
  with_nl (["DRY RUN - No API calls will be made" +++ nl; "Leaderboards to create:"]
           ++ map SetupGameCenter.leaderboard_line SetupGameCenter.SCORE_LEADERBOARDS
           ++ [nl +++ "Achievements to create:"]
           ++ map SetupGameCenter.achievement_line SetupGameCenter.ACHIEVEMENTS
           ++ summary_lines).

Lemma summary_counts :
  str_of_Z (SetupGameCenter.count SetupGameCenter.SCORE_LEADERBOARDS) = "60" /\
  str_of_Z (SetupGameCenter.count SetupGameCenter.ACHIEVEMENTS) = "61" /\
  str_of_Z (SetupGameCenter.count SetupGameCenter.SCORE_LEADERBOARDS
            + SetupGameCenter.count SetupGameCenter.ACHIEVEMENTS) = "121".
Proof. repeat split; vm_compute; reflexivity. Qed.

Lemma print_summary_emits (w : world) :
  SetupGameCenter.print_summary w = (Ret tt, emit_all (with_nl summary_lines) w).
Proof.
  unfold SetupGameCenter.print_summary.
  destruct summary_counts as (-> & -> & ->). reflexivity.
Qed.

Lemma dry_run_listing_shape (h1 h2 h3 : string) (lb_lines ach_lines : list string) (w : world) :
  (print h1 ;; print h2 ;; SetupGameCenter.print_all lb_lines ;; print h3 ;;
   SetupGameCenter.print_all ach_lines ;; SetupGameCenter.print_summary) w
  = (Ret tt, emit_all (with_nl ([h1; h2] ++ lb_lines ++ [h3] ++ ach_lines ++ summary_lines)) w).
Proof.
  unfold with_nl. rewrite !map_app, !emit_all_app.
  unfold bind at 1, print at 1. unfold bind at 1, print at 1.
  unfold bind at 1. rewrite print_all_emits.
  unfold bind at 1, print at 1.
  unfold bind at 1. rewrite print_all_emits.
  rewrite print_summary_emits.
  reflexivity.
Qed.

Lemma setup_dry_run_listing (w : world) :
  SetupGameCenter.dry_run_listing w = (Ret tt, emit_all setup_plan w).
Proof. apply dry_run_listing_shape. Qed.

Definition ach_dir (w : world) : string :=
  path_join (path_join (script_dir w) "gc_images") "achievements".
Definition lb_dir (w : world) : string :=
  path_join (path_join (script_dir w) "gc_images") "leaderboards".

Definition file_size (w : world) (path : string) : Z :=
  match files w path with
  | Some data => Z.of_nat (List.length data)
  | None => 0
  end.

(** The lines of a directory's listing: its .png files, sorted, with sizes. *)
Definition png_lines (w : world) (dir : string) (names : list string) : list string :=
  map (fun f => UploadGcImages.listing_line f (file_size w (path_join dir f)) +++ nl)
      (filter (ends_with ".png") (sorted names)).

Definition pngs_present (w : world) (dir : string) (names : list string) : Prop :=
  forall f, In f names -> ends_with ".png" f = true -> files w (path_join dir f) <> None.

Lemma bind_assoc {A B C} (m : M A) (f : A -> M B) (g : B -> M C) (w : world) :
  bind (bind m f) g w = bind m (fun x => bind (f x) g) w.
Proof. unfold bind. destruct (m w) as [[a | c | e] w1]; reflexivity. Qed.

Lemma getsize_present (path : string) (w : world) (data : list byte) :
  files w path = Some data -> getsize path w = (Ret (Z.of_nat (List.length data)), w).
Proof. intros H. unfold getsize, bind, read_bytes. now rewrite H. Qed.

Lemma list_pngs_emits (w0 : world) (dir : string) :
  forall (names : list string) (w : world),
    files w = files w0 ->
    (forall f, In f names -> ends_with ".png" f = true -> files w0 (path_join dir f) <> None) ->
    UploadGcImages.list_pngs dir names w
    = (Ret tt,
       emit_all (map (fun f => UploadGcImages.listing_line f (file_size w0 (path_join dir f))
                               +++ nl)
                     (filter (ends_with ".png") names)) w).
Proof.
  induction names as [| f rest IH]; intros w Hf Hp; [reflexivity |].
  cbn [UploadGcImages.list_pngs filter].
  destruct (ends_with ".png" f) eqn:E.
  - assert (Hin : files w0 (path_join dir f) <> None) by (apply Hp; [now left | exact E]).
    destruct (files w0 (path_join dir f)) as [data |] eqn:Hdata; [| contradiction].
    rewrite bind_assoc.
    erewrite bind_Ret by (apply getsize_present; rewrite Hf; exact Hdata).
    erewrite bind_Ret by reflexivity.
    rewrite IH; [| exact Hf | intros g Hg; apply Hp; now right].
    cbn [map]. unfold file_size at 2. rewrite Hdata. reflexivity.
  - erewrite bind_Ret by reflexivity.
    rewrite IH; [reflexivity | exact Hf | intros g Hg; apply Hp; now right].
Qed.

Lemma in_insert_sorted (x y : string) (l : list string) :
  In y (insert_sorted x l) -> y = x \/ In y l.
Proof.
  induction l as [| z l IH]; simpl.
  - intros [H | []]. now left.
  - destruct (String.leb x z); simpl; intuition.
Qed.

Lemma in_sorted (y : string) (l : list string) : In y (sorted l) -> In y l.
Proof.
  induction l as [| x l IH]; simpl; [auto |].
  intros H. apply in_insert_sorted in H. destruct H as [-> | H]; auto.
Qed.

Ltac quiet :=
  first
    [ assumption
    | apply (preserves_ret offline offline_refl)
    | apply (preserves_raise offline offline_refl)
    | apply (preserves_lift offline offline_refl)
    | apply (preserves_print offline offline_emit)
    | apply (preserves_print_end offline offline_emit)
    | apply (preserves_listdir offline offline_refl)
    | apply (preserves_get_script_dir offline offline_refl)
    | apply (preserves_getsize offline offline_refl offline_trans)
    | match goal with
      | |- preserves _ (bind _ _) =>
          apply (preserves_bind offline offline_trans); [quiet | intros ?; quiet]
      | |- preserves _ (if ?b then _ else _) => destruct b; quiet
      end ].

Lemma list_pngs_offline (dir : string) :
  forall names, preserves offline (UploadGcImages.list_pngs dir names).
Proof. induction names as [| f rest IH]; cbn [UploadGcImages.list_pngs]; quiet. Qed.

Lemma upload_dry_run_offline : preserves offline UploadGcImages.dry_run_listing.
Proof.
  pose proof list_pngs_offline as Hl.
  unfold UploadGcImages.dry_run_listing, UploadGcImages.ACH_DIR, UploadGcImages.LB_DIR.
  repeat first [ apply Hl | quiet
               | match goal with
                 | |- preserves _ (bind _ _) =>
                     apply (preserves_bind offline offline_trans); [| intros ?]
                 end ].
Qed.

(** What upload_gc_images prints in a dry run over the two listings. *)
Definition upload_plan (w : world) (ach lb : list string) : list string :=
  [("DRY RUN - listing image files" +++ nl) +++ nl; "Achievement images:" +++ nl]
  ++ png_lines w (ach_dir w) ach
  ++ [(nl +++ "Leaderboard images:") +++ nl]
  ++ png_lines w (lb_dir w) lb.

Lemma listdir_after_lines (lines : list string) (w : world) (dir : string)
    (names : list string) :
  listing w dir = Some names ->
  listdir dir (emit_all lines w) = (Ret names, emit_all lines w).
Proof.
  intros H. unfold listdir. destruct (emit_all_files lines w) as (_ & Hl & _).
  now rewrite Hl, H.
Qed.

Lemma script_dir_after_lines (lines : list string) (w : world) :
  get_script_dir (emit_all lines w) = (Ret (script_dir w), emit_all lines w).
Proof.
  unfold get_script_dir. destruct (emit_all_files lines w) as (_ & _ & Hd). now rewrite Hd.
Qed.

Lemma print_after_lines (lines : list string) (s : string) (w : world) :
  print s (emit_all lines w) = (Ret tt, emit_all (lines ++ [s +++ nl]) w).
Proof. unfold print. now rewrite emit_all_app. Qed.

Lemma list_pngs_after_lines (lines : list string) (w : world) (dir : string)
    (names : list string) :
  pngs_present w dir names ->
  UploadGcImages.list_pngs dir (sorted names) (emit_all lines w)
  = (Ret tt, emit_all (lines ++ png_lines w dir names) w).
Proof.
  intros Hp. rewrite (list_pngs_emits w).
  - unfold png_lines. now rewrite emit_all_app.
  - apply emit_all_files.
  - intros f Hf. apply Hp, in_sorted, Hf.
Qed.

Lemma upload_dry_run_listing (w : world) (ach lb : list string) :
  listing w (ach_dir w) = Some ach -> listing w (lb_dir w) = Some lb ->
  pngs_present w (ach_dir w) ach -> pngs_present w (lb_dir w) lb ->
  UploadGcImages.dry_run_listing w = (Ret tt, emit_all (upload_plan w ach lb) w).
Proof.
  intros Hach Hlb Pach Plb.
  unfold UploadGcImages.dry_run_listing, UploadGcImages.ACH_DIR, UploadGcImages.LB_DIR.
  change w with (emit_all [] w) at 1.
  erewrite bind_Ret by apply print_after_lines.
  erewrite bind_Ret by apply print_after_lines.
  rewrite bind_assoc. erewrite bind_Ret by apply script_dir_after_lines.
  erewrite bind_Ret by reflexivity.
  erewrite bind_Ret by (apply listdir_after_lines; exact Hach).
  erewrite bind_Ret by (apply list_pngs_after_lines; exact Pach).
  erewrite bind_Ret by apply print_after_lines.
  rewrite bind_assoc. erewrite bind_Ret by apply script_dir_after_lines.
  erewrite bind_Ret by reflexivity.
  erewrite bind_Ret by (apply listdir_after_lines; exact Hlb).
  rewrite list_pngs_after_lines by exact Plb.
  unfold upload_plan. cbn [app]. rewrite <- !app_assoc. reflexivity.
Qed.

(** With a directory that cannot be listed, the dry run ends there. *)
Lemma upload_dry_run_unlisted (w : world) :
  (listing w (ach_dir w) = None ->
   UploadGcImages.dry_run_listing w
   = (Raise (FileNotFoundError (ach_dir w)),
      emit_all (with_nl ["DRY RUN - listing image files" +++ nl; "Achievement images:"]) w)) /\
  (forall ach : list string,
     listing w (ach_dir w) = Some ach -> pngs_present w (ach_dir w) ach ->
     listing w (lb_dir w) = None ->
     UploadGcImages.dry_run_listing w
     = (Raise (FileNotFoundError (lb_dir w)),
        emit_all ([("DRY RUN - listing image files" +++ nl) +++ nl; "Achievement images:" +++ nl]
                  ++ png_lines w (ach_dir w) ach
                  ++ [(nl +++ "Leaderboard images:") +++ nl]) w)).
Proof.
  split.
  - intros Hach.
    unfold UploadGcImages.dry_run_listing, UploadGcImages.ACH_DIR.
    change w with (emit_all [] w) at 1.
    erewrite bind_Ret by apply print_after_lines.
    erewrite bind_Ret by apply print_after_lines.
    rewrite bind_assoc. erewrite bind_Ret by apply script_dir_after_lines.
    erewrite bind_Ret by reflexivity.
    unfold bind, listdir. destruct (emit_all_files
      (([] ++ [("DRY RUN - listing image files" +++ nl) +++ nl])
       ++ ["Achievement images:" +++ nl]) w) as (_ & Hl & _).
    fold (ach_dir w). rewrite Hl, Hach. reflexivity.
  - intros ach Hach Pach Hlb.
    unfold UploadGcImages.dry_run_listing, UploadGcImages.ACH_DIR, UploadGcImages.LB_DIR.
    change w with (emit_all [] w) at 1.
    erewrite bind_Ret by apply print_after_lines.
    erewrite bind_Ret by apply print_after_lines.
    rewrite bind_assoc. erewrite bind_Ret by apply script_dir_after_lines.
    erewrite bind_Ret by reflexivity.
    erewrite bind_Ret by (apply listdir_after_lines; exact Hach).
    erewrite bind_Ret by (apply list_pngs_after_lines; exact Pach).
    erewrite bind_Ret by apply print_after_lines.
    rewrite bind_assoc. erewrite bind_Ret by apply script_dir_after_lines.
    erewrite bind_Ret by reflexivity.
    unfold bind, listdir.
    match goal with
    | |- context [listing (emit_all ?l w)] => destruct (emit_all_files l w) as (_ & Hl & _)
    end.
    fold (lb_dir w). rewrite Hl, Hlb. cbn [app]. rewrite <- ?app_assoc. reflexivity.
Qed.

Definition upload_args (dry : bool) : UploadGcImages.args :=
  {| UploadGcImages.key_id := "KEYID"; UploadGcImages.issuer_id := "issuer";
     UploadGcImages.key_file := "/keys/AuthKey.p8"; UploadGcImages.app_id := "1234";
     UploadGcImages.achievements_only := false; UploadGcImages.leaderboards_only := false;
     UploadGcImages.dry_run := dry |}.

(** The sample world with the achievements directory holding one image and
    a stray file, and an empty leaderboards directory. *)
Definition listed_world (rs : list response) : world :=
  {| net := rs; sent := []; out := [];
     files := files (sample_world []);
     listing := fun dir =>
       if (dir =? "/repo/tools/gc_images/achievements")%string
       then Some ["notes.txt"; "level_1_complete.png"]
       else if (dir =? "/repo/tools/gc_images/leaderboards")%string then Some []
       else None;
     script_dir := "/repo/tools"; now := 0; slept := 0;
     signer := signer (sample_world []) |}.

(** C9, as stated, fails: where the image directories do not exist (the
    generator has not been run), the dry run of upload_gc_images does not
    return: [os.listdir] raises [FileNotFoundError] after the two headings,
    with no image listed. *)
Lemma dry_run_listing_counterexample :
  UploadGcImages.dry_run (upload_args true) = true /\
  listing (sample_world []) "/repo/tools/gc_images/achievements" = None /\
  fst (UploadGcImages.main (upload_args true) (sample_world []))
  = Raise (FileNotFoundError "/repo/tools/gc_images/achievements") /\
  exit_status (fst (UploadGcImages.main (upload_args true) (sample_world []))) = 1 /\
  out (snd (UploadGcImages.main (upload_args true) (sample_world [])))
  = [("DRY RUN - listing image files" +++ nl) +++ nl; "Achievement images:" +++ nl].
Proof. repeat split; vm_compute; reflexivity. Qed.

(** C9, amended. A dry run sends no request and takes no response,
    whatever the world.  That of setup_game_center always returns, having
    printed one line for each configured leaderboard (identifier and name)
    and achievement (identifier, name and points), and the summary.  That of
    upload_gc_images returns when its two image directories can be listed,
    having printed one line, with name and size, for each .png file in
    them, sorted by name; when one of them cannot, it ends there with
    [FileNotFoundError]. *)
Theorem dry_run_is_offline :
  (forall (a : SetupGameCenter.args) (w : world),
     SetupGameCenter.dry_run a = true ->
     exists w',
       SetupGameCenter.main a w = (Ret tt, w') /\ offline w w' /\
       out w' = out w ++ with_nl
         (["DRY RUN - No API calls will be made" +++ nl; "Leaderboards to create:"]
          ++ map (fun lb => "  " +++ ljust 30 (SetupGameCenter.lb_vendorIdentifier lb)
                            +++ "  " +++ SetupGameCenter.lb_referenceName lb)
               SetupGameCenter.SCORE_LEADERBOARDS
          ++ [nl +++ "Achievements to create:"]
          ++ map (fun ach => "  " +++ ljust 30 (SetupGameCenter.vendorIdentifier ach)
                             +++ "  " +++ SetupGameCenter.referenceName ach
                             +++ "  (" +++ str_of_Z (SetupGameCenter.points ach) +++ " pts)")
               SetupGameCenter.ACHIEVEMENTS
          ++ summary_lines)) /\
  (forall (a : UploadGcImages.args) (w : world),
     UploadGcImages.dry_run a = true ->
     offline w (snd (UploadGcImages.main a w))) /\
  (forall (a : UploadGcImages.args) (w : world) (ach lb : list string),
     UploadGcImages.dry_run a = true ->
     listing w (ach_dir w) = Some ach -> listing w (lb_dir w) = Some lb ->
     pngs_present w (ach_dir w) ach -> pngs_present w (lb_dir w) lb ->
     exists w',
       UploadGcImages.main a w = (Ret tt, w') /\
       out w' = out w ++ with_nl
         (["DRY RUN - listing image files" +++ nl; "Achievement images:"]
          ++ map (fun f => "  " +++ ljust 40 f +++ "  "
                           +++ rjust 8 (comma_d (file_size w (path_join (ach_dir w) f)))
                           +++ " bytes")
               (filter (ends_with ".png") (sorted ach))
          ++ [nl +++ "Leaderboard images:"]
          ++ map (fun f => "  " +++ ljust 40 f +++ "  "
                           +++ rjust 8 (comma_d (file_size w (path_join (lb_dir w) f)))
                           +++ " bytes")
               (filter (ends_with ".png") (sorted lb)))) /\
  (forall (a : UploadGcImages.args) (w : world),
     UploadGcImages.dry_run a = true -> listing w (ach_dir w) = None ->
     fst (UploadGcImages.main a w) = Raise (FileNotFoundError (ach_dir w))) /\
  (forall (a : UploadGcImages.args) (w : world) (ach : list string),
     UploadGcImages.dry_run a = true ->
     listing w (ach_dir w) = Some ach -> pngs_present w (ach_dir w) ach ->
     listing w (lb_dir w) = None ->
     fst (UploadGcImages.main a w) = Raise (FileNotFoundError (lb_dir w))).
Proof.
  split; [| split; [| split; [| split]]].
  - intros a w Hdry. unfold SetupGameCenter.main. rewrite Hdry.
    rewrite setup_dry_run_listing. eexists. split; [reflexivity |].
    destruct (emit_all_offline setup_plan w) as [Hoff Hout].
    split; [exact Hoff |]. rewrite Hout. reflexivity.
  - intros a w Hdry. unfold UploadGcImages.main. rewrite Hdry. apply upload_dry_run_offline.
  - intros a w ach lb Hdry Hach Hlb Pach Plb. unfold UploadGcImages.main. rewrite Hdry.
    rewrite (upload_dry_run_listing w ach lb Hach Hlb Pach Plb).
    eexists. split; [reflexivity |].
    destruct (emit_all_offline (upload_plan w ach lb) w) as [_ Hout]. rewrite Hout.
    f_equal. unfold upload_plan, png_lines, with_nl, UploadGcImages.listing_line.
    rewrite !map_app, !map_map. reflexivity.
  - intros a w Hdry Hach. unfold UploadGcImages.main. rewrite Hdry.
    now rewrite (proj1 (upload_dry_run_unlisted w) Hach).
  - intros a w ach Hdry Hach Pach Hlb. unfold UploadGcImages.main. rewrite Hdry.
    now rewrite (proj2 (upload_dry_run_unlisted w) ach Hach Pach Hlb).
Qed.

Lemma dry_run_is_offline_witness :
  exists w',
    UploadGcImages.main (upload_args true) (listed_world [detail_found]) = (Ret tt, w') /\
    out w' = out (listed_world [detail_found]) ++ with_nl
      (["DRY RUN - listing image files" +++ nl; "Achievement images:"]
       ++ map (fun f => "  " +++ ljust 40 f +++ "  "
                        +++ rjust 8 (comma_d (file_size (listed_world [detail_found])
                                                (path_join (ach_dir (listed_world [detail_found])) f)))
                        +++ " bytes")
            (filter (ends_with ".png") (sorted ["notes.txt"; "level_1_complete.png"]))
       ++ [nl +++ "Leaderboard images:"]
       ++ map (fun f => "  " +++ ljust 40 f +++ "  "
                        +++ rjust 8 (comma_d (file_size (listed_world [detail_found])
                                                (path_join (lb_dir (listed_world [detail_found])) f)))
                        +++ " bytes")
            (filter (ends_with ".png") (sorted []))).
Proof.
  apply (proj1 (proj2 (proj2 dry_run_is_offline)) (upload_args true)
           (listed_world [detail_found])).
  - reflexivity.
  - reflexivity.
  - reflexivity.
  - intros f [<- | [<- | []]] E; [discriminate E | vm_compute; discriminate].
  - intros f [].
Defined.

(** ** The deletion before an upload *)

Ltac grows :=
  first
    [ assumption
    | apply (preserves_ret extends extends_refl)
    | apply (preserves_raise extends extends_refl)
    | apply (preserves_lift extends extends_refl)
    | apply (preserves_print extends extends_emit)
    | apply (preserves_print_end extends extends_emit)
    | apply (preserves_sleep extends extends_slept)
    | apply (preserves_resp_json extends extends_refl)
    | apply (preserves_has_data extends extends_refl extends_trans)
    | apply (preserves_read_bytes extends extends_refl)
    | apply (preserves_getsize extends extends_refl extends_trans)
    | apply extends_request
    | match goal with
      | |- preserves _ (bind _ _) =>
          apply (preserves_bind extends extends_trans); [grows | intros ?; grows]
      | |- preserves _ (if ?b then _ else _) => destruct b; grows
      | |- preserves _ (match ?x with _ => _ end) => destruct x; grows
      end ].

Lemma upload_loop_grows (file_data : list byte) :
  forall ops, preserves extends (UploadGcImages.upload_loop ops file_data).
Proof. induction ops as [| op rest IH]; cbn [UploadGcImages.upload_loop]; grows. Qed.

Lemma upload_image_data_grows (ops : json) (path : string) :
  preserves extends (UploadGcImages.upload_image_data ops path).
Proof.
  pose proof upload_loop_grows as Hl. unfold UploadGcImages.upload_image_data.
  apply (preserves_bind extends extends_trans); [grows | intros data].
  apply (preserves_bind extends extends_trans); [grows | intros ops']. apply Hl.
Qed.

Lemma api_patch_grows (token path : string) (d : json) :
  preserves extends (UploadGcImages.api_patch token path d).
Proof. unfold UploadGcImages.api_patch, requests_patch. grows. Qed.

Lemma delivery_state_grows (attrs : json) (d : string) :
  preserves extends (UploadGcImages.delivery_state attrs d).
Proof. unfold UploadGcImages.delivery_state. grows. Qed.

(** A request followed by anything that only adds to the log. *)
Lemma request_then {A} (q : request) (k : response -> M A) (w : world) :
  (forall r, preserves extends (k r)) ->
  exists qs, sent (snd (bind (requests_request q) k w)) = sent w ++ q :: qs.
Proof.
  intros Hk. unfold bind, requests_request. destruct (net w) as [| r rs].
  - exists []. reflexivity.
  - destruct (Hk r (set_net rs (log_request q w))) as [qs Hqs].
    exists qs. rewrite Hqs. cbn [sent set_net log_request]. now rewrite <- app_assoc.
Qed.

(** With the image file there, the first thing [reserve_upload_commit]
    sends is the reservation. *)
Lemma reservation_goes_out (token rt lt : string) (id : json) (path : string) (w : world)
    (data : list byte) :
  files w path = Some data ->
  exists qs,
    sent (snd (UploadGcImages.reserve_upload_commit token rt lt id path w))
    = sent w ++ post_request token (UploadGcImages.BASE_URL +++ "/" +++ rt)
                 (UploadGcImages.reservation rt lt id (Z.of_nat (List.length data))
                    (basename path)) :: qs.
Proof.
  intros Hf. unfold UploadGcImages.reserve_upload_commit.
  erewrite bind_Ret by (apply getsize_present; exact Hf).
  unfold UploadGcImages.api_post, requests_post. rewrite !bind_assoc.
  apply request_then. intros r.
  pose proof upload_image_data_grows as Hu.
  pose proof api_patch_grows as Hp.
  pose proof delivery_state_grows as Hd.
  repeat first
    [ apply Hu | apply Hp | apply Hd | grows
    | match goal with
      | |- preserves _ (bind _ _) => apply (preserves_bind extends extends_trans); [| intros ?]
      | |- preserves _ (if ?b then _ else _) => destruct b
      end ].
Qed.

(** C10. Whatever [delete_existing_image] returns, [False] included,
    [create_and_upload_image] goes on as it would have: after the pause it
    runs the reservation, upload and commit steps from the world the
    deletion left, and with the image file there the next request it sends
    is the reservation. *)
Theorem failed_delete_is_ignored (token resource_type localization_type : string)
    (localization_id : json) (image_path : string) (w w1 : world) (b : bool)
    (Hdel : UploadGcImages.delete_existing_image token resource_type localization_type
              localization_id w = (Ret b, w1)) :
  UploadGcImages.create_and_upload_image token resource_type localization_type
    localization_id image_path w
  = UploadGcImages.reserve_upload_commit token resource_type localization_type
      localization_id image_path (add_slept 300 w1) /\
  (forall data : list byte,
     files w1 image_path = Some data ->
     exists qs,
       sent (snd (UploadGcImages.create_and_upload_image token resource_type
                    localization_type localization_id image_path w))
       = sent w1 ++ post_request token (UploadGcImages.BASE_URL +++ "/" +++ resource_type)
                      (UploadGcImages.reservation resource_type localization_type
                         localization_id (Z.of_nat (List.length data))
                         (basename image_path)) :: qs).
Proof.
  assert (E : UploadGcImages.create_and_upload_image token resource_type localization_type
                localization_id image_path w
              = UploadGcImages.reserve_upload_commit token resource_type localization_type
                  localization_id image_path (add_slept 300 w1)).
  { unfold UploadGcImages.create_and_upload_image.
    erewrite bind_Ret by exact Hdel. reflexivity. }
  split; [exact E |].
  intros data Hf. rewrite E.
  apply (reservation_goes_out token resource_type localization_type localization_id
           image_path (add_slept 300 w1) data Hf).
Qed.

(** An image is there, its deletion is refused, and the rest is accepted. *)
Definition refused_delete : list response :=
  [json_response 200 (JDict [("data", JDict [("id", JStr "old")])]);
   error_response 500 "cannot delete";
   json_response 201
     (JDict [("data", JDict [("id", JStr "new");
                             ("attributes",
                              JDict [("uploadOperations", JList two_halves_json)])])]);
   json_response 200 JNull; json_response 200 JNull;
   json_response 200
     (JDict [("data", JDict [("id", JStr "new");
                             ("attributes",
                              JDict [("assetDeliveryState",
                                      JDict [("state", JStr "UPLOAD_COMPLETE")])])])])].

Definition sample_upload : M bool :=
  UploadGcImages.create_and_upload_image "tok" "gameCenterAchievementImages"
    "gameCenterAchievementLocalization" (JStr "loc1") sample_image.

Lemma failed_delete_is_ignored_witness :
  fst (UploadGcImages.delete_existing_image "tok" "gameCenterAchievementImages"
         "gameCenterAchievementLocalization" (JStr "loc1") (sample_world refused_delete))
  = Ret false /\
  sample_upload (sample_world refused_delete)
  = UploadGcImages.reserve_upload_commit "tok" "gameCenterAchievementImages"
      "gameCenterAchievementLocalization" (JStr "loc1") sample_image
      (add_slept 300
         (snd (UploadGcImages.delete_existing_image "tok" "gameCenterAchievementImages"
                 "gameCenterAchievementLocalization" (JStr "loc1")
                 (sample_world refused_delete)))) /\
  fst (sample_upload (sample_world refused_delete)) = Ret true /\
  map method (sent (snd (sample_upload (sample_world refused_delete))))
  = ["GET"; "DELETE"; "POST"; "PUT"; "PUT"; "PATCH"].
Proof.
  split; [vm_compute; reflexivity |].
  split; [| split; vm_compute; reflexivity].
  apply (failed_delete_is_ignored "tok" "gameCenterAchievementImages"
           "gameCenterAchievementLocalization" (JStr "loc1") sample_image
           (sample_world refused_delete) _ false).
  vm_compute. reflexivity.
Defined.

(** * Further properties of the scripts *)

(** ** Lookups *)

(** X1. Each copy of [api_get] sends one GET and decides on 200 alone: on
    200 it returns [resp.json()] and prints nothing; on any other status it
    prints its diagnostic and returns [None]. *)
Theorem api_get_by_status (token path : string) (p : json)
    (r : response) (rest : list response) (w : world) :
  let s := status_code r in
  let served := set_net (r :: rest) w in
  let after := fun q => set_net rest (log_request q w) in
  UploadGcImages.api_get token path p served
  = (let w1 := after (get_request token (UploadGcImages.BASE_URL +++ path) p) in
     if s =? 200 then (parsed r, w1)
     else (Ret JNull, emit (UploadGcImages.diagnostic "GET" r 500 +++ nl) w1)) /\
  SetupGameCenter.api_get token path served
  = (let w1 := after (get_request token (SetupGameCenter.BASE_URL +++ path) JNull) in
     if s =? 200 then (parsed r, w1)
     else (Ret JNull, emit (Batch.error_line r) w1)) /\
  SubmitGcForReview.api_get token path p served
  = (let w1 := after (get_request token (SubmitGcForReview.BASE_URL +++ path) p) in
     if s =? 200 then (parsed r, w1)
     else (Ret JNull, emit (get_error "  " 500 r) w1)) /\
  AddGcToReview.api_get token path p served
  = (let w1 := after (get_request token path p) in
     if s =? 200 then (parsed r, w1)
     else (Ret JNull, emit (get_error "  " 500 r) w1)).
Proof.
  cbv zeta.
  unfold UploadGcImages.api_get, SetupGameCenter.api_get, SubmitGcForReview.api_get,
    AddGcToReview.api_get, requests_get, requests_request, bind, parsed, resp_json, print,
    ret, raise, get_request.
  cbn [net set_net].
  destruct (status_code r =? 200); destruct (json_body r); repeat split; reflexivity.
Qed.

(** A payload in which a lookup finds nothing: falsy, or a dict whose
    [data] is absent or falsy. *)
Definition without_data (j : json) : Prop :=
  truthy j = false \/
  exists kv, j = JDict kv /\
             truthy (match dict_get kv "data" with Some d => d | None => JNull end) = false.

(** A payload with an object under [data] that has the id [id]. *)
Definition with_id (j id : json) : Prop :=
  exists kv dkv, j = JDict kv /\ dict_get kv "data" = Some (JDict dkv) /\
                 dict_get dkv "id" = Some id.

Lemma has_data_without (j : json) (w : world) :
  without_data j -> has_data j w = (Ret false, w).
Proof.
  unfold has_data. intros [H | (kv & -> & H)].
  - now rewrite H.
  - destruct (truthy (JDict kv)); [| reflexivity].
    unfold bind. cbn [py_get lift]. unfold ret. now rewrite H.
Qed.

Lemma with_id_truthy (j id : json) : with_id j id -> truthy j = true.
Proof. intros (kv & dkv & -> & H & _). destruct kv; [discriminate | reflexivity]. Qed.

Lemma has_data_with_id (j id : json) (w : world) :
  with_id j id -> has_data j w = (Ret true, w).
Proof.
  intros H. pose proof (with_id_truthy j id H) as Ht.
  destruct H as (kv & dkv & -> & Hd & Hi). unfold has_data. rewrite Ht.
  unfold bind. cbn [py_get lift]. unfold ret. rewrite Hd.
  destruct dkv; [discriminate | reflexivity].
Qed.

Lemma item_id_with_id (j id : json) :
  with_id j id -> exists d, py_item j "data" = inr d /\ py_item d "id" = inr id.
Proof.
  intros (kv & dkv & -> & Hd & Hi). exists (JDict dkv). cbn [py_item]. now rewrite Hd, Hi.
Qed.

(** The answer to a lookup shows nothing: it is not a 200 (and [line] is
    what the wrapper prints), or its payload is without data. *)
Inductive nothing_found (line : response -> string) (r : response) : list string -> Prop :=
| nothing_failed : status_code r <> 200 -> nothing_found line r [line r]
| nothing_data j :
    status_code r = 200 -> json_body r = Some j -> without_data j ->
    nothing_found line r [].

Definition deleted (r : response) : bool :=
  (status_code r =? 200) || (status_code r =? 204).

(** X2. When the localization has an image, [delete_existing_image] sends
    the GET and then one DELETE for the id the GET returned, under the
    resource type it was given, and returns whether that DELETE was answered
    200 or 204. *)
Theorem delete_existing_image_deletes (token resource_type localization_type : string)
    (localization_id image_id j : json) (w : world) (g d : response) (rest : list response)
    (Hnet : net w = g :: d :: rest)
    (Hg : status_code g = 200) (Hj : json_body g = Some j) (Hid : with_id j image_id) :
  runs (UploadGcImages.delete_existing_image token resource_type localization_type
          localization_id) w (deleted d) [g; d]
    [get_request token
       (UploadGcImages.BASE_URL +++ "/" +++ localization_type +++ "s/"
        +++ py_str localization_id +++ "/" +++ rstrip "s" resource_type) JNull;
     delete_request token
       (UploadGcImages.BASE_URL +++ "/" +++ resource_type +++ "/" +++ py_str image_id)]
    ((("    Deleting existing image " +++ py_str image_id +++ "...") +++ " ")
     :: if deleted d then ["OK" +++ nl]
        else [UploadGcImages.diagnostic "DELETE" d 500 +++ nl; "FAILED" +++ nl]).
Proof.
  destruct (item_id_with_id j image_id Hid) as (dj & Hdj & Hidj).
  unfold runs, UploadGcImages.delete_existing_image, UploadGcImages.api_get.
  rewrite bind_assoc. erewrite bind_Ret by (apply requests_get_served; exact Hnet).
  rewrite Hg. cbn [Z.eqb Pos.eqb]. unfold resp_json. rewrite Hj.
  erewrite bind_Ret by reflexivity.
  erewrite bind_Ret by (apply (has_data_with_id j image_id); exact Hid).
  rewrite Hdj, bind_lift, Hidj, bind_lift.
  erewrite bind_Ret by reflexivity.
  unfold UploadGcImages.api_delete, requests_delete, requests_request, bind, print_end, print,
    ret, deleted.
  cbn [net set_net log_request emit].
  destruct ((status_code d =? 200) || (status_code d =? 204));
    eexists; (split; [reflexivity |]); cbn; rewrite Hnet; repeat split;
    rewrite <- ?app_assoc; reflexivity.
Qed.

Lemma delete_existing_image_deletes_witness :
  runs (UploadGcImages.delete_existing_image "tok" "gameCenterAchievementImages"
          "gameCenterAchievementLocalization" (JStr "loc1"))
    (sample_world refused_delete) false
    [json_response 200 (JDict [("data", JDict [("id", JStr "old")])]);
     error_response 500 "cannot delete"]
    [get_request "tok"
       (UploadGcImages.BASE_URL +++ "/" +++ "gameCenterAchievementLocalization" +++ "s/"
        +++ py_str (JStr "loc1") +++ "/" +++ rstrip "s" "gameCenterAchievementImages") JNull;
     delete_request "tok"
       (UploadGcImages.BASE_URL +++ "/" +++ "gameCenterAchievementImages" +++ "/"
        +++ py_str (JStr "old"))]
    ((("    Deleting existing image " +++ py_str (JStr "old") +++ "...") +++ " ")
     :: [UploadGcImages.diagnostic "DELETE" (error_response 500 "cannot delete") 500 +++ nl;
         "FAILED" +++ nl]).
Proof.
  apply (delete_existing_image_deletes "tok" "gameCenterAchievementImages"
           "gameCenterAchievementLocalization" (JStr "loc1") (JStr "old")
           (JDict [("data", JDict [("id", JStr "old")])])
           (sample_world refused_delete) _ (error_response 500 "cannot delete") _
           eq_refl eq_refl eq_refl).
  exists [("data", JDict [("id", JStr "old")])], [("id", JStr "old")]. auto.
Defined.

(** ** The Game Center detail *)

Definition detail_get (token app_id : string) : request :=
  get_request token (SetupGameCenter.BASE_URL +++ "/apps/" +++ app_id +++ "/gameCenterDetail")
    JNull.

Definition detail_post (token app_id : string) : request :=
  post_request token (SetupGameCenter.BASE_URL +++ "/gameCenterDetails")
    (JDict [("data", JDict [
       ("type", JStr "gameCenterDetails");
       ("relationships", JDict [SetupGameCenter.related "app" "apps" (JStr app_id)])])]).

Definition detail_heading : string := (nl +++ "[1/4] Getting Game Center Detail...") +++ nl.

Lemma setup_api_get_nothing (token path : string) (w : world) (g : response)
    (rest : list response) (printed : list string) :
  net w = g :: rest -> nothing_found Batch.error_line g printed ->
  exists j, without_data j /\
    SetupGameCenter.api_get token path w
    = (Ret j, emit_all printed
                (set_net rest (log_request
                   (get_request token (SetupGameCenter.BASE_URL +++ path) JNull) w))).
Proof.
  intros Hnet Hn. unfold SetupGameCenter.api_get.
  erewrite bind_Ret by (apply requests_get_served; exact Hnet).
  fold (get_request token (SetupGameCenter.BASE_URL +++ path) JNull).
  destruct Hn as [Hs | j Hs Hb Hw].
  - destruct (Z.eqb_spec (status_code g) 200) as [E | _]; [contradiction |].
    exists JNull. split; [now left | reflexivity].
  - rewrite Hs. cbn [Z.eqb Pos.eqb]. unfold resp_json. rewrite Hb.
    exists j. split; [exact Hw | reflexivity].
Qed.

(** X3. [get_or_create_gc_detail] returns the id of the detail record the
    GET finds, without creating anything; when the GET finds none it POSTs a
    new record and returns the id of the one created; and when that POST is
    refused too it stops the run with [sys.exit(1)], both requests made. *)
Theorem get_or_create_gc_detail_cases (token app_id : string) (w : world) :
  (forall (g : response) (rest : list response) (j id : json),
     net w = g :: rest -> status_code g = 200 -> json_body g = Some j -> with_id j id ->
     runs (SetupGameCenter.get_or_create_gc_detail token app_id) w id [g]
       [detail_get token app_id]
       [detail_heading; ("  Found existing Game Center Detail: " +++ py_str id) +++ nl]) /\
  (forall (g c : response) (rest : list response) (printed : list string) (j id : json),
     net w = g :: c :: rest -> nothing_found Batch.error_line g printed ->
     Batch.failed c = false -> json_body c = Some j -> with_id j id ->
     runs (SetupGameCenter.get_or_create_gc_detail token app_id) w id [g; c]
       [detail_get token app_id; detail_post token app_id]
       ([detail_heading] ++ printed
        ++ ["  Creating new Game Center Detail..." +++ nl;
            ("  Created Game Center Detail: " +++ py_str id) +++ nl])) /\
  (forall (g c : response) (rest : list response) (printed : list string),
     net w = g :: c :: rest -> nothing_found Batch.error_line g printed ->
     Batch.failed c = true ->
     exists w',
       SetupGameCenter.get_or_create_gc_detail token app_id w = (Exit 1, w') /\
       net w' = rest /\
       sent w' = sent w ++ [detail_get token app_id; detail_post token app_id] /\
       last_printed w' = no_detail_created).
Proof.
  split; [| split].
  - intros g rest j id Hnet Hs Hb Hid.
    destruct (item_id_with_id j id Hid) as (dj & Hdj & Hidj).
    unfold runs, SetupGameCenter.get_or_create_gc_detail, SetupGameCenter.api_get.
    erewrite bind_Ret by reflexivity.
    rewrite bind_assoc. erewrite bind_Ret by (apply requests_get_served; exact Hnet).
    rewrite Hs. cbn [Z.eqb Pos.eqb]. unfold resp_json. rewrite Hb.
    erewrite bind_Ret by reflexivity.
    erewrite bind_Ret by (apply (has_data_with_id j id); exact Hid).
    unfold SetupGameCenter.id_of. rewrite Hdj, bind_assoc, bind_lift, Hidj, bind_lift.
    eexists. split; [reflexivity |]. cbn. rewrite Hnet. repeat split.
    rewrite <- app_assoc. reflexivity.
  - intros g c rest printed j id Hnet Hn Hc Hb Hid.
    destruct (item_id_with_id j id Hid) as (dj & Hdj & Hidj).
    destruct (setup_api_get_nothing token ("/apps/" +++ app_id +++ "/gameCenterDetail")
                (emit detail_heading w) g (c :: rest) printed Hnet Hn) as (j0 & Hw0 & Hget).
    unfold runs, SetupGameCenter.get_or_create_gc_detail.
    erewrite bind_Ret by reflexivity.
    erewrite bind_Ret by exact Hget.
    erewrite bind_Ret by (apply has_data_without; exact Hw0).
    change (emit_all printed ?x) with (emit_all printed x).
    assert (Hpost : forall w0, net w0 = c :: rest ->
              SetupGameCenter.api_post token "/gameCenterDetails"
                (JDict [("data", JDict [
                   ("type", JStr "gameCenterDetails");
                   ("relationships",
                    JDict [SetupGameCenter.related "app" "apps" (JStr app_id)])])]) w0
              = (Ret j, set_net rest (log_request (detail_post token app_id) w0))).
    { intros w0 H0. unfold SetupGameCenter.api_post, requests_post, requests_request, bind.
      rewrite H0. unfold Batch.failed in Hc. apply negb_false_iff in Hc. rewrite Hc.
      unfold resp_json. rewrite Hb. reflexivity. }
    cbv beta iota.
    erewrite bind_Ret by reflexivity.
    erewrite bind_Ret.
    2:{ apply Hpost. cbn [net emit]. destruct (emit_all_offline printed
          (set_net (c :: rest) (log_request
             (get_request token
                (SetupGameCenter.BASE_URL +++ "/apps/" +++ app_id +++ "/gameCenterDetail")
                JNull) (emit detail_heading w)))) as [[_ Hn'] _].
        rewrite Hn'. reflexivity. }
    rewrite (with_id_truthy j id Hid).
    unfold SetupGameCenter.id_of. rewrite Hdj, bind_assoc, bind_lift, Hidj, bind_lift.
    eexists. split; [reflexivity |].
    destruct (emit_all_offline printed
          (set_net (c :: rest) (log_request
             (get_request token
                (SetupGameCenter.BASE_URL +++ "/apps/" +++ app_id +++ "/gameCenterDetail")
                JNull) (emit detail_heading w)))) as [[Hs' Hn'] Ho'].
    cbn [net sent out emit set_net log_request]. rewrite Hs', Ho'.
    cbn [net sent out emit set_net log_request]. rewrite Hnet.
    repeat split; rewrite <- ?app_assoc; reflexivity.
  - intros g c rest printed Hnet Hn Hc.
    destruct (setup_api_get_nothing token ("/apps/" +++ app_id +++ "/gameCenterDetail")
                (emit detail_heading w) g (c :: rest) printed Hnet Hn) as (j0 & Hw0 & Hget).
    unfold SetupGameCenter.get_or_create_gc_detail.
    erewrite bind_Ret by reflexivity.
    erewrite bind_Ret by exact Hget.
    erewrite bind_Ret by (apply has_data_without; exact Hw0).
    cbv beta iota.
    erewrite bind_Ret by reflexivity.
    destruct (emit_all_offline printed
          (set_net (c :: rest) (log_request
             (get_request token
                (SetupGameCenter.BASE_URL +++ "/apps/" +++ app_id +++ "/gameCenterDetail")
                JNull) (emit detail_heading w)))) as [[Hs' Hn'] Ho'].
    erewrite bind_Ret.
    2:{ apply Batch.api_post_failed; [| exact Hc]. cbn [net emit]. rewrite Hn'. reflexivity. }
    cbn [truthy]. unfold bind, print, sys_exit.
    eexists. split; [reflexivity |].
    cbn [net sent out emit set_net log_request]. rewrite Hs'.
    cbn [net sent out emit set_net log_request].
    repeat split.
    + rewrite <- app_assoc. reflexivity.
    + unfold last_printed. cbn [out emit]. apply last_last.
Qed.

Lemma get_or_create_gc_detail_cases_witness :
  runs (SetupGameCenter.get_or_create_gc_detail "tok" "1234") (sample_world [detail_found])
    (JStr "gc1") [detail_found] [detail_get "tok" "1234"]
    [detail_heading; ("  Found existing Game Center Detail: " +++ py_str (JStr "gc1")) +++ nl].
Proof.
  apply (proj1 (get_or_create_gc_detail_cases "tok" "1234" (sample_world [detail_found]))
           detail_found [] (JDict [("data", JDict [("id", JStr "gc1")])]) (JStr "gc1")
           eq_refl eq_refl eq_refl).
  exists [("data", JDict [("id", JStr "gc1")])], [("id", JStr "gc1")]. auto.
Defined.

(** ** Before the first request *)

Definition token_line : string := "Generating JWT token..." +++ nl.

(** X4. With the key file unreadable, every script that is not in a dry run
    stops with [FileNotFoundError] right after announcing the token: nothing
    has been sent. *)
Theorem unreadable_key_sends_nothing :
  (forall (a : SetupGameCenter.args) (w : world),
     files w (SetupGameCenter.key_file a) = None -> SetupGameCenter.dry_run a = false ->
     SetupGameCenter.main a w
     = (Raise (FileNotFoundError (SetupGameCenter.key_file a)), emit token_line w)) /\
  (forall (a : UploadGcImages.args) (w : world),
     files w (UploadGcImages.key_file a) = None -> UploadGcImages.dry_run a = false ->
     UploadGcImages.main a w
     = (Raise (FileNotFoundError (UploadGcImages.key_file a)), emit token_line w)) /\
  (forall (a : AddGcToReview.args) (w : world),
     files w (AddGcToReview.key_file a) = None ->
     AddGcToReview.main a w
     = (Raise (FileNotFoundError (AddGcToReview.key_file a)), emit token_line w)) /\
  (forall (a : SubmitGcForReview.args) (w : world),
     files w (SubmitGcForReview.key_file a) = None ->
     SubmitGcForReview.main a w
     = (Raise (FileNotFoundError (SubmitGcForReview.key_file a)), emit token_line w)).
Proof.
  assert (Htok : forall key_id issuer_id key_file (w : world) {B} (k : string -> M B),
            files w key_file = None ->
            (print "Generating JWT token..." ;;
             token <- generate_token key_id issuer_id key_file ;; k token) w
            = (Raise (FileNotFoundError key_file), emit token_line w)).
  { intros key_id issuer_id key_file w B k Hf.
    unfold bind, print, generate_token, bind, read_text. cbn [files emit]. now rewrite Hf. }
  repeat split.
  - intros a w Hf Hd. unfold SetupGameCenter.main. rewrite Hd. now apply Htok.
  - intros a w Hf Hd. unfold UploadGcImages.main. rewrite Hd. now apply Htok.
  - intros a w Hf. unfold AddGcToReview.main. now apply Htok.
  - intros a w Hf. unfold SubmitGcForReview.main. now apply Htok.
Qed.

Lemma unreadable_key_sends_nothing_witness :
  SetupGameCenter.main (setup_args "/keys/missing.p8" false) (sample_world [detail_found])
  = (Raise (FileNotFoundError "/keys/missing.p8"),
     emit token_line (sample_world [detail_found])).
Proof.
  apply (proj1 unreadable_key_sends_nothing (setup_args "/keys/missing.p8" false)
           (sample_world [detail_found])); reflexivity.
Defined.

(** ** Chunks *)

Lemma firstn_length_le {A} (n : nat) (l : list A) : (List.length (firstn n l) <= n)%nat.
Proof. rewrite length_firstn. lia. Qed.

(** X5. The chunk [file_data[offset:offset + length]] of an upload
    operation is never longer than the declared length; it has exactly that
    length when the range lies inside the file, and when the range starts
    inside the file and runs past its end the chunk is what is left of the
    file from the offset. *)
Theorem chunk_is_clamped (file_data : list byte) (o : upload_op)
    (Hlen : 0 <= op_length o) :
  Z.of_nat (List.length (declared file_data o)) <= op_length o /\
  (0 <= op_offset o ->
   op_offset o + op_length o <= Z.of_nat (List.length file_data) ->
   Z.of_nat (List.length (declared file_data o)) = op_length o) /\
  (0 <= op_offset o ->
   Z.of_nat (List.length file_data) <= op_offset o + op_length o ->
   declared file_data o = skipn (Z.to_nat (op_offset o)) file_data).
Proof.
  unfold declared, py_slice.
  set (n := Z.of_nat (List.length file_data)).
  assert (Hn : 0 <= n) by (unfold n; lia).
  split; [| split].
  - pose proof (firstn_length_le
                  (Z.to_nat (clamp n (op_offset o + op_length o) - clamp n (op_offset o)))
                  (skipn (Z.to_nat (clamp n (op_offset o))) file_data)) as H.
    assert (clamp n (op_offset o + op_length o) - clamp n (op_offset o) <= op_length o).
    { unfold clamp.
      destruct (Z.ltb_spec (op_offset o + op_length o) 0), (Z.ltb_spec (op_offset o) 0); lia. }
    lia.
  - intros H0 H1. rewrite !clamp_inside by lia.
    rewrite length_firstn, length_skipn. unfold n in *. lia.
  - intros H0 H1.
    assert (Hb : clamp n (op_offset o + op_length o) = n).
    { unfold clamp. destruct (Z.ltb_spec (op_offset o + op_length o) 0); lia. }
    assert (Ha : clamp n (op_offset o) = Z.min (op_offset o) n).
    { unfold clamp. destruct (Z.ltb_spec (op_offset o) 0); lia. }
    rewrite Hb, Ha.
    destruct (Z.le_gt_cases (op_offset o) n) as [Hle | Hgt].
    + rewrite Z.min_l by lia. apply firstn_all2. rewrite length_skipn. unfold n. lia.
    + rewrite Z.min_r by lia. rewrite Z.sub_diag. simpl.
      rewrite !skipn_all2; [reflexivity | unfold n in *; lia].
Qed.

Lemma chunk_is_clamped_witness :
  Z.of_nat (List.length (declared (list_byte_of_string "abcd") (sample_op 2 5))) <= 5 /\
  declared (list_byte_of_string "abcd") (sample_op 2 5)
  = skipn (Z.to_nat 2) (list_byte_of_string "abcd").
Proof.
  assert (H : 0 <= op_length (sample_op 2 5)) by (simpl; lia).
  destruct (chunk_is_clamped (list_byte_of_string "abcd") (sample_op 2 5) H) as (H1 & _ & H3).
  split; [exact H1 |]. apply H3; simpl; lia.
Defined.

(** ** The image loops *)

(** A listed achievement or leaderboard, with the fields the loops read. *)
Definition game_item (item vid iid ref : json) : Prop :=
  exists kv akv,
    item = JDict kv /\ dict_get kv "attributes" = Some (JDict akv) /\
    dict_get akv "vendorIdentifier" = Some vid /\ dict_get kv "id" = Some iid /\
    dict_get akv "referenceName" = Some ref.

Definition image_path_of (dir : string) (vid : json) : string :=
  path_join dir (py_str vid +++ ".png").

Lemma bind_Ret_inv {A B} (m : M A) (f : A -> M B) (w w' : world) (b : B) :
  bind m f w = (Ret b, w') ->
  exists a w1, m w = (Ret a, w1) /\ f a w1 = (Ret b, w').
Proof.
  unfold bind. destruct (m w) as [[a | c | e] w1]; intros H; try discriminate. eauto.
Qed.

Ltac ret_inv H :=
  repeat match type of H with
         | bind _ _ _ = (Ret _, _) =>
             apply bind_Ret_inv in H; destruct H as (? & ? & _ & H); cbv beta in H
         | (if ?b then _ else _) _ = _ => destruct b
         | (match ?x with _ => _ end) _ = _ => destruct x
         end.

(** X6. An item whose image file is missing costs no request: the loop
    reports it, counts it as skipped and goes on; and so does one whose
    localizations come back empty, after that fetch. *)
Theorem item_without_image_is_skipped (token dir collection rt lt : string)
    (item vid iid ref : json) (rest : list json) (u s f : Z) (w : world)
    (Hitem : game_item item vid iid ref) :
  (files w (image_path_of dir vid) = None ->
   UploadGcImages.upload_each token dir collection rt lt (item :: rest) (u, s, f) w
   = UploadGcImages.upload_each token dir collection rt lt rest (u, s + 1, f)
       (emit (("  [" +++ py_str vid +++ "] No image file found at "
               +++ image_path_of dir vid +++ ", skipping") +++ nl) w)) /\
  (forall w2 : world,
     files w (image_path_of dir vid) <> None ->
     UploadGcImages.api_get_all_pages token
       ("/" +++ collection +++ "/" +++ py_str iid +++ "/localizations") JNull w
     = (Ret [], w2) ->
     UploadGcImages.upload_each token dir collection rt lt (item :: rest) (u, s, f) w
     = UploadGcImages.upload_each token dir collection rt lt rest (u, s + 1, f)
         (emit (("  [" +++ py_str vid +++ "] No localizations found, skipping") +++ nl) w2)).
Proof.
  destruct Hitem as (kv & akv & -> & Ha & Hv & Hi & Hr).
  split.
  - intros Hf. cbn [UploadGcImages.upload_each py_item].
    rewrite Ha, bind_lift. cbn [py_item]. rewrite Hv, bind_lift, Hi, bind_lift.
    rewrite bind_lift. cbn [py_item]. rewrite Hr, bind_lift.
    unfold bind at 1, path_exists. fold (image_path_of dir vid). rewrite Hf.
    cbn [negb]. erewrite bind_Ret by reflexivity. reflexivity.
  - intros w2 Hf Hlocs. cbn [UploadGcImages.upload_each py_item].
    rewrite Ha, bind_lift. cbn [py_item]. rewrite Hv, bind_lift, Hi, bind_lift.
    rewrite bind_lift. cbn [py_item]. rewrite Hr, bind_lift.
    unfold bind at 1, path_exists. fold (image_path_of dir vid).
    destruct (files w (image_path_of dir vid)); [| contradiction].
    cbv beta iota. cbn [negb]. cbv beta iota. erewrite bind_Ret by exact Hlocs.
    cbv beta iota. erewrite bind_Ret by reflexivity. reflexivity.
Qed.

Definition sample_item : json :=
  JDict [("id", JStr "a1");
         ("attributes", JDict [("vendorIdentifier", JStr "level_9_complete");
                               ("referenceName", JStr "Level 9 Complete")])].

Lemma sample_item_ok :
  game_item sample_item (JStr "level_9_complete") (JStr "a1") (JStr "Level 9 Complete").
Proof.
  exists [("id", JStr "a1");
          ("attributes", JDict [("vendorIdentifier", JStr "level_9_complete");
                                ("referenceName", JStr "Level 9 Complete")])],
         [("vendorIdentifier", JStr "level_9_complete");
          ("referenceName", JStr "Level 9 Complete")].
  repeat split; reflexivity.
Defined.

Lemma item_without_image_is_skipped_witness :
  UploadGcImages.upload_each "tok" "/repo/tools/gc_images/achievements"
    "gameCenterAchievements" "gameCenterAchievementImages"
    "gameCenterAchievementLocalization" [sample_item] (0, 0, 0) (sample_world [detail_found])
  = UploadGcImages.upload_each "tok" "/repo/tools/gc_images/achievements"
      "gameCenterAchievements" "gameCenterAchievementImages"
      "gameCenterAchievementLocalization" [] (0, 0 + 1, 0)
      (emit (("  [" +++ py_str (JStr "level_9_complete") +++ "] No image file found at "
              +++ image_path_of "/repo/tools/gc_images/achievements"
                    (JStr "level_9_complete") +++ ", skipping") +++ nl)
         (sample_world [detail_found])).
Proof.
  apply (proj1 (item_without_image_is_skipped "tok" "/repo/tools/gc_images/achievements"
                  "gameCenterAchievements" "gameCenterAchievementImages"
                  "gameCenterAchievementLocalization" sample_item
                  (JStr "level_9_complete") (JStr "a1") (JStr "Level 9 Complete") []
                  0 0 0 (sample_world [detail_found]) sample_item_ok)).
  reflexivity.
Defined.

(** X7. Every item the image loop goes through is counted once: when the
    loop returns, uploaded + skipped + failed has grown by the number of
    items. *)
Theorem upload_counts_every_item (token dir collection rt lt : string) :
  forall (items : list json) (u s f u' s' f' : Z) (w w' : world),
    UploadGcImages.upload_each token dir collection rt lt items (u, s, f) w
    = (Ret (u', s', f'), w') ->
    u' + s' + f' = u + s + f + Z.of_nat (List.length items).
Proof.
  induction items as [| item rest IH]; intros u s f u' s' f' w w' H.
  - cbn in H. inversion H; subst. simpl. lia.
  - cbn [UploadGcImages.upload_each] in H.
    ret_inv H;
      try match type of H with context [if ?b then _ else _] => destruct b end;
      apply IH in H; rewrite H; cbn [List.length]; lia.
Qed.

Lemma upload_counts_every_item_witness :
  0 + 1 + 0 = 0 + 0 + 0 + Z.of_nat (List.length [sample_item]).
Proof.
  apply (upload_counts_every_item "tok" "/repo/tools/gc_images/achievements"
           "gameCenterAchievements" "gameCenterAchievementImages"
           "gameCenterAchievementLocalization" [sample_item] 0 0 0 0 1 0
           (sample_world [detail_found])
           (emit (("  [" +++ py_str (JStr "level_9_complete") +++ "] No image file found at "
                   +++ image_path_of "/repo/tools/gc_images/achievements"
                         (JStr "level_9_complete") +++ ", skipping") +++ nl)
              (sample_world [detail_found]))).
  reflexivity.
Defined.

(** ** Old releases *)

(** A release as the deleting loop reads it: [rid] is its id and [live] the
    truth value of [rel["attributes"].get("live", False)]. *)
Definition old_release (rel rid : json) (live : bool) : Prop :=
  exists kv akv,
    rel = JDict kv /\ dict_get kv "attributes" = Some (JDict akv) /\
    truthy (match dict_get akv "live" with Some v => v | None => JBool false end) = live /\
    dict_get kv "id" = Some rid.

(** The releases [rels], of which those with the ids [ids] are not live. *)
Inductive releases_read : list json -> list json -> Prop :=
| read_nil : releases_read [] []
| read_live rel rid rels ids :
    old_release rel rid true -> releases_read rels ids -> releases_read (rel :: rels) ids
| read_old rel rid rels ids :
    old_release rel rid false -> releases_read rels ids ->
    releases_read (rel :: rels) (rid :: ids).

Definition release_delete (token releases : string) (rid : json) : request :=
  delete_request token (AddGcToReview.BASE_V1 +++ "/" +++ releases +++ "/" +++ py_str rid).

(** X8. The loop over the releases of an item sends one DELETE for each
    release that is not live, in order, and none for a live one; and its
    counter grows by one for each DELETE sent, whatever the answer was. *)
Theorem delete_releases_counts_attempts (token releases vid : string) :
  forall (rels ids : list json) (n : Z) (w : world),
    releases_read rels ids -> (List.length ids <= List.length (net w))%nat ->
    exists w',
      AddGcToReview.delete_releases token releases vid rels n w
      = (Ret (n + Z.of_nat (List.length ids)), w') /\
      sent w' = sent w ++ map (release_delete token releases) ids /\
      net w' = skipn (List.length ids) (net w).
Proof.
  intros rels ids n w H. revert n w.
  induction H as [| rel rid rels ids (kv & akv & -> & Ha & Hl & Hi) _ IH
                   | rel rid rels ids (kv & akv & -> & Ha & Hl & Hi) _ IH]; intros n w Hlen.
  - exists w. cbn. rewrite Z.add_0_r, app_nil_r. auto.
  - cbn [AddGcToReview.delete_releases py_item]. rewrite Ha, bind_lift.
    cbn [py_get]. rewrite bind_lift, Hl. cbn [negb]. apply IH. exact Hlen.
  - cbn [AddGcToReview.delete_releases py_item]. rewrite Ha, bind_lift.
    cbn [py_get]. rewrite bind_lift, Hl. cbn [negb]. rewrite Hi, bind_lift.
    destruct (net w) as [| r rs] eqn:Hnet; [cbn in Hlen; lia |].
    unfold AddGcToReview.api_delete, requests_delete.
    erewrite bind_Ret by (unfold requests_request; rewrite Hnet; reflexivity).
    fold (delete_request token
            (AddGcToReview.BASE_V1 +++ "/" +++ releases +++ "/" +++ py_str rid)).
    fold (release_delete token releases rid).
    set (w1 := set_net rs (log_request (release_delete token releases rid) w)).
    assert (Hstep : exists w2,
              (if (n + 1 <=? 3) || ((n + 1) mod 20 =? 0)
               then print ("  [" +++ vid +++ "]: "
                           +++ (if status_code r =? 204 then "OK"
                                else "ERR " +++ str_of_Z (status_code r)))
               else ret tt) w1 = (Ret tt, w2) /\ sent w2 = sent w1 /\ net w2 = net w1).
    { destruct ((n + 1 <=? 3) || ((n + 1) mod 20 =? 0)); eexists; split; try reflexivity;
        auto. }
    destruct Hstep as (w2 & Hrun & Hs2 & Hn2).
    erewrite bind_Ret by exact Hrun.
    destruct (IH (n + 1) w2) as (w' & Hrec & Hs & Hn).
    { rewrite Hn2. cbn in *. lia. }
    exists w'. rewrite Hrec. split; [| split].
    + f_equal. f_equal. cbn [List.length]. lia.
    + rewrite Hs, Hs2. cbn. rewrite <- app_assoc. reflexivity.
    + rewrite Hn, Hn2. reflexivity.
Qed.

Definition sample_releases : list json :=
  [JDict [("id", JStr "r1"); ("attributes", JDict [("live", JBool true)])];
   JDict [("id", JStr "r2"); ("attributes", JDict [])]].

Lemma sample_releases_read : releases_read sample_releases [JStr "r2"].
Proof.
  apply (read_live _ (JStr "r1")).
  - exists [("id", JStr "r1"); ("attributes", JDict [("live", JBool true)])],
           [("live", JBool true)]. repeat split.
  - apply (read_old _ (JStr "r2")); [| constructor].
    exists [("id", JStr "r2"); ("attributes", JDict [])], []. repeat split.
Defined.

Lemma delete_releases_counts_attempts_witness :
  exists w',
    AddGcToReview.delete_releases "tok" "gameCenterAchievementReleases" "level_1_complete"
      sample_releases 0 (sample_world [error_response 500 "cannot delete"])
    = (Ret (0 + Z.of_nat (List.length [JStr "r2"])), w') /\
    sent w' = sent (sample_world [error_response 500 "cannot delete"])
              ++ map (release_delete "tok" "gameCenterAchievementReleases") [JStr "r2"] /\
    net w' = skipn (List.length [JStr "r2"])
               (net (sample_world [error_response 500 "cannot delete"])).
Proof.
  apply (delete_releases_counts_attempts "tok" "gameCenterAchievementReleases"
           "level_1_complete" sample_releases [JStr "r2"] 0
           (sample_world [error_response 500 "cannot delete"]) sample_releases_read).
  cbn. lia.
Defined.
(** ** Adding versions to the review draft *)

Lemma ret_Ret_inv {A} (a b : A) (w w' : world) : ret a w = (Ret b, w') -> a = b.
Proof. unfold ret. intros H. now inversion H. Qed.

(** X9. Every item the loop of steps 6 and 7 goes through is counted once,
    as added or as an error: when the loop returns, added + errors has
    grown by the number of items. *)
Theorem add_versions_counts_every_item (token : string) (review_sub_id : json)
    (collection versions owner relation : string) :
  forall (items : list json) (a e a' e' : Z) (w w' : world),
    AddGcToReview.add_versions token review_sub_id collection versions owner relation
      items (a, e) w = (Ret (a', e'), w') ->
    a' + e' = a + e + Z.of_nat (List.length items).
Proof.
  induction items as [| item rest IH]; intros a e a' e' w w' H.
  - cbn in H. inversion H; subst. simpl. lia.
  - cbn [AddGcToReview.add_versions] in H.
    apply bind_Ret_inv in H; destruct H as (item_id & w1 & _ & H).
    apply bind_Ret_inv in H; destruct H as (attrs & w2 & _ & H).
    apply bind_Ret_inv in H; destruct H as (vid & w3 & _ & H).
    apply bind_Ret_inv in H; destruct H as (ver_resp & w4 & _ & H).
    apply bind_Ret_inv in H; destruct H as (found & w5 & _ & H).
    apply bind_Ret_inv in H; destruct H as ([ver_id |] & w6 & _ & H).
    + apply bind_Ret_inv in H; destruct H as (r & w7 & _ & H).
      apply bind_Ret_inv in H; destruct H as ([a1 e1] & w8 & Hc & H).
      apply bind_Ret_inv in H; destruct H as (? & w9 & _ & H).
      apply IH in H. rewrite H. cbn [List.length].
      assert (a1 + e1 = a + e + 1); [| lia].
      destruct (AddGcToReview.is_dict r).
      * apply bind_Ret_inv in Hc; destruct Hc as (? & ? & _ & Hc).
        apply ret_Ret_inv in Hc. inversion Hc. lia.
      * apply bind_Ret_inv in Hc; destruct Hc as (? & ? & _ & Hc).
        apply bind_Ret_inv in Hc; destruct Hc as (? & ? & _ & Hc).
        apply ret_Ret_inv in Hc. inversion Hc. lia.
    + apply IH in H. rewrite H. cbn [List.length]. lia.
Qed.

(** The item has no version, and creating one is refused. *)
Definition refused_version : list response :=
  [error_response 404 "no versions"; error_response 409 "cannot create"].

Lemma add_versions_counts_every_item_witness :
  0 + 1 = 0 + 0 + Z.of_nat (List.length [sample_item]).
Proof.
  apply (add_versions_counts_every_item "tok" (JStr "sub1") "gameCenterAchievements"
           "gameCenterAchievementVersions" "achievement" "gameCenterAchievementVersion"
           [sample_item] 0 0 0 1 (sample_world refused_version)
           (snd (AddGcToReview.add_versions "tok" (JStr "sub1") "gameCenterAchievements"
                   "gameCenterAchievementVersions" "achievement"
                   "gameCenterAchievementVersion" [sample_item] (0, 0)
                   (sample_world refused_version)))).
  reflexivity.
Defined.

Lemma add_api_get_nothing (token u : string) (p : json) (w : world) (g : response)
    (rest : list response) (printed : list string) :
  net w = g :: rest -> nothing_found (get_error "  " 500) g printed ->
  exists j, without_data j /\
    AddGcToReview.api_get token u p w
    = (Ret j, emit_all printed (set_net rest (log_request (get_request token u p) w))).
Proof.
  intros Hnet Hn. unfold AddGcToReview.api_get.
  erewrite bind_Ret by (apply requests_get_served; exact Hnet).
  fold (get_request token u p).
  destruct Hn as [Hs | j Hs Hb Hw].
  - destruct (Z.eqb_spec (status_code g) 200) as [E | _]; [contradiction |].
    exists JNull. split; [now left | reflexivity].
  - rewrite Hs. cbn [Z.eqb Pos.eqb]. unfold resp_json. rewrite Hb.
    exists j. split; [exact Hw | reflexivity].
Qed.

Definition versions_get (token collection : string) (item_id : json) : request :=
  get_request token
    (AddGcToReview.BASE_V2 +++ "/" +++ collection +++ "/" +++ py_str item_id +++ "/versions")
    JNull.

Definition version_post (token collection versions owner : string) (item_id : json)
  : request :=
  post_request token (AddGcToReview.BASE_V2 +++ "/" +++ versions)
    (JDict [("data", JDict [
       ("type", JStr versions);
       ("relationships", JDict [
          (owner, JDict [("data", AddGcToReview.ref collection item_id)])])])]).

(** X10. When an item has no version and creating one is refused, the loop
    counts an error and goes to the next item: nothing is posted to the
    review submission for it and the loop does not sleep; the refusal is
    printed for the first three errors only. *)
Theorem refused_version_skips_item (token : string) (review_sub_id : json)
    (collection versions owner relation : string)
    (item vid iid ref : json) (rest : list json) (a e : Z) (w : world)
    (g c : response) (left : list response) (printed : list string)
    (Hitem : game_item item vid iid ref)
    (Hnet : net w = g :: c :: left)
    (Hg : nothing_found (get_error "  " 500) g printed)
    (Hc : Batch.failed c = true) :
  let w1 := emit_all printed
              (set_net (c :: left) (log_request (versions_get token collection iid) w)) in
  let w2 := set_net left
              (log_request (version_post token collection versions owner iid) w1) in
  AddGcToReview.add_versions token review_sub_id collection versions owner relation
    (item :: rest) (a, e) w
  = AddGcToReview.add_versions token review_sub_id collection versions owner relation
      rest (a, e + 1)
      (if e + 1 <=? 3
       then emit (("  [" +++ py_str vid +++ "]: ERR creating version - "
                   +++ str_take 200 (text c)) +++ nl) w2
       else w2).
Proof.
  destruct Hitem as (kv & akv & -> & Ha & Hv & Hi & Hr).
  destruct (add_api_get_nothing token
              (AddGcToReview.BASE_V2 +++ "/" +++ collection +++ "/" +++ py_str iid
               +++ "/versions") JNull w g (c :: left) printed Hnet Hg) as (j0 & Hw0 & Hget).
  cbv zeta. cbn [AddGcToReview.add_versions py_item].
  rewrite Hi, bind_lift, Ha, bind_lift. cbn [py_item]. rewrite Hv, bind_lift.
  erewrite bind_Ret by exact Hget.
  erewrite bind_Ret by (apply has_data_without; exact Hw0).
  cbn [negb]. unfold versions_get.
  set (w1 := emit_all printed _).
  assert (Hn1 : net w1 = c :: left).
  { unfold w1. destruct (emit_all_offline printed
      (set_net (c :: left) (log_request (get_request token
         (AddGcToReview.BASE_V2 +++ "/" +++ collection +++ "/" +++ py_str iid +++ "/versions")
         JNull) w))) as [[_ Hn'] _]. rewrite Hn'. reflexivity. }
  rewrite bind_assoc.
  assert (Hpost : forall u data,
            AddGcToReview.api_post token u data w1
            = (Ret (AddGcToReview.Unparsed c),
               set_net left (log_request (post_request token u data) w1))).
  { intros u data. unfold AddGcToReview.api_post, requests_post, requests_request, bind.
    rewrite Hn1. unfold Batch.failed in Hc. apply negb_true_iff in Hc. rewrite Hc.
    reflexivity. }
  erewrite bind_Ret by apply Hpost.
  cbv beta iota. fold (version_post token collection versions owner iid).
  destruct (e + 1 <=? 3); reflexivity.
Qed.

Lemma refused_version_skips_item_witness :
  AddGcToReview.add_versions "tok" (JStr "sub1") "gameCenterAchievements"
    "gameCenterAchievementVersions" "achievement" "gameCenterAchievementVersion"
    [sample_item] (0, 0) (sample_world refused_version)
  = (Ret (0, 1),
     emit (("  [" +++ "level_9_complete" +++ "]: ERR creating version - " +++ "cannot create")
           +++ nl)
       (set_net []
          (log_request
             (version_post "tok" "gameCenterAchievements" "gameCenterAchievementVersions"
                "achievement" (JStr "a1"))
             (emit (get_error "  " 500 (error_response 404 "no versions"))
                (set_net [error_response 409 "cannot create"]
                   (log_request (versions_get "tok" "gameCenterAchievements" (JStr "a1"))
                      (sample_world refused_version))))))).
Proof.
  assert (Hg : nothing_found (get_error "  " 500) (error_response 404 "no versions")
                 [get_error "  " 500 (error_response 404 "no versions")])
    by (constructor; discriminate).
  refine (eq_trans
            (refused_version_skips_item "tok" (JStr "sub1") "gameCenterAchievements"
               "gameCenterAchievementVersions" "achievement" "gameCenterAchievementVersion"
               sample_item (JStr "level_9_complete") (JStr "a1") (JStr "Level 9 Complete")
               [] 0 0 (sample_world refused_version)
               (error_response 404 "no versions") (error_response 409 "cannot create") []
               [get_error "  " 500 (error_response 404 "no versions")]
               sample_item_ok eq_refl Hg eq_refl) _).
  reflexivity.
Defined.

(** ** The review submission *)

Definition submission (sub sid : json) : Prop :=
  exists kv, sub = JDict kv /\ dict_get kv "id" = Some sid.

(** A payload whose [data] is truthy. *)
Definition with_data (j : json) : Prop :=
  exists kv d, j = JDict kv /\ dict_get kv "data" = Some d /\ truthy d = true.

Lemma has_data_with_data (j : json) (w : world) :
  with_data j -> has_data j w = (Ret true, w).
Proof.
  intros (kv & d & -> & Hd & Ht). unfold has_data.
  destruct kv as [| p kv]; [discriminate |]. cbn [truthy].
  unfold bind. cbn [py_get lift]. unfold ret. now rewrite Hd, Ht.
Qed.

Definition items_get (token : string) (sid : json) : request :=
  get_request token
    (AddGcToReview.BASE_V1 +++ "/reviewSubmissions/" +++ py_str sid +++ "/items") JNull.

(** Submissions with the ids [sids] whose items lookups, answered by [rs],
    find nothing and print [lines]. *)
Inductive tried : list json -> list json -> list response -> list string -> Prop :=
| tried_nil : tried [] [] [] []
| tried_cons sub sid r printed subs sids rs lines :
    submission sub sid -> nothing_found (get_error "  " 500) r printed ->
    tried subs sids rs lines ->
    tried (sub :: subs) (sid :: sids) (r :: rs) (printed ++ lines).

Lemma pick_submission_found (token : string) (sub sid j : json) (r : response)
    (post : list json) (left : list response) (w : world) :
  submission sub sid -> status_code r = 200 -> json_body r = Some j -> with_data j ->
  net w = r :: left ->
  AddGcToReview.pick_submission token (sub :: post) w
  = (Ret sid, set_net left (log_request (items_get token sid) w)).
Proof.
  intros (kv & -> & Hi) Hs Hb Hj Hnet.
  cbn [AddGcToReview.pick_submission py_item]. rewrite Hi, bind_lift.
  unfold AddGcToReview.api_get.
  rewrite bind_assoc. erewrite bind_Ret by (apply requests_get_served; exact Hnet).
  rewrite Hs. cbn [Z.eqb Pos.eqb]. unfold resp_json. rewrite Hb.
  erewrite bind_Ret by reflexivity.
  erewrite bind_Ret by (apply has_data_with_data; exact Hj).
  cbv beta iota. rewrite bind_lift. reflexivity.
Qed.

(** X11. The search for the draft asks for the items of one submission after
    the other and returns the id of the first that has any, without asking
    about the later ones; when none has items it returns [None], having
    asked about every one. *)
Theorem pick_submission_first_with_items (token : string)
    (pre sids : list json) (rs : list response) (lines : list string)
    (Hpre : tried pre sids rs lines) :
  (forall (sub sid j : json) (r : response) (post : list json) (left : list response)
          (w : world),
     submission sub sid -> status_code r = 200 -> json_body r = Some j -> with_data j ->
     net w = rs ++ r :: left ->
     runs (AddGcToReview.pick_submission token (pre ++ sub :: post)) w sid
       (rs ++ [r]) (map (items_get token) (sids ++ [sid])) lines) /\
  (forall (left : list response) (w : world),
     net w = rs ++ left ->
     runs (AddGcToReview.pick_submission token pre) w JNull rs
       (map (items_get token) sids) lines).
Proof.
  induction Hpre as [| sub0 sid0 r0 printed subs sids rs lines (kv0 & -> & Hi0) Hn0 _ IH].
  - split.
    + intros sub sid j r post left w Hsub Hs Hb Hj Hnet. cbn [app] in *.
      unfold runs.
      rewrite (pick_submission_found token sub sid j r post left w Hsub Hs Hb Hj Hnet).
      eexists. split; [reflexivity |]. cbn. rewrite Hnet, app_nil_r. auto.
    + intros left w Hnet. exists w. cbn in *. rewrite !app_nil_r. auto.
  - destruct IH as [IH1 IH2].
    assert (Hstep : forall (more : list json) (left : list response) (w : world),
              net w = r0 :: left ->
              AddGcToReview.pick_submission token (JDict kv0 :: more) w
              = AddGcToReview.pick_submission token more
                  (emit_all printed (set_net left (log_request (items_get token sid0) w)))).
    { intros more left w Hnet.
      destruct (add_api_get_nothing token
                  (AddGcToReview.BASE_V1 +++ "/reviewSubmissions/" +++ py_str sid0 +++ "/items")
                  JNull w r0 left printed Hnet Hn0) as (j0 & Hw0 & Hget).
      cbn [AddGcToReview.pick_submission py_item]. rewrite Hi0, bind_lift.
      erewrite bind_Ret by exact Hget.
      erewrite bind_Ret by (apply has_data_without; exact Hw0). reflexivity. }
    assert (Hafter : forall (left : list response) (w : world),
              let w1 := emit_all printed
                          (set_net left (log_request (items_get token sid0) w)) in
              net w1 = left /\ sent w1 = sent w ++ [items_get token sid0]
              /\ out w1 = out w ++ printed).
    { intros left w. cbv zeta.
      destruct (emit_all_offline printed
                  (set_net left (log_request (items_get token sid0) w))) as [[Hs' Hn'] Ho'].
      rewrite Hs', Hn', Ho'. auto. }
    split.
    + intros sub sid j r post left w Hsub Hs Hb Hj Hnet.
      cbn [app] in Hnet |- *. unfold runs. rewrite (Hstep _ _ _ Hnet).
      destruct (Hafter (rs ++ r :: left) w) as (Hn1 & Hs1 & Ho1).
      destruct (IH1 sub sid j r post left _ Hsub Hs Hb Hj Hn1) as (w' & Hrun & Hn & Hse & Ho).
      exists w'. split; [exact Hrun |]. rewrite Hnet, Hse, Ho, Hs1, Ho1.
      rewrite Hn1 in Hn. cbn [map app]. rewrite <- !app_assoc. cbn [app].
      repeat split. f_equal. rewrite <- app_assoc in Hn. exact Hn.
    + intros left w Hnet. cbn [app] in Hnet. unfold runs. rewrite (Hstep _ _ _ Hnet).
      destruct (Hafter (rs ++ left) w) as (Hn1 & Hs1 & Ho1).
      destruct (IH2 left _ Hn1) as (w' & Hrun & Hn & Hse & Ho).
      exists w'. split; [exact Hrun |]. rewrite Hnet, Hse, Ho, Hs1, Ho1.
      rewrite Hn1 in Hn. cbn [map app]. rewrite <- !app_assoc. cbn [app].
      repeat split. f_equal. exact Hn.
Qed.

Definition sample_submissions : list json :=
  [JDict [("id", JStr "s1")]; JDict [("id", JStr "s2")]; JDict [("id", JStr "s3")]].

Definition items_found : response :=
  json_response 200 (JDict [("data", JList [JDict [("id", JStr "i1")]])]).

Lemma one_tried :
  tried [JDict [("id", JStr "s1")]] [JStr "s1"] [error_response 404 "no items"]
    ([get_error "  " 500 (error_response 404 "no items")] ++ []).
Proof.
  constructor; [| constructor; discriminate | constructor].
  exists [("id", JStr "s1")]. split; reflexivity.
Defined.

Lemma pick_submission_first_with_items_witness :
  runs (AddGcToReview.pick_submission "tok" sample_submissions)
    (sample_world [error_response 404 "no items"; items_found; items_found])
    (JStr "s2") ([error_response 404 "no items"] ++ [items_found])
    (map (items_get "tok") ([JStr "s1"] ++ [JStr "s2"]))
    ([get_error "  " 500 (error_response 404 "no items")] ++ []).
Proof.
  apply (proj1 (pick_submission_first_with_items "tok" _ _ _ _ one_tried)
           (JDict [("id", JStr "s2")]) (JStr "s2")
           (JDict [("data", JList [JDict [("id", JStr "i1")]])]) items_found
           [JDict [("id", JStr "s3")]] [items_found]
           (sample_world [error_response 404 "no items"; items_found; items_found])).
  - exists [("id", JStr "s2")]. split; reflexivity.
  - reflexivity.
  - reflexivity.
  - exists [("data", JList [JDict [("id", JStr "i1")]])], (JList [JDict [("id", JStr "i1")]]).
    repeat split.
  - reflexivity.
Defined.
(** ** The two --only flags together *)

Lemma detail_is_found (token app_id : string) (w : world) (g : response)
    (rest : list response) (j id : json) :
  net w = g :: rest -> status_code g = 200 -> json_body g = Some j -> with_id j id ->
  SetupGameCenter.get_or_create_gc_detail token app_id w
  = (Ret id,
     emit (("  Found existing Game Center Detail: " +++ py_str id) +++ nl)
       (set_net rest (log_request (detail_get token app_id) (emit detail_heading w)))).
Proof.
  intros Hnet Hs Hb Hid.
  destruct (item_id_with_id j id Hid) as (dj & Hdj & Hidj).
  unfold SetupGameCenter.get_or_create_gc_detail, SetupGameCenter.api_get.
  erewrite bind_Ret by reflexivity.
  rewrite bind_assoc. erewrite bind_Ret by (apply requests_get_served; exact Hnet).
  rewrite Hs. cbn [Z.eqb Pos.eqb]. unfold resp_json. rewrite Hb.
  erewrite bind_Ret by reflexivity.
  erewrite bind_Ret by (apply (has_data_with_id j id); exact Hid).
  unfold SetupGameCenter.id_of. rewrite Hdj, bind_assoc, bind_lift, Hidj, bind_lift.
  reflexivity.
Qed.

(** X12. Given both [--achievements-only] and [--leaderboards-only], the
    upload script uploads both kinds of image, exactly as with neither flag;
    the setup script creates nothing: once the detail record is found it
    sends no further request and ends normally. *)
Theorem only_flags_together :
  (forall (key_id issuer_id key_file app_id : string) (dry : bool) (w : world),
     UploadGcImages.main
       {| UploadGcImages.key_id := key_id; UploadGcImages.issuer_id := issuer_id;
          UploadGcImages.key_file := key_file; UploadGcImages.app_id := app_id;
          UploadGcImages.achievements_only := true;
          UploadGcImages.leaderboards_only := true; UploadGcImages.dry_run := dry |} w
     = UploadGcImages.main
         {| UploadGcImages.key_id := key_id; UploadGcImages.issuer_id := issuer_id;
            UploadGcImages.key_file := key_file; UploadGcImages.app_id := app_id;
            UploadGcImages.achievements_only := false;
            UploadGcImages.leaderboards_only := false; UploadGcImages.dry_run := dry |} w) /\
  (forall (a : SetupGameCenter.args) (w : world) (data : list byte) (tok : string)
          (g : response) (rest : list response) (j id : json),
     SetupGameCenter.dry_run a = false ->
     SetupGameCenter.achievements_only a = true ->
     SetupGameCenter.leaderboards_only a = true ->
     files w (SetupGameCenter.key_file a) = Some data ->
     signer w (token_payload (SetupGameCenter.issuer_id a) (now w)) (string_of_list_byte data)
       (token_headers (SetupGameCenter.key_id a)) = Some tok ->
     net w = g :: rest -> status_code g = 200 -> json_body g = Some j -> with_id j id ->
     exists w',
       SetupGameCenter.main a w = (Ret tt, w') /\
       sent w' = sent w ++ [detail_get tok (SetupGameCenter.app_id a)] /\
       net w' = rest).
Proof.
  split.
  - intros. unfold UploadGcImages.main. reflexivity.
  - intros a w data tok g rest j id Hdry Hach Hlb Hf Hsig Hnet Hs Hb Hid.
    unfold SetupGameCenter.main. rewrite Hdry, Hach, Hlb. cbn [negb].
    erewrite bind_Ret by reflexivity.
    erewrite bind_Ret by (apply (generate_token_issues _ _ _ tok _ data); assumption).
    erewrite bind_Ret by reflexivity.
    erewrite bind_Ret by (apply (detail_is_found tok _ _ g rest j id); assumption).
    erewrite bind_Ret by reflexivity.
    erewrite bind_Ret by reflexivity.
    erewrite bind_Ret by apply print_summary_emits.
    unfold print. eexists. split; [reflexivity |].
    match goal with
    | |- context [emit_all ?l ?x] => destruct (emit_all_offline l x) as [[Hs' Hn'] _]
    end.
    cbn [sent net emit]. rewrite Hs', Hn'. cbn. auto.
Qed.

Definition both_only : SetupGameCenter.args :=
  {| SetupGameCenter.key_id := "KEYID"; SetupGameCenter.issuer_id := "issuer";
     SetupGameCenter.key_file := "/keys/AuthKey.p8"; SetupGameCenter.app_id := "1234";
     SetupGameCenter.dry_run := false; SetupGameCenter.leaderboards_only := true;
     SetupGameCenter.achievements_only := true |}.

Lemma only_flags_together_witness :
  exists w',
    SetupGameCenter.main both_only (sample_world [detail_found]) = (Ret tt, w') /\
    sent w' = sent (sample_world [detail_found]) ++ [detail_get "jwt:issuer" "1234"] /\
    net w' = [].
Proof.
  apply (proj2 only_flags_together both_only (sample_world [detail_found])
           (list_byte_of_string "PRIVATE KEY") "jwt:issuer" detail_found []
           (JDict [("data", JDict [("id", JStr "gc1")])]) (JStr "gc1")
           eq_refl eq_refl eq_refl eq_refl eq_refl eq_refl eq_refl eq_refl).
  exists [("data", JDict [("id", JStr "gc1")])], [("id", JStr "gc1")]. auto.
Defined.
(** ** The fallback releases *)

(** A listed item with the fields the release loops read. *)
Definition listed (item vid iid : json) : Prop :=
  exists kv akv,
    item = JDict kv /\ dict_get kv "attributes" = Some (JDict akv) /\
    dict_get akv "vendorIdentifier" = Some vid /\ dict_get kv "id" = Some iid.

(** A response [api_post] can digest: refused, or with a body that parses. *)
Definition answered (r : response) : Prop :=
  Batch.failed r = true \/ json_body r <> None.

Definition release_post (token : string) (gc_detail_id : json) (type relation target : string)
    (iid : json) : request :=
  post_request token (SubmitGcForReview.BASE_URL +++ "/" +++ type)
    (JDict [("data", JDict [
       ("type", JStr type);
       ("relationships", JDict [
          ("gameCenterDetail",
           JDict [("data", SubmitGcForReview.ref "gameCenterDetails" gc_detail_id)]);
          (relation, JDict [("data", SubmitGcForReview.ref target iid)])])])]).

(** The release was made: the answer is a 200 or 201 with a payload that
    is not empty. *)
Definition release_made (r : response) : bool :=
  negb (Batch.failed r) && match json_body r with Some j => truthy j | None => false end.

(** What the loop prints for the item [vid] when its release is answered
    by [r]: the diagnostic of [api_post] for a refusal, and the report. *)
Definition release_lines (label : string) (vid : json) (r : response) : list string :=
  (if Batch.failed r
   then [("  POST ERROR " +++ str_of_Z (status_code r) +++ ": " +++ str_take 500 (text r))
         +++ nl]
   else [])
  ++ [("  " +++ label +++ " [" +++ py_str vid +++ "]: "
       +++ (if release_made r then "OK" else "FAILED")) +++ nl].

(** Items with the ids [ids], their releases answered by [rs], and the
    lines the loop prints for them. *)
Inductive released (label : string)
  : list json -> list response -> list json -> list string -> Prop :=
| released_nil : released label [] [] [] []
| released_cons item vid iid r items rs ids lines :
    listed item vid iid -> answered r -> released label items rs ids lines ->
    released label (item :: items) (r :: rs) (iid :: ids) (release_lines label vid r ++ lines).

Lemma release_each_step (token : string) (gc_detail_id : json)
    (type relation target label : string) (item vid iid : json) (rest : list json)
    (r : response) (left : list response) (w : world) :
  listed item vid iid -> answered r -> net w = r :: left ->
  exists w1,
    SubmitGcForReview.release_each token gc_detail_id type relation target label
      (item :: rest) w
    = SubmitGcForReview.release_each token gc_detail_id type relation target label rest w1 /\
    net w1 = left /\
    sent w1 = sent w ++ [release_post token gc_detail_id type relation target iid] /\
    slept w1 = slept w + 300 /\
    out w1 = out w ++ release_lines label vid r.
Proof.
  intros (kv & akv & -> & Ha & Hv & Hi) Hr Hnet.
  cbn [SubmitGcForReview.release_each py_item].
  rewrite Ha, bind_lift. cbn [py_item]. rewrite Hv, bind_lift, Hi, bind_lift.
  unfold SubmitGcForReview.api_post, requests_post.
  rewrite bind_assoc.
  erewrite bind_Ret by (unfold requests_request; rewrite Hnet; reflexivity).
  fold (post_request token (SubmitGcForReview.BASE_URL +++ "/" +++ type)
          (JDict [("data", JDict [
             ("type", JStr type);
             ("relationships", JDict [
                ("gameCenterDetail",
                 JDict [("data", SubmitGcForReview.ref "gameCenterDetails" gc_detail_id)]);
                (relation, JDict [("data", SubmitGcForReview.ref target iid)])])])])).
  fold (release_post token gc_detail_id type relation target iid).
  unfold release_lines, release_made.
  destruct Hr as [Hf | Hb].
  - rewrite Hf. unfold Batch.failed in Hf. apply negb_true_iff in Hf. rewrite Hf.
    eexists. split; [reflexivity |]. cbn. rewrite <- app_assoc. auto.
  - unfold Batch.failed. destruct ((status_code r =? 200) || (status_code r =? 201)).
    + unfold resp_json. destruct (json_body r) as [j |]; [| contradiction].
      eexists. split; [reflexivity |]. cbn. destruct (truthy j); auto.
    + eexists. split; [reflexivity |]. cbn. rewrite <- app_assoc. auto.
Qed.

(** X13. The fallback loop of step 5 posts one release for every item, in
    order, whatever the answers are: for each item it prints [OK] when the
    release was made and [FAILED] when it was not (after the diagnostic of a
    refusal), and goes on to the next; and it sleeps 0.3 s after each. *)
Theorem release_each_posts_every_item (token : string) (gc_detail_id : json)
    (type relation target label : string) :
  forall (items ids : list json) (rs left : list response) (lines : list string) (w : world),
    released label items rs ids lines ->
    net w = rs ++ left ->
    exists w',
      SubmitGcForReview.release_each token gc_detail_id type relation target label items w
      = (Ret tt, w') /\
      sent w' = sent w ++ map (release_post token gc_detail_id type relation target) ids /\
      net w' = left /\
      slept w' = slept w + 300 * Z.of_nat (List.length items) /\
      out w' = out w ++ lines.
Proof.
  intros items ids rs left lines w H. revert left w.
  induction H as [| item vid iid r items rs ids lines Hitem Hr _ IH]; intros left w Hnet.
  - exists w. cbn in *. rewrite !app_nil_r. repeat split; auto. lia.
  - destruct (release_each_step token gc_detail_id type relation target label item vid iid
                items r (rs ++ left) w Hitem Hr Hnet)
      as (w1 & Hstep & Hn1 & Hs1 & Hsl1 & Ho1).
    destruct (IH left w1 Hn1) as (w' & Hrun & Hs & Hn & Hsl & Ho).
    exists w'. rewrite Hstep, Hrun, Hs, Hs1, Hsl, Hsl1, Ho, Ho1. cbn [map List.length].
    rewrite <- !app_assoc. repeat split; auto. lia.
Qed.

Definition two_items : list json :=
  [JDict [("id", JStr "a1"); ("attributes", JDict [("vendorIdentifier", JStr "level_1_complete")])];
   JDict [("id", JStr "a2"); ("attributes", JDict [("vendorIdentifier", JStr "level_2_complete")])]].

Lemma two_items_released :
  released "Achievement" two_items
    [error_response 409 "refused"; json_response 201 accepted_payload]
    [JStr "a1"; JStr "a2"]
    (release_lines "Achievement" (JStr "level_1_complete") (error_response 409 "refused")
     ++ release_lines "Achievement" (JStr "level_2_complete")
          (json_response 201 accepted_payload) ++ []).
Proof.
  constructor; [| left; reflexivity | constructor; [| right; discriminate | constructor]].
  - exists [("id", JStr "a1");
            ("attributes", JDict [("vendorIdentifier", JStr "level_1_complete")])],
           [("vendorIdentifier", JStr "level_1_complete")]. repeat split.
  - exists [("id", JStr "a2");
            ("attributes", JDict [("vendorIdentifier", JStr "level_2_complete")])],
           [("vendorIdentifier", JStr "level_2_complete")]. repeat split.
Defined.

Lemma release_each_posts_every_item_witness :
  exists w',
    SubmitGcForReview.release_each "tok" (JStr "gc1") "gameCenterAchievementReleases"
      "gameCenterAchievement" "gameCenterAchievements" "Achievement" two_items
      (sample_world [error_response 409 "refused"; json_response 201 accepted_payload])
    = (Ret tt, w') /\
    sent w'
    = sent (sample_world [error_response 409 "refused"; json_response 201 accepted_payload])
      ++ map (release_post "tok" (JStr "gc1") "gameCenterAchievementReleases"
                "gameCenterAchievement" "gameCenterAchievements") [JStr "a1"; JStr "a2"] /\
    net w' = [] /\
    slept w'
    = slept (sample_world [error_response 409 "refused"; json_response 201 accepted_payload])
      + 300 * Z.of_nat (List.length two_items) /\
    out w'
    = out (sample_world [error_response 409 "refused"; json_response 201 accepted_payload])
      ++ (release_lines "Achievement" (JStr "level_1_complete") (error_response 409 "refused")
          ++ release_lines "Achievement" (JStr "level_2_complete")
               (json_response 201 accepted_payload) ++ []).
Proof.
  apply (release_each_posts_every_item "tok" (JStr "gc1") "gameCenterAchievementReleases"
           "gameCenterAchievement" "gameCenterAchievements" "Achievement" two_items
           [JStr "a1"; JStr "a2"]
           [error_response 409 "refused"; json_response 201 accepted_payload] [] _
           (sample_world [error_response 409 "refused"; json_response 201 accepted_payload])
           two_items_released).
  reflexivity.
Defined.

(** ** Reservation, upload, commit *)

(** The payload of an accepted reservation: the id of the new image, its
    upload operations and the delivery state it reports. *)
Definition reserved (j image_id : json) (ops : list json) (state : json) : Prop :=
  exists kv dkv akv,
    j = JDict kv /\ dict_get kv "data" = Some (JDict dkv) /\
    dict_get dkv "id" = Some image_id /\ dict_get dkv "attributes" = Some (JDict akv) /\
    dict_get akv "uploadOperations" = Some (JList ops) /\
    py_get (match dict_get akv "assetDeliveryState" with Some v => v | None => JDict [] end)
      "state" (JStr "") = inr state.

Definition reservation_post (token rt lt : string) (id : json) (path : string)
    (data : list byte) : request :=
  post_request token (UploadGcImages.BASE_URL +++ "/" +++ rt)
    (UploadGcImages.reservation rt lt id (Z.of_nat (List.length data)) (basename path)).

Definition uploading_line (path : string) (data : list byte) (ops : list json) : string :=
  ("    Uploading " +++ basename path +++ " (" +++ str_of_Z (Z.of_nat (List.length data))
   +++ " bytes, " +++ str_of_Z (Z.of_nat (List.length ops)) +++ " ops)...") +++ " ".

Definition commit_patch (token rt : string) (image_id : json) : request :=
  patch_request token (UploadGcImages.BASE_URL +++ "/" +++ rt +++ "/" +++ py_str image_id)
    (UploadGcImages.commit_data rt image_id).

Ltac reservation_accepted Hfile Hnet Hr Hb :=
  unfold UploadGcImages.reserve_upload_commit;
  erewrite bind_Ret by (apply getsize_present; exact Hfile);
  unfold UploadGcImages.api_post, requests_post; rewrite bind_assoc;
  erewrite bind_Ret by (unfold requests_request; rewrite Hnet; reflexivity);
  unfold Batch.failed in Hr; apply negb_false_iff in Hr; rewrite Hr;
  unfold resp_json at 1; rewrite Hb; erewrite bind_Ret by reflexivity.

(** X14. How an upload fails after the old image is dealt with.  A refused
    reservation ends it with that one POST.  When an upload operation
    fails, the image is not committed: [FAILED] is printed and nothing more
    is sent.  And when every operation went through but the commit is not
    answered 200, the result is still [False]. *)
Theorem reserve_upload_commit_failures (token rt lt : string) (id : json) (path : string)
    (w : world) (data : list byte) (r : response) (left : list response)
    (Hfile : files w path = Some data) (Hnet : net w = r :: left) :
  let w1 := set_net left (log_request (reservation_post token rt lt id path data) w) in
  (Batch.failed r = true ->
   UploadGcImages.reserve_upload_commit token rt lt id path w
   = (Ret false, emit (UploadGcImages.diagnostic "POST" r 500 +++ nl) w1)) /\
  (forall (j image_id op state : json) (ops : list json) (w2 : world),
     Batch.failed r = false -> json_body r = Some j ->
     reserved j image_id (op :: ops) state ->
     UploadGcImages.upload_image_data (JList (op :: ops)) path
       (emit (uploading_line path data (op :: ops)) w1) = (Ret false, w2) ->
     UploadGcImages.reserve_upload_commit token rt lt id path w
     = (Ret false, emit ("FAILED" +++ nl) w2)) /\
  (forall (j image_id op state : json) (ops : list json) (w2 : world) (c : response)
          (left2 : list response),
     Batch.failed r = false -> json_body r = Some j ->
     reserved j image_id (op :: ops) state ->
     UploadGcImages.upload_image_data (JList (op :: ops)) path
       (emit (uploading_line path data (op :: ops)) w1) = (Ret true, w2) ->
     net w2 = c :: left2 -> status_code c <> 200 ->
     UploadGcImages.reserve_upload_commit token rt lt id path w
     = (Ret false,
        emit ("COMMIT FAILED" +++ nl)
          (emit (UploadGcImages.diagnostic "PATCH" c 500 +++ nl)
             (set_net left2 (log_request (commit_patch token rt image_id) w2))))).
Proof.
  cbv zeta. split; [| split].
  - intros Hr. unfold UploadGcImages.reserve_upload_commit.
    erewrite bind_Ret by (apply getsize_present; exact Hfile).
    unfold UploadGcImages.api_post, requests_post. rewrite bind_assoc.
    erewrite bind_Ret by (unfold requests_request; rewrite Hnet; reflexivity).
    unfold Batch.failed in Hr. apply negb_true_iff in Hr. rewrite Hr. reflexivity.
  - intros j image_id op state ops w2 Hr Hb (kv & dkv & akv & -> & Hd & Hi & Ha & Ho & Hst) Hup.
    reservation_accepted Hfile Hnet Hr Hb.
    destruct kv as [| p kv]; [discriminate |]. cbn [truthy negb py_item].
    rewrite Hd, bind_lift. cbn [py_item]. rewrite Hi, bind_lift, Ha, bind_lift.
    cbn [py_get]. rewrite Ho, bind_lift.
    unfold UploadGcImages.delivery_state. cbn [py_get]. rewrite bind_assoc, bind_lift, Hst.
    rewrite bind_lift. cbn [truthy negb py_len]. rewrite bind_lift.
    erewrite bind_Ret by reflexivity.
    fold (uploading_line path data (op :: ops)).
    erewrite bind_Ret by exact Hup. reflexivity.
  - intros j image_id op state ops w2 c left2 Hr Hb
      (kv & dkv & akv & -> & Hd & Hi & Ha & Ho & Hst) Hup Hn2 Hc.
    reservation_accepted Hfile Hnet Hr Hb.
    destruct kv as [| p kv]; [discriminate |]. cbn [truthy negb py_item].
    rewrite Hd, bind_lift. cbn [py_item]. rewrite Hi, bind_lift, Ha, bind_lift.
    cbn [py_get]. rewrite Ho, bind_lift.
    unfold UploadGcImages.delivery_state. cbn [py_get]. rewrite bind_assoc, bind_lift, Hst.
    rewrite bind_lift. cbn [truthy negb py_len]. rewrite bind_lift.
    erewrite bind_Ret by reflexivity.
    fold (uploading_line path data (op :: ops)).
    erewrite bind_Ret by exact Hup. cbn [negb].
    unfold UploadGcImages.api_patch, requests_patch. rewrite bind_assoc.
    erewrite bind_Ret by (unfold requests_request; rewrite Hn2; reflexivity).
    destruct (Z.eqb_spec (status_code c) 200) as [E | _]; [contradiction |].
    reflexivity.
Qed.

Definition reservation_payload : json :=
  JDict [("data", JDict [("id", JStr "new");
                         ("attributes",
                          JDict [("uploadOperations", JList two_halves_json)])])].

(** The reservation is accepted and the first upload operation is refused. *)
Definition refused_upload : list response :=
  [json_response 201 reservation_payload; error_response 500 "boom"].

Lemma reservation_payload_reserved :
  reserved reservation_payload (JStr "new") two_halves_json (JStr "").
Proof.
  exists [("data", JDict [("id", JStr "new");
                          ("attributes",
                           JDict [("uploadOperations", JList two_halves_json)])])],
         [("id", JStr "new");
          ("attributes", JDict [("uploadOperations", JList two_halves_json)])],
         [("uploadOperations", JList two_halves_json)].
  repeat split.
Defined.

Lemma reserve_upload_commit_failures_witness :
  UploadGcImages.reserve_upload_commit "tok" "gameCenterAchievementImages"
    "gameCenterAchievementLocalization" (JStr "loc1") sample_image
    (sample_world refused_upload)
  = (Ret false,
     emit ("FAILED" +++ nl)
       (snd (UploadGcImages.upload_image_data (JList two_halves_json) sample_image
               (emit (uploading_line sample_image (list_byte_of_string "abcd")
                        two_halves_json)
                  (set_net [error_response 500 "boom"]
                     (log_request
                        (reservation_post "tok" "gameCenterAchievementImages"
                           "gameCenterAchievementLocalization" (JStr "loc1") sample_image
                           (list_byte_of_string "abcd"))
                        (sample_world refused_upload))))))).
Proof.
  apply (proj1 (proj2 (reserve_upload_commit_failures "tok" "gameCenterAchievementImages"
                         "gameCenterAchievementLocalization" (JStr "loc1") sample_image
                         (sample_world refused_upload) (list_byte_of_string "abcd")
                         (json_response 201 reservation_payload)
                         [error_response 500 "boom"] eq_refl eq_refl))
           reservation_payload (JStr "new") (sample_op_json 2 2) (JStr "")
           [sample_op_json 0 2] _ eq_refl eq_refl reservation_payload_reserved).
  reflexivity.
Defined.
(** ** Uploading without a detail record *)

Definition upload_get_line (r : response) : string :=
  UploadGcImages.diagnostic "GET" r 500 +++ nl.

Definition upload_detail_get (token app_id : string) : request :=
  get_request token (UploadGcImages.BASE_URL +++ "/apps/" +++ app_id +++ "/gameCenterDetail")
    JNull.

Lemma upload_images_without_detail (heading : string) (dir : M string)
    (collection noun label rt lt token app_id : string) (w : world) (g : response)
    (left : list response) (printed : list string) :
  net w = g :: left -> nothing_found upload_get_line g printed ->
  UploadGcImages.upload_images heading dir collection noun label rt lt token app_id w
  = (Ret tt,
     emit ("  ERROR: Could not find Game Center Detail" +++ nl)
       (emit_all printed
          (set_net left (log_request (upload_detail_get token app_id)
                           (emit ((nl +++ heading) +++ nl) w))))).
Proof.
  intros Hnet Hn. unfold UploadGcImages.upload_images, UploadGcImages.api_get.
  erewrite bind_Ret by reflexivity.
  rewrite bind_assoc. erewrite bind_Ret by (apply requests_get_served; exact Hnet).
  fold (upload_detail_get token app_id).
  destruct Hn as [Hs | j Hs Hb Hw].
  - destruct (Z.eqb_spec (status_code g) 200) as [E | _]; [contradiction |].
    rewrite bind_assoc. erewrite bind_Ret by reflexivity.
    erewrite bind_Ret by reflexivity.
    erewrite bind_Ret by reflexivity. reflexivity.
  - rewrite Hs. cbn [Z.eqb Pos.eqb]. unfold resp_json. rewrite Hb.
    erewrite bind_Ret by reflexivity.
    erewrite bind_Ret by (apply has_data_without; exact Hw). reflexivity.
Qed.

(** X15. For the upload script a missing detail record is not fatal, unlike
    for the other three: each half prints its heading, the diagnostic of the
    lookup if it was refused, and the error, and returns; so that a full run
    asks for the record twice, sends nothing else and ends normally with
    [Done!]. *)
Theorem upload_without_detail_goes_on (a : UploadGcImages.args) (w : world)
    (data : list byte) (tok : string) (g1 g2 : response) (left : list response)
    (p1 p2 : list string)
    (Hdry : UploadGcImages.dry_run a = false)
    (Hach : UploadGcImages.achievements_only a = false)
    (Hlb : UploadGcImages.leaderboards_only a = false)
    (Hkey : files w (UploadGcImages.key_file a) = Some data)
    (Hsig : signer w (token_payload (UploadGcImages.issuer_id a) (now w))
              (string_of_list_byte data) (token_headers (UploadGcImages.key_id a)) = Some tok)
    (Hnet : net w = g1 :: g2 :: left)
    (H1 : nothing_found upload_get_line g1 p1)
    (H2 : nothing_found upload_get_line g2 p2) :
  exists w',
    UploadGcImages.main a w = (Ret tt, w') /\
    sent w' = sent w ++ [upload_detail_get tok (UploadGcImages.app_id a);
                         upload_detail_get tok (UploadGcImages.app_id a)] /\
    net w' = left /\
    out w' = out w
             ++ [token_line; ("  Token generated." +++ nl) +++ nl;
                 (nl +++ "[1/2] Uploading achievement images...") +++ nl]
             ++ p1
             ++ ["  ERROR: Could not find Game Center Detail" +++ nl;
                 (nl +++ "[2/2] Uploading leaderboard images...") +++ nl]
             ++ p2
             ++ ["  ERROR: Could not find Game Center Detail" +++ nl;
                 (nl +++ "Done!") +++ nl].
Proof.
  unfold UploadGcImages.main. rewrite Hdry, Hach, Hlb. cbn [negb andb orb].
  erewrite bind_Ret by reflexivity.
  erewrite bind_Ret by (apply (generate_token_issues _ _ _ tok _ data); assumption).
  erewrite bind_Ret by reflexivity.
  unfold UploadGcImages.upload_achievement_images, UploadGcImages.upload_leaderboard_images.
  erewrite bind_Ret by (apply (upload_images_without_detail _ _ _ _ _ _ _ _ _ _ g1 (g2 :: left) p1);
                        [exact Hnet | exact H1]).
  match goal with
  | |- context [emit_all p1 ?x] => destruct (emit_all_offline p1 x) as [[Hs1 Hn1] Ho1]
  end.
  erewrite bind_Ret.
  2:{ apply (upload_images_without_detail _ _ _ _ _ _ _ _ _ _ g2 left p2); [| exact H2].
      cbn [net emit]. rewrite Hn1. reflexivity. }
  match goal with
  | |- context [emit_all p2 ?x] => destruct (emit_all_offline p2 x) as [[Hs2 Hn2] Ho2]
  end.
  unfold print. eexists. split; [reflexivity |].
  cbn [sent net out emit]. rewrite Hs2, Hn2, Ho2. cbn [sent net out emit set_net log_request].
  rewrite Hs1, Ho1. cbn [sent net out emit set_net log_request].
  unfold token_line. rewrite <- !app_assoc. repeat split.
Qed.

Lemma upload_without_detail_goes_on_witness :
  exists w',
    UploadGcImages.main (upload_args false)
      (sample_world [error_response 404 "no detail"; error_response 404 "no detail"])
    = (Ret tt, w') /\
    sent w'
    = sent (sample_world [error_response 404 "no detail"; error_response 404 "no detail"])
      ++ [upload_detail_get "jwt:issuer" "1234"; upload_detail_get "jwt:issuer" "1234"] /\
    net w' = [] /\
    out w'
    = out (sample_world [error_response 404 "no detail"; error_response 404 "no detail"])
      ++ [token_line; ("  Token generated." +++ nl) +++ nl;
          (nl +++ "[1/2] Uploading achievement images...") +++ nl]
      ++ [upload_get_line (error_response 404 "no detail")]
      ++ ["  ERROR: Could not find Game Center Detail" +++ nl;
          (nl +++ "[2/2] Uploading leaderboard images...") +++ nl]
      ++ [upload_get_line (error_response 404 "no detail")]
      ++ ["  ERROR: Could not find Game Center Detail" +++ nl;
          (nl +++ "Done!") +++ nl].
Proof.
  apply (upload_without_detail_goes_on (upload_args false)
           (sample_world [error_response 404 "no detail"; error_response 404 "no detail"])
           (list_byte_of_string "PRIVATE KEY") "jwt:issuer"
           (error_response 404 "no detail") (error_response 404 "no detail") []
           [upload_get_line (error_response 404 "no detail")]
           [upload_get_line (error_response 404 "no detail")]
           eq_refl eq_refl eq_refl eq_refl eq_refl eq_refl);
    constructor; discriminate.
Defined.

(** ** tools/generate_gc_images.py: where the images are saved

    Of the generator only the paths it saves under are modelled, in the
    order of its [main]; what is drawn is left out. *)

Module GenerateGcImages.

Definition NUM_LEVELS : nat := 60.

(** [range(1, NUM_LEVELS + 1)] *)
Definition levels : list Z := map Z.of_nat (seq 1 NUM_LEVELS).

Definition OUTPUT_DIR (script_dir : string) : string := path_join script_dir "gc_images".
Definition ACH_DIR (script_dir : string) : string :=
  path_join (OUTPUT_DIR script_dir) "achievements".
Definition LB_DIR (script_dir : string) : string :=
  path_join (OUTPUT_DIR script_dir) "leaderboards".

(** The arguments of [img.save] in the two achievement steps. *)
Definition achievement_paths (script_dir : string) : list string :=
  map (fun i => path_join (ACH_DIR script_dir) ("level_" +++ str_of_Z i +++ "_complete.png"))
    levels
  ++ [path_join (ACH_DIR script_dir) "all_levels_complete.png"].

(** The arguments of [img.save] in the leaderboard step. *)
Definition leaderboard_paths (script_dir : string) : list string :=
  map (fun i => path_join (LB_DIR script_dir) ("level_" +++ str_of_Z i +++ "_score.png")) levels.

End GenerateGcImages.

Lemma append_assoc3 (a b c d : string) : (a +++ b +++ c) +++ d = a +++ b +++ c +++ d.
Proof.
  induction a as [| x a IH]; cbn.
  - induction b as [| y b IHb]; cbn; [reflexivity | now rewrite IHb].
  - now rewrite IH.
Qed.

(** X16. The generator and the uploader agree on where an image lives: for
    the achievements and leaderboards that the setup script configures, the
    paths the uploader looks under, [<dir>/<vendorIdentifier>.png], are the
    paths the generator saves to, one for each and in the same order. *)
Theorem generated_images_are_looked_up (w : world) :
  UploadGcImages.ACH_DIR w = (Ret (GenerateGcImages.ACH_DIR (script_dir w)), w) /\
  UploadGcImages.LB_DIR w = (Ret (GenerateGcImages.LB_DIR (script_dir w)), w) /\
  map (fun a => image_path_of (GenerateGcImages.ACH_DIR (script_dir w))
                  (JStr (SetupGameCenter.vendorIdentifier a)))
    SetupGameCenter.ACHIEVEMENTS
  = GenerateGcImages.achievement_paths (script_dir w) /\
  map (fun lb => image_path_of (GenerateGcImages.LB_DIR (script_dir w))
                   (JStr (SetupGameCenter.lb_vendorIdentifier lb)))
    SetupGameCenter.SCORE_LEADERBOARDS
  = GenerateGcImages.leaderboard_paths (script_dir w).
Proof.
  split; [reflexivity |]. split; [reflexivity |].
  unfold SetupGameCenter.ACHIEVEMENTS, SetupGameCenter.SCORE_LEADERBOARDS,
    GenerateGcImages.achievement_paths, GenerateGcImages.leaderboard_paths, image_path_of.
  change GenerateGcImages.levels with SetupGameCenter.levels.
  rewrite map_app, !map_map. cbn [map SetupGameCenter.vendorIdentifier
    SetupGameCenter.lb_vendorIdentifier py_str].
  split; [apply (f_equal (fun l => l ++ _)) |];
    apply map_ext; intros i; now rewrite append_assoc3.
Qed.
(** ** An upload that goes through *)

(** The payload of an accepted commit, with the delivery state it reports
    ([UNKNOWN] when it reports none). *)
Definition committed (j state : json) : Prop :=
  exists kv dkv akv,
    j = JDict kv /\ dict_get kv "data" = Some (JDict dkv) /\
    dict_get dkv "attributes" = Some (JDict akv) /\
    py_get (match dict_get akv "assetDeliveryState" with Some v => v | None => JDict [] end)
      "state" (JStr "UNKNOWN") = inr state.

Lemma forallb_removelast {A} (f : A -> bool) (l : list A) :
  forallb f l = true -> forallb f (removelast l) = true.
Proof.
  induction l as [| a l IH]; [reflexivity |].
  intros H. cbn [forallb] in H. apply andb_true_iff in H. destruct H as [Ha Hl].
  destruct l as [| b l]; [reflexivity |].
  change (removelast (a :: b :: l)) with (a :: removelast (b :: l)).
  cbn [forallb]. rewrite Ha. apply IH. exact Hl.
Qed.

(** X17. An upload that goes through is: the reservation, then every
    upload operation of the reservation in its order, each carrying its
    declared bytes of the file, then the commit of the image id the
    reservation returned; the result is [True] and the delivery state of the
    commit is reported. *)
Theorem upload_goes_through (token rt lt : string) (id : json) (path : string)
    (w : world) (data : list byte) (r c : response) (ups left : list response)
    (j image_id op state cj cstate : json) (ops : list json) (descr : list upload_op)
    (Hfile : files w path = Some data)
    (Hnet : net w = r :: ups ++ c :: left)
    (Hr : Batch.failed r = false) (Hj : json_body r = Some j)
    (Hres : reserved j image_id (op :: ops) state)
    (Hops : Forall2 describes (op :: ops) descr)
    (Hlen : List.length ups = List.length (op :: ops))
    (Hups : forallb (fun u => UploadGcImages.upload_ok (status_code u)) ups = true)
    (Hc : status_code c = 200) (Hcj : json_body c = Some cj)
    (Hcom : committed cj cstate) :
  exists w',
    UploadGcImages.reserve_upload_commit token rt lt id path w = (Ret true, w') /\
    net w' = left /\
    sent w' = sent w ++ reservation_post token rt lt id path data
                        :: map (upload_request data) descr
                        ++ [commit_patch token rt image_id] /\
    last_printed w' = ("OK (state: " +++ py_str cstate +++ ")") +++ nl.
Proof.
  destruct Hres as (kv & dkv & akv & -> & Hd & Hi & Ha & Ho & Hst).
  destruct Hcom as (ckv & cdkv & cakv & -> & Hcd & Hca & Hcst).
  reservation_accepted Hfile Hnet Hr Hj.
  destruct kv as [| p kv]; [discriminate |]. cbn [truthy negb py_item].
  rewrite Hd, bind_lift. cbn [py_item]. rewrite Hi, bind_lift, Ha, bind_lift.
  cbn [py_get]. rewrite Ho, bind_lift.
  unfold UploadGcImages.delivery_state. cbn [py_get]. rewrite bind_assoc, bind_lift, Hst.
  rewrite bind_lift. cbn [truthy negb py_len]. rewrite bind_lift.
  erewrite bind_Ret by reflexivity.
  fold (uploading_line path data (op :: ops)).
  fold (reservation_post token rt lt id path data).
  set (w1 := emit (uploading_line path data (op :: ops))
               (set_net (ups ++ c :: left)
                  (log_request (reservation_post token rt lt id path data) w))).
  destruct (upload_loop_sends_all data (op :: ops) descr Hops w1 ups (c :: left)
              eq_refl Hlen (forallb_removelast _ _ Hups)) as (w2 & Hrun & Hn2 & Hs2).
  rewrite Hups in Hrun.
  assert (Hup : UploadGcImages.upload_image_data (JList (op :: ops)) path w1 = (Ret true, w2)).
  { unfold UploadGcImages.upload_image_data, bind at 1, read_bytes.
    change (files w1 path) with (files w path). rewrite Hfile. exact Hrun. }
  erewrite bind_Ret by exact Hup. cbn [negb].
  unfold UploadGcImages.api_patch, requests_patch. rewrite bind_assoc.
  erewrite bind_Ret by (unfold requests_request; rewrite Hn2; reflexivity).
  fold (patch_request token (UploadGcImages.BASE_URL +++ "/" +++ rt +++ "/" +++ py_str image_id)
          (UploadGcImages.commit_data rt image_id)).
  fold (commit_patch token rt image_id).
  rewrite Hc. cbn [Z.eqb Pos.eqb]. unfold resp_json. rewrite Hcj.
  erewrite bind_Ret by reflexivity.
  destruct ckv as [| cp ckv]; [discriminate |]. cbn [truthy py_item].
  rewrite Hcd, bind_lift. cbn [py_item]. rewrite Hca, bind_lift.
  cbn [py_get]. rewrite bind_assoc, bind_lift, Hcst, bind_lift.
  erewrite bind_Ret by reflexivity.
  eexists. split; [reflexivity |].
  cbn [net sent emit set_net log_request]. rewrite Hs2.
  unfold w1. cbn [net sent emit set_net log_request].
  repeat split.
  - rewrite <- !app_assoc. reflexivity.
  - unfold last_printed. cbn [out emit]. apply last_last.
Qed.

(** The reservation is accepted, both halves are uploaded and the commit is
    accepted. *)
Definition accepted_upload : list response :=
  [json_response 201 reservation_payload;
   json_response 200 JNull; json_response 204 JNull;
   json_response 200
     (JDict [("data", JDict [("id", JStr "new");
                             ("attributes",
                              JDict [("assetDeliveryState",
                                      JDict [("state", JStr "UPLOAD_COMPLETE")])])])])].

Lemma upload_goes_through_witness :
  exists w',
    UploadGcImages.reserve_upload_commit "tok" "gameCenterAchievementImages"
      "gameCenterAchievementLocalization" (JStr "loc1") sample_image
      (sample_world accepted_upload) = (Ret true, w') /\
    net w' = [] /\
    sent w' = sent (sample_world accepted_upload)
              ++ reservation_post "tok" "gameCenterAchievementImages"
                   "gameCenterAchievementLocalization" (JStr "loc1") sample_image
                   (list_byte_of_string "abcd")
                 :: map (upload_request (list_byte_of_string "abcd")) two_halves
                 ++ [commit_patch "tok" "gameCenterAchievementImages" (JStr "new")] /\
    last_printed w' = ("OK (state: " +++ py_str (JStr "UPLOAD_COMPLETE") +++ ")") +++ nl.
Proof.
  apply (upload_goes_through "tok" "gameCenterAchievementImages"
           "gameCenterAchievementLocalization" (JStr "loc1") sample_image
           (sample_world accepted_upload) (list_byte_of_string "abcd")
           (json_response 201 reservation_payload)
           (json_response 200
              (JDict [("data", JDict [("id", JStr "new");
                                      ("attributes",
                                       JDict [("assetDeliveryState",
                                               JDict [("state", JStr "UPLOAD_COMPLETE")])])])]))
           [json_response 200 JNull; json_response 204 JNull] []
           reservation_payload (JStr "new") (sample_op_json 2 2) (JStr "")
           (JDict [("data", JDict [("id", JStr "new");
                                   ("attributes",
                                    JDict [("assetDeliveryState",
                                            JDict [("state", JStr "UPLOAD_COMPLETE")])])])])
           (JStr "UPLOAD_COMPLETE") [sample_op_json 0 2] two_halves
           eq_refl eq_refl eq_refl eq_refl reservation_payload_reserved two_halves_described
           eq_refl eq_refl eq_refl eq_refl).
  exists [("data", JDict [("id", JStr "new");
                          ("attributes",
                           JDict [("assetDeliveryState",
                                   JDict [("state", JStr "UPLOAD_COMPLETE")])])])],
         [("id", JStr "new");
          ("attributes",
           JDict [("assetDeliveryState", JDict [("state", JStr "UPLOAD_COMPLETE")])])],
         [("assetDeliveryState", JDict [("state", JStr "UPLOAD_COMPLETE")])].
  repeat split.
Defined.

(** ** Exit status of a whole run *)

(** The answer to a lookup shows no record: it is not a 200, or its
    payload is without data. *)
Definition no_record (r : response) : Prop :=
  status_code r <> 200 \/ exists j, json_body r = Some j /\ without_data j.

(** The answer to a create gives no record: it is refused, or its payload
    is empty. *)
Definition not_created (r : response) : Prop :=
  Batch.failed r = true \/ exists j, json_body r = Some j /\ truthy j = false.

Lemma has_data_false (j : json) (w w1 : world) :
  has_data j w = (Ret false, w1) -> w1 = w /\ without_data j.
Proof.
  unfold has_data. destruct (truthy j) eqn:Ht.
  - destruct j as [| b | n | s | l | kv]; try discriminate.
    unfold bind. cbn [py_get lift]. unfold ret. intros H. inversion H as [[Hd Hw]].
    split; [reflexivity |]. right. exists kv. split; [reflexivity |]. now rewrite Hd.
  - unfold ret. intros H. inversion H. split; [reflexivity | now left].
Qed.

Lemma print_inv (s : string) (w w1 : world) (u : unit) :
  print s w = (Ret u, w1) -> w1 = emit (s +++ nl) w.
Proof. unfold print. intros H. now inversion H. Qed.

Lemma generate_token_after (key_id issuer_id key_file line tok : string) (w w1 : world) :
  generate_token key_id issuer_id key_file (emit line w) = (Ret tok, w1) ->
  w1 = emit line w /\ generate_token key_id issuer_id key_file w = (Ret tok, w).
Proof.
  unfold generate_token, bind, read_text, datetime_now, jwt_encode.
  cbn [files emit]. destruct (files w key_file); cbv beta iota; [| intros H; discriminate H].
  cbn [signer now emit].
  destruct (signer w _ _ _); cbv beta iota; [| intros H; discriminate H].
  intros H. inversion H. auto.
Qed.

(** What a lookup that returned has done. *)
Lemma lookup_inv (token u : string) (p : json) (line : response -> string)
    (w w1 : world) (j : json) :
  (resp <- requests_get u (api_headers token) p ;;
   if status_code resp =? 200 then resp_json resp
   else print (line resp) ;; ret JNull) w = (Ret j, w1) ->
  exists g rest,
    net w = g :: rest /\ net w1 = rest /\ sent w1 = sent w ++ [get_request token u p] /\
    (status_code g <> 200 /\ j = JNull \/ status_code g = 200 /\ json_body g = Some j).
Proof.
  unfold bind at 1, requests_get, requests_request.
  destruct (net w) as [| g rest]; [intros H; discriminate H |].
  destruct (Z.eqb_spec (status_code g) 200) as [E | E].
  - unfold resp_json. destruct (json_body g) as [j0 |] eqn:Hb; [| intros H; discriminate H].
    unfold ret. intros H. inversion H; subst. exists g, rest. cbn. intuition.
  - unfold bind, print, ret. intros H. inversion H; subst. exists g, rest. cbn. intuition.
Qed.

Lemma lookup_no_record (g : response) (j : json) :
  status_code g <> 200 /\ j = JNull \/ status_code g = 200 /\ json_body g = Some j ->
  without_data j -> no_record g.
Proof. intros [[H _] | [_ H]] Hw; [now left | right; eauto]. Qed.

(** What a create that returned has done. *)
Lemma create_inv (token u : string) (data : json) (line : response -> string)
    (w w1 : world) (j : json) :
  (resp <- requests_post u (api_headers token) data ;;
   if (status_code resp =? 200) || (status_code resp =? 201) then resp_json resp
   else print (line resp) ;; ret JNull) w = (Ret j, w1) ->
  exists c rest,
    net w = c :: rest /\ net w1 = rest /\ sent w1 = sent w ++ [post_request token u data] /\
    (Batch.failed c = true /\ j = JNull \/ json_body c = Some j).
Proof.
  unfold bind at 1, requests_post, requests_request.
  destruct (net w) as [| c rest]; [intros H; discriminate H |].
  unfold Batch.failed.
  destruct ((status_code c =? 200) || (status_code c =? 201)) eqn:Hc.
  - unfold resp_json. destruct (json_body c) as [j0 |] eqn:Hb; [| intros H; discriminate H].
    unfold ret. intros H. inversion H; subst. exists c, rest. cbn. rewrite ?Hc. intuition.
  - unfold bind, print, ret. intros H. inversion H; subst. exists c, rest. cbn. rewrite ?Hc. intuition.
Qed.

Tactic Notation "exit_keep" hyp(H) "as" ident(a) ident(w1) ident(Hm) :=
  apply bind_exit_inv in H;
  destruct H as [H | (a & w1 & Hm & H)]; [try exit_contra H | cbv beta in H].

(** setup_game_center gives up: the token was issued, the lookup of the
    detail record showed none and the create that followed gave none. *)
Definition setup_gave_up (a : SetupGameCenter.args) (w w' : world) : Prop :=
  exists (tok : string) (g c : response),
    generate_token (SetupGameCenter.key_id a) (SetupGameCenter.issuer_id a)
      (SetupGameCenter.key_file a) w = (Ret tok, w) /\
    net w = g :: c :: net w' /\ no_record g /\ not_created c /\
    sent w' = sent w ++ [detail_get tok (SetupGameCenter.app_id a);
                         detail_post tok (SetupGameCenter.app_id a)] /\
    last_printed w' = no_detail_created.

Lemma get_or_create_exit (token app_id : string) (w w' : world) (code : Z) :
  SetupGameCenter.get_or_create_gc_detail token app_id w = (Exit code, w') ->
  code = 1 /\
  exists g c,
    net w = g :: c :: net w' /\ no_record g /\ not_created c /\
    sent w' = sent w ++ [detail_get token app_id; detail_post token app_id] /\
    last_printed w' = no_detail_created.
Proof.
  unfold SetupGameCenter.get_or_create_gc_detail. intros H.
  exit_keep H as u0 w0 H0. apply print_inv in H0. subst w0.
  exit_keep H as j w1 H1. unfold SetupGameCenter.api_get in H1.
  apply lookup_inv in H1. destruct H1 as (g & rest & Hn & Hn1 & Hs1 & Hg).
  exit_keep H as found w2 H2. destruct found.
  - repeat exit_step H.
  - apply has_data_false in H2. destruct H2 as [-> Hw].
    exit_keep H as u3 w3 H3. apply print_inv in H3. subst w3.
    exit_keep H as j' w4 H4. unfold SetupGameCenter.api_post in H4.
    apply create_inv in H4. destruct H4 as (c & rest' & Hn2 & Hn3 & Hs3 & Hc).
    destruct (truthy j') eqn:Ht.
    + repeat exit_step H.
    + unfold bind, print, sys_exit in H. inversion H; subst. split; [reflexivity |].
      exists g, c. cbn [net sent out emit] in *. rewrite Hn2 in Hn.
      repeat split.
      * exact Hn.
      * exact (lookup_no_record g _ Hg Hw).
      * destruct Hc as [[Hf _] | Hb]; [now left | right; eauto].
      * rewrite Hs3, Hs1. rewrite <- app_assoc. reflexivity.
      * unfold last_printed. cbn [out emit]. apply last_last.
Qed.

Lemma setup_main_exit (a : SetupGameCenter.args) (w w' : world) (code : Z) :
  SetupGameCenter.main a w = (Exit code, w') -> code = 1 /\ setup_gave_up a w w'.
Proof.
  unfold SetupGameCenter.main. intros H. destruct (SetupGameCenter.dry_run a).
  - exit_contra H.
  - exit_keep H as u0 w0 H0. apply print_inv in H0. subst w0.
    exit_keep H as tok w1 H1. apply generate_token_after in H1. destruct H1 as [-> Htok].
    exit_keep H as u2 w2 H2. apply print_inv in H2. subst w2.
    exit_keep H as id w3 H3.
    + apply get_or_create_exit in H. destruct H as (-> & g & c & Hn & Hg & Hc & Hs & Hl).
      split; [reflexivity |]. exists tok, g, c. cbn [net sent emit] in *. repeat split; assumption.
    + repeat exit_step H.
Qed.

Lemma run_related {A} (R : world -> world -> Prop) (m : M A) (w w1 : world)
    (o : outcome A) :
  preserves R m -> m w = (o, w1) -> R w w1.
Proof. intros Hm H. specialize (Hm w). now rewrite H in Hm. Qed.

(** Responses are taken from the front, and the log only grows. *)
Definition advances (w w' : world) : Prop :=
  (exists served, net w = served ++ net w') /\ extends w w'.

Lemma advances_refl (w : world) : advances w w.
Proof. split; [now exists [] | apply extends_refl]. Qed.

Lemma advances_trans (a b c : world) : advances a b -> advances b c -> advances a c.
Proof.
  intros [[s1 H1] E1] [[s2 H2] E2]. split; [| exact (extends_trans a b c E1 E2)].
  exists (s1 ++ s2). now rewrite H1, H2, app_assoc.
Qed.

Lemma advances_emit (s : string) (w : world) : advances w (emit s w).
Proof. split; [now exists [] | apply extends_emit]. Qed.

Lemma advances_slept (ms : Z) (w : world) : advances w (add_slept ms w).
Proof. split; [now exists [] | apply extends_slept]. Qed.

Lemma advances_request (q : request) : preserves advances (requests_request q).
Proof.
  intros w. split; [| apply extends_request].
  unfold requests_request. destruct (net w) as [| r rs] eqn:E; cbn.
  - exists []. rewrite E. reflexivity.
  - exists [r]. reflexivity.
Qed.

Lemma advances_get (u : string) (h : list (string * string)) (p : json) :
  preserves advances (requests_get u h p).
Proof. apply advances_request. Qed.

Ltac moves :=
  first
    [ assumption
    | apply (preserves_ret advances advances_refl)
    | apply (preserves_raise advances advances_refl)
    | apply (preserves_lift advances advances_refl)
    | apply (preserves_print advances advances_emit)
    | apply (preserves_print_end advances advances_emit)
    | apply (preserves_sleep advances advances_slept)
    | apply (preserves_resp_json advances advances_refl)
    | apply (preserves_has_data advances advances_refl advances_trans)
    | apply advances_get
    | apply advances_request
    | match goal with
      | IH : forall _, _ |- preserves _ _ => apply IH
      end
    | match goal with
      | |- preserves _ (bind _ _) =>
          apply (preserves_bind advances advances_trans); [moves | intros ?; moves]
      | |- preserves _ (if ?b then _ else _) => destruct b; moves
      | |- preserves _ (match ?x with _ => _ end) => destruct x; moves
      end ].

Lemma pages_loop_advances (indent : string) (shown : nat) (token : string) :
  forall (fuel : nat) (u p : json) (acc : list json),
    preserves advances (pages_loop fuel indent shown token u p acc).
Proof.
  induction fuel as [| fuel IH]; intros u p acc; cbn [pages_loop]; moves.
Qed.

Lemma all_pages_advances (indent : string) (shown : nat) (token u : string) (p : json) :
  preserves advances (all_pages indent shown token u p).
Proof. intros w. unfold all_pages. apply pages_loop_advances. Qed.

(** add_gc_to_review gives up: the token was issued and the lookup of the
    detail record showed none, or that of the review submissions did. *)
Definition add_gave_up (a : AddGcToReview.args) (w w' : world) : Prop :=
  exists tok : string,
    generate_token (AddGcToReview.key_id a) (AddGcToReview.issuer_id a)
      (AddGcToReview.key_file a) w = (Ret tok, w) /\
    let detail := get_request tok (AddGcToReview.BASE_V1 +++ "/apps/" +++ AddGcToReview.app_id a
                                   +++ "/gameCenterDetail") JNull in
    let submissions :=
      get_request tok (AddGcToReview.BASE_V1 +++ "/reviewSubmissions")
        (JDict [("filter[app]", JStr (AddGcToReview.app_id a));
                ("filter[state]", JStr "READY_FOR_REVIEW,WAITING_FOR_REVIEW")]) in
    ((exists g, net w = g :: net w' /\ no_record g /\ sent w' = sent w ++ [detail] /\
                last_printed w' = no_detail) \/
     (exists g s, net w = g :: s :: net w' /\ no_record s /\
                  sent w' = sent w ++ [detail; submissions] /\
                  last_printed w' = no_submission)).

Tactic Notation "still" hyp(H) "as" ident(Hs) ident(Hn) :=
  apply (run_related offline) in H; [destruct H as [Hs Hn] | solve [quiet]].

Lemma add_main_exit (a : AddGcToReview.args) (w w' : world) (code : Z) :
  AddGcToReview.main a w = (Exit code, w') -> code = 1 /\ add_gave_up a w w'.
Proof.
  unfold AddGcToReview.main. intros H.
  exit_keep H as u0 w0 H0. apply print_inv in H0. subst w0.
  exit_keep H as tok w1 H1. apply generate_token_after in H1. destruct H1 as [-> Htok].
  exit_keep H as u2 w2 H2. still H2 as Hs2 Hn2.
  exit_keep H as u3 w3 H3. still H3 as Hs3 Hn3.
  exit_keep H as j w4 H4. unfold AddGcToReview.api_get in H4.
  apply lookup_inv in H4. destruct H4 as (g & rest & Hn & Hn4 & Hs4 & Hg).
  exit_keep H as found w5 H5. destruct found; cbn [negb] in H.
  - unfold has_data in H5. still H5 as Hs5 Hn5.
    exit_keep H as id w6 H6. unfold AddGcToReview.id_of in H6. still H6 as Hs6 Hn6.
    exit_keep H as u7 w7 H7. still H7 as Hs7 Hn7.
    exit_keep H as u8 w8 H8. still H8 as Hs8 Hn8.
    exit_keep H as subs w9 H9. unfold AddGcToReview.api_get in H9.
    apply lookup_inv in H9. destruct H9 as (s & rest' & Hn' & Hn9 & Hs9 & Hsb).
    exit_keep H as sfound w10 H10. destruct sfound; cbn [negb] in H.
    + repeat exit_step H.
    + apply has_data_false in H10. destruct H10 as [-> Hw].
      unfold bind, print, sys_exit in H. inversion H; subst. split; [reflexivity |].
      exists tok. split; [exact Htok |]. cbv zeta. right. exists g, s.
      cbn [net sent out emit] in *. repeat split.
      * congruence.
      * exact (lookup_no_record s _ Hsb Hw).
      * rewrite Hs9, Hs8, Hs7, Hs6, Hs5, Hs4, Hs3, Hs2, <- app_assoc. reflexivity.
      * unfold last_printed. cbn [out emit]. apply last_last.
  - apply has_data_false in H5. destruct H5 as [-> Hw].
    unfold bind, print, sys_exit in H. inversion H; subst. split; [reflexivity |].
    exists tok. split; [exact Htok |]. cbv zeta. left. exists g.
    cbn [net sent out emit] in *. repeat split.
    + congruence.
    + exact (lookup_no_record g _ Hg Hw).
    + rewrite Hs4, Hs3, Hs2. reflexivity.
    + unfold last_printed. cbn [out emit]. apply last_last.
Qed.

(** submit_gc_for_review gives up: the token was issued and the lookup of
    the detail record showed none, or, after the items were fetched, that of
    the app store version did. *)
Definition submit_gave_up (a : SubmitGcForReview.args) (w w' : world) : Prop :=
  exists tok : string,
    generate_token (SubmitGcForReview.key_id a) (SubmitGcForReview.issuer_id a)
      (SubmitGcForReview.key_file a) w = (Ret tok, w) /\
    let detail :=
      get_request tok (SubmitGcForReview.BASE_URL +++ "/apps/" +++ SubmitGcForReview.app_id a
                       +++ "/gameCenterDetail") JNull in
    let versions :=
      get_request tok (SubmitGcForReview.BASE_URL +++ "/apps/" +++ SubmitGcForReview.app_id a
                       +++ "/appStoreVersions")
        (JDict [("filter[versionString]", JStr (SubmitGcForReview.version a));
                ("filter[platform]", JStr "IOS")]) in
    ((exists g, net w = g :: net w' /\ no_record g /\ sent w' = sent w ++ [detail] /\
                last_printed w' = no_detail) \/
     (exists g pages v fetches,
        net w = g :: pages ++ v :: net w' /\ no_record v /\
        sent w' = sent w ++ detail :: fetches ++ [versions] /\
        last_printed w' = no_version (SubmitGcForReview.version a))).

Lemma submit_main_exit (a : SubmitGcForReview.args) (w w' : world) (code : Z) :
  SubmitGcForReview.main a w = (Exit code, w') -> code = 1 /\ submit_gave_up a w w'.
Proof.
  unfold SubmitGcForReview.main. intros H.
  exit_keep H as u0 w0 H0. apply print_inv in H0. subst w0.
  exit_keep H as tok w1 H1. apply generate_token_after in H1. destruct H1 as [-> Htok].
  exit_keep H as u2 w2 H2. still H2 as Hs2 Hn2.
  exit_keep H as u3 w3 H3. still H3 as Hs3 Hn3.
  exit_keep H as j w4 H4. unfold SubmitGcForReview.api_get in H4.
  apply lookup_inv in H4. destruct H4 as (g & rest & Hn & Hn4 & Hs4 & Hg).
  exit_keep H as found w5 H5. destruct found; cbn [negb] in H.
  - unfold has_data in H5. still H5 as Hs5 Hn5.
    exit_keep H as id w6 H6. unfold SubmitGcForReview.id_of in H6. still H6 as Hs6 Hn6.
    exit_keep H as u7 w7 H7. still H7 as Hs7 Hn7.
    exit_keep H as u8 w8 H8. still H8 as Hs8 Hn8.
    exit_keep H as achs w9 H9.
    apply (run_related advances) in H9; [| apply all_pages_advances].
    destruct H9 as [[p1 Hp1] [q1 Hq1]].
    exit_keep H as lbs w10 H10.
    apply (run_related advances) in H10; [| apply all_pages_advances].
    destruct H10 as [[p2 Hp2] [q2 Hq2]].
    cbv zeta in H.
    exit_keep H as u11 w11 H11. still H11 as Hs11 Hn11.
    exit_keep H as u12 w12 H12. still H12 as Hs12 Hn12.
    exit_keep H as u13 w13 H13. still H13 as Hs13 Hn13.
    exit_keep H as u14 w14 H14. still H14 as Hs14 Hn14.
    exit_keep H as versions w15 H15. unfold SubmitGcForReview.api_get in H15.
    apply lookup_inv in H15. destruct H15 as (v & rest' & Hn' & Hn15 & Hs15 & Hv).
    exit_keep H as vfound w16 H16. destruct vfound; cbn [negb] in H.
    + repeat exit_step H.
    + apply has_data_false in H16. destruct H16 as [-> Hw].
      unfold bind, print, sys_exit in H. inversion H; subst. split; [reflexivity |].
      exists tok. split; [exact Htok |]. cbv zeta. right. exists g, (p1 ++ p2), v, (q1 ++ q2).
      cbn [net sent out emit] in *. repeat split.
      * rewrite <- app_assoc. congruence.
      * exact (lookup_no_record v _ Hv Hw).
      * rewrite Hs15, Hs14, Hs13, Hs12, Hs11, Hq2, Hq1, Hs8, Hs7, Hs6, Hs5, Hs4, Hs3, Hs2.
        rewrite <- !app_assoc. reflexivity.
      * unfold last_printed. cbn [out emit]. apply last_last.
  - apply has_data_false in H5. destruct H5 as [-> Hw].
    unfold bind, print, sys_exit in H. inversion H; subst. split; [reflexivity |].
    exists tok. split; [exact Htok |]. cbv zeta. left. exists g.
    cbn [net sent out emit] in *. repeat split.
    + congruence.
    + exact (lookup_no_record g _ Hg Hw).
    + rewrite Hs4, Hs3, Hs2. reflexivity.
    + unfold last_printed. cbn [out emit]. apply last_last.
Qed.

(** A run of a script, from the command line on, ends with a status other
    than 0 only when argparse turns the command line down (status 2), when
    an exception escapes (status 1), or by [sys.exit(1)] with the script
    having given up as [gave_up] says. *)
Definition ends_nonzero_only {A} (main : A -> M unit)
    (gave_up : A -> world -> world -> Prop) : Prop :=
  forall (c : command_line A) (w : world),
    exit_status (fst (script main c w)) <> 0 ->
    (c = Usage_error /\ script main c w = (Exit 2, w)) \/
    (exists e, fst (script main c w) = Raise e) \/
    (exists a, c = Parsed_args a /\ fst (script main c w) = Exit 1 /\
               gave_up a w (snd (script main c w))).

Lemma ends_nonzero_only_by {A} (main : A -> M unit) (gave_up : A -> world -> world -> Prop) :
  (forall a w w' code, main a w = (Exit code, w') -> code = 1 /\ gave_up a w w') ->
  ends_nonzero_only main gave_up.
Proof.
  intros Hexit [a | | text] w Hs.
  - unfold script, bind in *. cbn [parse_args ret] in *.
    destruct (main a w) as [[u | code | e] w'] eqn:E; cbn [fst snd exit_status] in *.
    + contradiction.
    + right. right. destruct (Hexit a w w' code E) as [-> Hg]. exists a. auto.
    + right. left. eauto.
  - left. split; reflexivity.
  - exfalso. apply Hs. reflexivity.
Qed.

Definition detail_missing : list response :=
  [error_response 404 "not found"; error_response 409 "conflict"].

(** C8, amended. A run ends with a status other than 0 only in three
    ways.  With status 2, when argparse turns the command line down.  With
    status 1, when an exception escapes, the scripts catching none
    (unreadable key, lost connection, payload without the expected fields).
    With status 1 by [sys.exit(1)], and then the script gave up on a setup
    failure: the token was issued, and the lookup the run ended on showed no
    record, the run having sent nothing after it: for setup_game_center the
    detail record, and the create that followed it gave none either; for
    add_gc_to_review the detail record or the review submissions; for
    submit_gc_for_review the detail record or the app store version.
    upload_gc_images never calls [sys.exit].  Refused sub-operations are no
    such case: with the detail found and all 121 creates refused,
    setup_game_center ends with 0. *)
Theorem nonzero_exit_causes :
  ends_nonzero_only SetupGameCenter.main setup_gave_up /\
  ends_nonzero_only UploadGcImages.main (fun _ _ _ => False) /\
  ends_nonzero_only AddGcToReview.main add_gave_up /\
  ends_nonzero_only SubmitGcForReview.main submit_gave_up /\
  exit_status (fst (script SetupGameCenter.main
                      (Parsed_args (setup_args "/keys/AuthKey.p8" false))
                      (sample_world all_refused))) = 0.
Proof.
  split; [| split; [| split; [| split]]].
  - apply ends_nonzero_only_by. exact setup_main_exit.
  - apply ends_nonzero_only_by. intros a w w' code H. exfalso.
    apply (UploadNoExit.upload_main_no_exit a w code). now rewrite H.
  - apply ends_nonzero_only_by. exact add_main_exit.
  - apply ends_nonzero_only_by. exact submit_main_exit.
  - vm_compute. reflexivity.
Qed.

Lemma nonzero_exit_causes_witness :
  exists a,
    Parsed_args (setup_args "/keys/AuthKey.p8" false) = Parsed_args a /\
    fst (script SetupGameCenter.main (Parsed_args (setup_args "/keys/AuthKey.p8" false))
           (sample_world detail_missing)) = Exit 1 /\
    setup_gave_up a (sample_world detail_missing)
      (snd (script SetupGameCenter.main (Parsed_args (setup_args "/keys/AuthKey.p8" false))
              (sample_world detail_missing))).
Proof.
  destruct (proj1 nonzero_exit_causes (Parsed_args (setup_args "/keys/AuthKey.p8" false))
              (sample_world detail_missing)) as [[Hc _] | [[e He] | H]].
  - vm_compute. discriminate.
  - discriminate Hc.
  - vm_compute in He. discriminate.
  - exact H.
Defined.
